(** * librle: Return Link Encapsulation

    A shallow embedding of the context, transmitter, encapsulation and
    reassembly code of librle, and the properties of the specification
    that can be settled on it.

    Conventions.  A C integer of width [w] is a [Z] and every store into
    such an object is written with its wrap-around ([wrap w]).  Byte
    buffers are lists of [Z].  A C array indexed by a fragment id is a
    function from [nat].  The [printf] diagnostics of rle_ctx.c and
    encap.c are returned as a list of [diagnostic] values; the traces of
    the [PRINT], [RLE_DEBUG], [RLE_WARN] and [RLE_ERR] macros, which are
    defined outside the sources, are not represented.  Taking and
    releasing [ctx_mutex] has no effect in this sequential model and is
    not represented either. *)

From Stdlib Require Import ZArith List Bool Lia.
Import ListNotations.
Local Open Scope Z_scope.

(** ** Machine integers *)

Definition wrap (w x : Z) : Z := x mod 2 ^ w.

Definition uint8 (x : Z) : Z := wrap 8 x.
Definition uint16 (x : Z) : Z := wrap 16 x.
Definition uint32 (x : Z) : Z := wrap 32 x.
Definition uint64 (x : Z) : Z := wrap 64 x.

(** ** constants.h

    Modelled from the spec: constants.h is not among the sources.  The
    specification fixes eight fragment-id contexts (ids 0..7) and a
    maximal SDU of 4088 bytes, the bound test_encap_too_big takes from
    RLE_MAX_PDU_SIZE. *)

Definition RLE_MAX_FRAG_NUMBER : nat := 8.
Definition RLE_MAX_FRAG_ID : Z := 7.
Definition RLE_MAX_PDU_SIZE : Z := 4088.

(** The status codes the functions return. *)
Inductive status :=
| C_OK
| C_ERROR
| C_ERROR_TOO_MUCH_FRAG
| C_REASSEMBLY_OK.

Definition status_eqb (a b : status) : bool :=
  match a, b with
  | C_OK, C_OK
  | C_ERROR, C_ERROR
  | C_ERROR_TOO_MUCH_FRAG, C_ERROR_TOO_MUCH_FRAG
  | C_REASSEMBLY_OK, C_REASSEMBLY_OK => true
  | _, _ => false
  end.

(** What a [printf] of rle_ctx.c or encap.c reports. *)
Inductive diagnostic :=
| Invalid_fragment_id (val : Z)
| Invalid_PDU_length (val : Z)
| Invalid_remaining_RLE_length (val : Z)
| Invalid_RLE_length (val : Z)
| Invalid_Label_type_value (val : Z)
| Useful_data_end_address_NULL
| PDU_too_large (size : Z)
| IP_version_not_supported (version : Z).

(** ** rle_ctx.c *)

Module RleCtx.

(** The statistics of one context, read by the getters the transmitter
    calls ([rle_ctx_get_counter_ok] and the like). *)
Record link_status := {
  counter_ok : Z;
  counter_dropped : Z;
  counter_lost : Z;
  counter_bytes : Z
}.

(** [struct rle_ctx_management]: the fields [flush] resets, in its order,
    the field [rle_ctx_set_end_address] writes, the buffer, and what the
    transmitter reads.  A pointer is an optional address, [None] being
    NULL. *)
Record rle_ctx_management := {
  frag_id : Z;                 (* uint8_t *)
  next_seq_nb : Z;             (* uint8_t *)
  is_fragmented : bool;
  frag_counter : Z;            (* uint8_t *)
  qos_tag : Z;                 (* uint32_t *)
  use_crc : bool;
  pdu_length : Z;              (* uint32_t *)
  remaining_pdu_length : Z;    (* uint32_t *)
  rle_length : Z;              (* uint32_t *)
  proto_type : Z;              (* uint16_t *)
  label_type : Z;              (* uint8_t *)
  error_nb : Z;
  error_type : Z;
  end_addr : option Z;
  end_address : option Z;
  buf : option Z;
  nb_frag_pdu : Z;             (* uint16_t *)
  stats : link_status
}.

Definition set_frag_id_field v c :=
  {| frag_id := v; next_seq_nb := next_seq_nb c; is_fragmented := is_fragmented c;
     frag_counter := frag_counter c; qos_tag := qos_tag c; use_crc := use_crc c;
     pdu_length := pdu_length c; remaining_pdu_length := remaining_pdu_length c;
     rle_length := rle_length c; proto_type := proto_type c; label_type := label_type c;
     error_nb := error_nb c; error_type := error_type c; end_addr := end_addr c;
     end_address := end_address c; buf := buf c; nb_frag_pdu := nb_frag_pdu c;
     stats := stats c |}.

Definition set_next_seq_nb_field v c :=
  {| frag_id := frag_id c; next_seq_nb := v; is_fragmented := is_fragmented c;
     frag_counter := frag_counter c; qos_tag := qos_tag c; use_crc := use_crc c;
     pdu_length := pdu_length c; remaining_pdu_length := remaining_pdu_length c;
     rle_length := rle_length c; proto_type := proto_type c; label_type := label_type c;
     error_nb := error_nb c; error_type := error_type c; end_addr := end_addr c;
     end_address := end_address c; buf := buf c; nb_frag_pdu := nb_frag_pdu c;
     stats := stats c |}.

Definition set_is_fragmented_field v c :=
  {| frag_id := frag_id c; next_seq_nb := next_seq_nb c; is_fragmented := v;
     frag_counter := frag_counter c; qos_tag := qos_tag c; use_crc := use_crc c;
     pdu_length := pdu_length c; remaining_pdu_length := remaining_pdu_length c;
     rle_length := rle_length c; proto_type := proto_type c; label_type := label_type c;
     error_nb := error_nb c; error_type := error_type c; end_addr := end_addr c;
     end_address := end_address c; buf := buf c; nb_frag_pdu := nb_frag_pdu c;
     stats := stats c |}.

Definition set_frag_counter_field v c :=
  {| frag_id := frag_id c; next_seq_nb := next_seq_nb c;
     is_fragmented := is_fragmented c; frag_counter := v; qos_tag := qos_tag c;
     use_crc := use_crc c; pdu_length := pdu_length c;
     remaining_pdu_length := remaining_pdu_length c; rle_length := rle_length c;
     proto_type := proto_type c; label_type := label_type c; error_nb := error_nb c;
     error_type := error_type c; end_addr := end_addr c; end_address := end_address c;
     buf := buf c; nb_frag_pdu := nb_frag_pdu c; stats := stats c |}.

Definition set_qos_tag_field v c :=
  {| frag_id := frag_id c; next_seq_nb := next_seq_nb c;
     is_fragmented := is_fragmented c; frag_counter := frag_counter c; qos_tag := v;
     use_crc := use_crc c; pdu_length := pdu_length c;
     remaining_pdu_length := remaining_pdu_length c; rle_length := rle_length c;
     proto_type := proto_type c; label_type := label_type c; error_nb := error_nb c;
     error_type := error_type c; end_addr := end_addr c; end_address := end_address c;
     buf := buf c; nb_frag_pdu := nb_frag_pdu c; stats := stats c |}.

Definition set_use_crc_field v c :=
  {| frag_id := frag_id c; next_seq_nb := next_seq_nb c;
     is_fragmented := is_fragmented c; frag_counter := frag_counter c;
     qos_tag := qos_tag c; use_crc := v; pdu_length := pdu_length c;
     remaining_pdu_length := remaining_pdu_length c; rle_length := rle_length c;
     proto_type := proto_type c; label_type := label_type c; error_nb := error_nb c;
     error_type := error_type c; end_addr := end_addr c; end_address := end_address c;
     buf := buf c; nb_frag_pdu := nb_frag_pdu c; stats := stats c |}.

Definition set_pdu_length_field v c :=
  {| frag_id := frag_id c; next_seq_nb := next_seq_nb c;
     is_fragmented := is_fragmented c; frag_counter := frag_counter c;
     qos_tag := qos_tag c; use_crc := use_crc c; pdu_length := v;
     remaining_pdu_length := remaining_pdu_length c; rle_length := rle_length c;
     proto_type := proto_type c; label_type := label_type c; error_nb := error_nb c;
     error_type := error_type c; end_addr := end_addr c; end_address := end_address c;
     buf := buf c; nb_frag_pdu := nb_frag_pdu c; stats := stats c |}.

Definition set_remaining_pdu_length_field v c :=
  {| frag_id := frag_id c; next_seq_nb := next_seq_nb c;
     is_fragmented := is_fragmented c; frag_counter := frag_counter c;
     qos_tag := qos_tag c; use_crc := use_crc c; pdu_length := pdu_length c;
     remaining_pdu_length := v; rle_length := rle_length c; proto_type := proto_type c;
     label_type := label_type c; error_nb := error_nb c; error_type := error_type c;
     end_addr := end_addr c; end_address := end_address c; buf := buf c;
     nb_frag_pdu := nb_frag_pdu c; stats := stats c |}.

Definition set_rle_length_field v c :=
  {| frag_id := frag_id c; next_seq_nb := next_seq_nb c;
     is_fragmented := is_fragmented c; frag_counter := frag_counter c;
     qos_tag := qos_tag c; use_crc := use_crc c; pdu_length := pdu_length c;
     remaining_pdu_length := remaining_pdu_length c; rle_length := v;
     proto_type := proto_type c; label_type := label_type c; error_nb := error_nb c;
     error_type := error_type c; end_addr := end_addr c; end_address := end_address c;
     buf := buf c; nb_frag_pdu := nb_frag_pdu c; stats := stats c |}.

Definition set_proto_type_field v c :=
  {| frag_id := frag_id c; next_seq_nb := next_seq_nb c;
     is_fragmented := is_fragmented c; frag_counter := frag_counter c;
     qos_tag := qos_tag c; use_crc := use_crc c; pdu_length := pdu_length c;
     remaining_pdu_length := remaining_pdu_length c; rle_length := rle_length c;
     proto_type := v; label_type := label_type c; error_nb := error_nb c;
     error_type := error_type c; end_addr := end_addr c; end_address := end_address c;
     buf := buf c; nb_frag_pdu := nb_frag_pdu c; stats := stats c |}.

Definition set_label_type_field v c :=
  {| frag_id := frag_id c; next_seq_nb := next_seq_nb c;
     is_fragmented := is_fragmented c; frag_counter := frag_counter c;
     qos_tag := qos_tag c; use_crc := use_crc c; pdu_length := pdu_length c;
     remaining_pdu_length := remaining_pdu_length c; rle_length := rle_length c;
     proto_type := proto_type c; label_type := v; error_nb := error_nb c;
     error_type := error_type c; end_addr := end_addr c; end_address := end_address c;
     buf := buf c; nb_frag_pdu := nb_frag_pdu c; stats := stats c |}.

Definition set_end_addr_field v c :=
  {| frag_id := frag_id c; next_seq_nb := next_seq_nb c;
     is_fragmented := is_fragmented c; frag_counter := frag_counter c;
     qos_tag := qos_tag c; use_crc := use_crc c; pdu_length := pdu_length c;
     remaining_pdu_length := remaining_pdu_length c; rle_length := rle_length c;
     proto_type := proto_type c; label_type := label_type c; error_nb := error_nb c;
     error_type := error_type c; end_addr := v; end_address := end_address c;
     buf := buf c; nb_frag_pdu := nb_frag_pdu c; stats := stats c |}.

Definition set_end_address_field v c :=
  {| frag_id := frag_id c; next_seq_nb := next_seq_nb c;
     is_fragmented := is_fragmented c; frag_counter := frag_counter c;
     qos_tag := qos_tag c; use_crc := use_crc c; pdu_length := pdu_length c;
     remaining_pdu_length := remaining_pdu_length c; rle_length := rle_length c;
     proto_type := proto_type c; label_type := label_type c; error_nb := error_nb c;
     error_type := error_type c; end_addr := end_addr c; end_address := v; buf := buf c;
     nb_frag_pdu := nb_frag_pdu c; stats := stats c |}.

Definition set_buf_field v c :=
  {| frag_id := frag_id c; next_seq_nb := next_seq_nb c;
     is_fragmented := is_fragmented c; frag_counter := frag_counter c;
     qos_tag := qos_tag c; use_crc := use_crc c; pdu_length := pdu_length c;
     remaining_pdu_length := remaining_pdu_length c; rle_length := rle_length c;
     proto_type := proto_type c; label_type := label_type c; error_nb := error_nb c;
     error_type := error_type c; end_addr := end_addr c; end_address := end_address c;
     buf := v; nb_frag_pdu := nb_frag_pdu c; stats := stats c |}.

Definition set_stats_field v c :=
  {| frag_id := frag_id c; next_seq_nb := next_seq_nb c;
     is_fragmented := is_fragmented c; frag_counter := frag_counter c;
     qos_tag := qos_tag c; use_crc := use_crc c; pdu_length := pdu_length c;
     remaining_pdu_length := remaining_pdu_length c; rle_length := rle_length c;
     proto_type := proto_type c; label_type := label_type c; error_nb := error_nb c;
     error_type := error_type c; end_addr := end_addr c; end_address := end_address c;
     buf := buf c; nb_frag_pdu := nb_frag_pdu c; stats := v |}.

(** [flush]: every variable goes to zero or to an invalid value. *)
Definition flush (_this : rle_ctx_management) : rle_ctx_management :=
  {| frag_id := 0xff; next_seq_nb := 0xff; is_fragmented := false;
     frag_counter := 0; qos_tag := 0xffffffff; use_crc := false;
     pdu_length := 0; remaining_pdu_length := 0; rle_length := 0;
     proto_type := 0xffff; label_type := 0xff; error_nb := 0; error_type := 0;
     end_addr := None;
     end_address := end_address _this; buf := buf _this;
     nb_frag_pdu := nb_frag_pdu _this; stats := stats _this |}.

(** [rle_ctx_init]; [allocated] is what [malloc] returns.  The buffer is
    zeroed; its contents are not represented. *)
Definition rle_ctx_init (_this : rle_ctx_management) (allocated : option Z)
  : status * rle_ctx_management :=
  let c := flush (set_buf_field None _this) in
  match allocated with
  | None => (C_ERROR, c)
  | Some _ => (C_OK, set_end_addr_field allocated (set_buf_field allocated c))
  end.

Definition rle_ctx_destroy (_this : rle_ctx_management) : status * rle_ctx_management :=
  (C_OK, set_buf_field None (flush _this)).

Definition rle_ctx_set_frag_id (_this : rle_ctx_management) (val : Z)
  : rle_ctx_management * list diagnostic :=
  if RLE_MAX_FRAG_ID <? val then (_this, [Invalid_fragment_id val])
  else (set_frag_id_field val _this, []).

Definition rle_ctx_get_frag_id (_this : rle_ctx_management) : Z := frag_id _this.

Definition rle_ctx_set_seq_nb (_this : rle_ctx_management) (val : Z) : rle_ctx_management :=
  set_next_seq_nb_field val _this.

(** [_this->next_seq_nb++] on a [uint8_t]. *)
Definition rle_ctx_incr_seq_nb (_this : rle_ctx_management) : rle_ctx_management :=
  set_next_seq_nb_field (uint8 (next_seq_nb _this + 1)) _this.

Definition rle_ctx_set_is_fragmented (_this : rle_ctx_management) (val : bool) :=
  set_is_fragmented_field val _this.

Definition rle_ctx_set_frag_counter (_this : rle_ctx_management) (val : Z) :=
  set_frag_counter_field val _this.

Definition rle_ctx_incr_frag_counter (_this : rle_ctx_management) :=
  set_frag_counter_field (uint8 (frag_counter _this + 1)) _this.

Definition rle_ctx_set_qos_tag (_this : rle_ctx_management) (val : Z) :=
  set_qos_tag_field val _this.

Definition rle_ctx_set_use_crc (_this : rle_ctx_management) (val : bool) :=
  set_use_crc_field val _this.

Definition rle_ctx_set_pdu_length (_this : rle_ctx_management) (val : Z)
  : rle_ctx_management * list diagnostic :=
  if RLE_MAX_PDU_SIZE <? val then (_this, [Invalid_PDU_length val])
  else (set_pdu_length_field val _this, []).

Definition rle_ctx_get_pdu_length (_this : rle_ctx_management) : Z := pdu_length _this.

Definition rle_ctx_set_remaining_pdu_length (_this : rle_ctx_management) (val : Z)
  : rle_ctx_management * list diagnostic :=
  if RLE_MAX_PDU_SIZE <? val then (_this, [Invalid_remaining_RLE_length val])
  else (set_remaining_pdu_length_field val _this, []).

Definition rle_ctx_set_rle_length (_this : rle_ctx_management) (val : Z)
  : rle_ctx_management * list diagnostic :=
  if RLE_MAX_PDU_SIZE <? val then (_this, [Invalid_RLE_length val])
  else (set_rle_length_field val _this, []).

Definition rle_ctx_set_proto_type (_this : rle_ctx_management) (val : Z) :=
  set_proto_type_field val _this.

Definition rle_ctx_get_proto_type (_this : rle_ctx_management) : Z := proto_type _this.

Definition rle_ctx_get_label_type (_this : rle_ctx_management) : Z := label_type _this.

Definition rle_ctx_set_end_address (_this : rle_ctx_management) (addr : option Z)
  : rle_ctx_management * list diagnostic :=
  match addr with
  | None => (_this, [Useful_data_end_address_NULL])
  | Some _ => (set_end_address_field addr _this, [])
  end.

Definition rle_ctx_get_end_address (_this : rle_ctx_management) : option Z :=
  end_address _this.

(** Modelled from the spec: the statistics helpers of rle_ctx.h are not
    among the sources.  Each getter reads its counter; the increment the
    transmitter calls on a failure adds one to the dropped counter, kept
    in 64 bits like the totals the transmitter returns. *)
Definition rle_ctx_get_counter_ok (_this : rle_ctx_management) : Z :=
  counter_ok (stats _this).
Definition rle_ctx_get_counter_dropped (_this : rle_ctx_management) : Z :=
  counter_dropped (stats _this).
Definition rle_ctx_get_counter_lost (_this : rle_ctx_management) : Z :=
  counter_lost (stats _this).
Definition rle_ctx_get_counter_bytes (_this : rle_ctx_management) : Z :=
  counter_bytes (stats _this).

Definition rle_ctx_incr_counter_dropped (_this : rle_ctx_management) : rle_ctx_management :=
  set_stats_field
    {| counter_ok := counter_ok (stats _this);
       counter_dropped := uint64 (counter_dropped (stats _this) + 1);
       counter_lost := counter_lost (stats _this);
       counter_bytes := counter_bytes (stats _this) |} _this.

Section LabelType.

(** The two legal label types; their values are in constants.h, which is
    not among the sources. *)
Variables RLE_LT_IMPLICIT_PROTO_TYPE RLE_LT_PROTO_SIGNAL : Z.

(** The guard is [(val != IMPLICIT) || (val != SIGNAL)]. *)
Definition rle_ctx_set_label_type (_this : rle_ctx_management) (val : Z)
  : rle_ctx_management * list diagnostic :=
  if negb (val =? RLE_LT_IMPLICIT_PROTO_TYPE) || negb (val =? RLE_LT_PROTO_SIGNAL)
  then (_this, [Invalid_Label_type_value val])
  else (set_label_type_field val _this, []).

End LabelType.

(** A context before [rle_ctx_init], and as the transmitter's [init]
    leaves context [i]: [rle_ctx_init], then the fragment id and the
    sequence number are set. *)
Definition blank : rle_ctx_management :=
  {| frag_id := 0; next_seq_nb := 0; is_fragmented := false; frag_counter := 0;
     qos_tag := 0; use_crc := false; pdu_length := 0; remaining_pdu_length := 0;
     rle_length := 0; proto_type := 0; label_type := 0; error_nb := 0;
     error_type := 0; end_addr := None; end_address := None; buf := None;
     nb_frag_pdu := 0;
     stats := {| counter_ok := 0; counter_dropped := 0; counter_lost := 0;
                 counter_bytes := 0 |} |}.

Definition initialised (i : Z) : rle_ctx_management :=
  let c := snd (rle_ctx_init blank (Some (0x10000 * (i + 1)))) in
  rle_ctx_set_seq_nb (fst (rle_ctx_set_frag_id c i)) 0.

(** [n] reservations of a sequence number in a row. *)
Fixpoint incr_seq_nb_times (n : nat) (c : rle_ctx_management) : rle_ctx_management :=
  match n with
  | O => c
  | S k => rle_ctx_incr_seq_nb (incr_seq_nb_times k c)
  end.

End RleCtx.

(** ** rle_transmitter.c *)

Module RleTransmitter.
Import RleCtx.

Section Transmitter.

(** The configuration structure and the encapsulation and fragmentation
    entry points this file calls ([encap_encapsulate_pdu] with its five
    arguments, [fragmentation_fragment_pdu]) are declared in headers that
    are not among the sources: they are parameters here.  Each returns
    its status and the context it leaves. *)
Variable rle_configuration : Type.
Variable encap_encapsulate_pdu :
  rle_ctx_management -> rle_configuration -> list Z -> Z -> Z -> status * rle_ctx_management.
Variable fragmentation_fragment_pdu :
  rle_ctx_management -> rle_configuration -> Z -> Z -> status * rle_ctx_management.
Variable RLE_MAX_SEQ_NO : Z.
(** What [malloc] returns for the buffer of each context. *)
Variable malloc : nat -> option Z.

(** [struct rle_transmitter].  [free_ctx] is the 8-bit bitmap of the
    specification. *)
Record rle_transmitter := {
  rle_ctx_man : nat -> rle_ctx_management;
  free_ctx : Z;
  rle_conf : rle_configuration
}.

(** The functions of this file act on the transmitter through a pointer:
    each is a computation on the transmitter state. *)
Definition M (A : Type) : Type := rle_transmitter -> A * rle_transmitter.

Definition ret {A : Type} (a : A) : M A := fun t => (a, t).

Definition bind {A B : Type} (m : M A) (f : A -> M B) : M B :=
  fun t => let (a, t') := m t in f a t'.

Notation "x <- m ;; k" := (bind m (fun x => k))
  (at level 61, m at next level, right associativity).
Notation "m ;;; k" := (bind m (fun _ => k))
  (at level 61, right associativity).

Definition load_free_ctx : M Z := fun t => (free_ctx t, t).

Definition store_free_ctx (v : Z) : M unit := fun t =>
  (tt, {| rle_ctx_man := rle_ctx_man t; free_ctx := uint8 v; rle_conf := rle_conf t |}).

Definition load_ctx (i : nat) : M rle_ctx_management := fun t => (rle_ctx_man t i, t).

Definition store_ctx (i : nat) (c : rle_ctx_management) : M unit := fun t =>
  (tt, {| rle_ctx_man := fun j => if Nat.eqb j i then c else rle_ctx_man t j;
          free_ctx := free_ctx t; rle_conf := rle_conf t |}).

Definition load_conf : M rle_configuration := fun t => (rle_conf t, t).

(** [for (i = from; i < from + count; i++) acc = body(i, acc);] *)
Fixpoint for_loop {A : Type} (count from : nat) (body : nat -> A -> M A) (acc : A) : M A :=
  match count with
  | O => ret acc
  | S k => acc' <- body from acc ;; for_loop k (S from) body acc'
  end.

(** [((free_ctx >> frag_id) & 0x1) ? C_TRUE : C_FALSE] *)
Definition is_frag_ctx_free (frag_id : Z) : M bool :=
  bits <- load_free_ctx ;;
  ret (negb (Z.land (Z.shiftr bits frag_id) 0x1 =? 0)).

(** [free_ctx |= (1 << index)] *)
Definition set_nonfree_frag_ctx (index : Z) : M unit :=
  bits <- load_free_ctx ;;
  store_free_ctx (Z.lor bits (Z.shiftl 1 index)).

(** [free_ctx = (0 << index) & 0xff] *)
Definition set_free_frag_ctx (index : Z) : M unit :=
  store_free_ctx (Z.land (Z.shiftl 0 index) 0xff).

Definition set_free_all_frag_ctx : M unit := store_free_ctx 0.

Definition init : M unit :=
  for_loop RLE_MAX_FRAG_NUMBER 0
    (fun i _ =>
       c <- load_ctx i ;;
       let c1 := snd (rle_ctx_init c (malloc i)) in
       let c2 := fst (rle_ctx_set_frag_id c1 (Z.of_nat i)) in
       store_ctx i (rle_ctx_set_seq_nb c2 0)) tt ;;;
  set_free_all_frag_ctx.

(** [rle_transmitter_encap_data]; a NULL [data_buffer] is [None].  The
    transmitter pointer is the state the computation runs on, so the
    NULL-transmitter return has no counterpart. *)
Definition rle_transmitter_encap_data (data_buffer : option (list Z)) (data_length : Z)
    (protocol_type : Z) (frag_id : Z) : M status :=
  match data_buffer with
  | None => ret C_ERROR
  | Some data =>
      busy <- is_frag_ctx_free frag_id ;;
      if busy then ret C_ERROR
      else
        set_nonfree_frag_ctx frag_id ;;;
        c <- load_ctx (Z.to_nat frag_id) ;;
        conf <- load_conf ;;
        let (r, c') := encap_encapsulate_pdu c conf data data_length protocol_type in
        store_ctx (Z.to_nat frag_id) c' ;;;
        match r with
        | C_ERROR =>
            c'' <- load_ctx (Z.to_nat frag_id) ;;
            store_ctx (Z.to_nat frag_id) (rle_ctx_incr_counter_dropped c'') ;;;
            set_free_frag_ctx frag_id ;;;
            ret C_ERROR
        | _ => ret C_OK
        end
  end.

Definition rle_transmitter_get_packet (burst_length : Z) (fragment_id : Z)
    (protocol_type : Z) : M status :=
  c <- load_ctx (Z.to_nat fragment_id) ;;
  let number_frags := nb_frag_pdu c in
  r <- (if RLE_MAX_SEQ_NO <=? number_frags then ret C_ERROR_TOO_MUCH_FRAG
        else
          conf <- load_conf ;;
          let (r, c') := fragmentation_fragment_pdu c conf burst_length protocol_type in
          store_ctx (Z.to_nat fragment_id) c' ;;;
          ret r) ;;
  match r with
  | C_OK => ret r
  | _ =>
      c'' <- load_ctx (Z.to_nat fragment_id) ;;
      store_ctx (Z.to_nat fragment_id) (rle_ctx_incr_counter_dropped c'') ;;;
      set_free_frag_ctx fragment_id ;;;
      ret r
  end.

Definition rle_transmitter_free_context (fragment_id : Z) : M unit :=
  set_free_frag_ctx fragment_id.

(** [rle_transmitter_module_destroy], up to the release of the
    configuration ([rle_conf_destroy], not among the sources) and of the
    transmitter itself. *)
Definition rle_transmitter_module_destroy : M unit :=
  for_loop RLE_MAX_FRAG_NUMBER 0
    (fun i _ =>
       c <- load_ctx i ;;
       store_ctx i (snd (rle_ctx_destroy c))) tt ;;;
  set_free_all_frag_ctx.

(** The four totals: [uint64_t ctr = 0L; for (i...) ctr += getter(ctx[i]);] *)
Definition sum_counter (getter : rle_ctx_management -> Z) : M Z :=
  for_loop RLE_MAX_FRAG_NUMBER 0
    (fun i ctr =>
       rle_ctx <- load_ctx i ;;
       ret (uint64 (ctr + getter rle_ctx))) 0.

Definition rle_transmitter_get_counter_ok : M Z := sum_counter rle_ctx_get_counter_ok.
Definition rle_transmitter_get_counter_dropped : M Z := sum_counter rle_ctx_get_counter_dropped.
Definition rle_transmitter_get_counter_lost : M Z := sum_counter rle_ctx_get_counter_lost.
Definition rle_transmitter_get_counter_bytes : M Z := sum_counter rle_ctx_get_counter_bytes.

(** The mathematical sum of one counter over the eight contexts. *)
Definition total (getter : rle_ctx_management -> Z) (t : rle_transmitter) : Z :=
  getter (rle_ctx_man t 0%nat) + getter (rle_ctx_man t 1%nat)
  + getter (rle_ctx_man t 2%nat) + getter (rle_ctx_man t 3%nat)
  + getter (rle_ctx_man t 4%nat) + getter (rle_ctx_man t 5%nat)
  + getter (rle_ctx_man t 6%nat) + getter (rle_ctx_man t 7%nat).

(** The sum of one counter over [count] contexts from context [from]. *)
Fixpoint range_sum (getter : rle_ctx_management -> Z) (t : rle_transmitter)
    (count from : nat) : Z :=
  match count with
  | O => 0
  | S k => getter (rle_ctx_man t from) + range_sum getter t k (S from)
  end.

(** Bit [i] of the bitmap. *)
Definition ctx_bit (t : rle_transmitter) (i : Z) : bool := Z.testbit (free_ctx t) i.

End Transmitter.

Arguments rle_ctx_man {rle_configuration} _ _.
Arguments free_ctx {rle_configuration} _.
Arguments rle_conf {rle_configuration} _.
Arguments Build_rle_transmitter {rle_configuration} _ _ _.
Arguments ret {rle_configuration A} _ _.
Arguments bind {rle_configuration A B} _ _ _.
Arguments is_frag_ctx_free {rle_configuration} _ _.
Arguments set_nonfree_frag_ctx {rle_configuration} _ _.
Arguments set_free_frag_ctx {rle_configuration} _ _.
Arguments set_free_all_frag_ctx {rle_configuration} _.
Arguments rle_transmitter_free_context {rle_configuration} _ _.
Arguments sum_counter {rle_configuration} _ _.
Arguments rle_transmitter_get_counter_ok {rle_configuration} _.
Arguments rle_transmitter_get_counter_dropped {rle_configuration} _.
Arguments rle_transmitter_get_counter_lost {rle_configuration} _.
Arguments rle_transmitter_get_counter_bytes {rle_configuration} _.
Arguments total {rle_configuration} _ _.
Arguments ctx_bit {rle_configuration} _ _.
Arguments range_sum {rle_configuration} _ _ _ _.
Arguments init {rle_configuration} _ _.
Arguments rle_transmitter_module_destroy {rle_configuration} _.

(** A transmitter as [rle_transmitter_module_new] leaves it (with a
    configuration that carries nothing), then with encapsulations
    pending on fragment ids 0 and 1. *)
Definition fresh : rle_transmitter unit :=
  snd (init (fun i => Some (0x10000 * (Z.of_nat i + 1)))
         {| rle_ctx_man := fun _ => blank; free_ctx := 0; rle_conf := tt |}).

Definition two_in_use : rle_transmitter unit :=
  snd (bind (set_nonfree_frag_ctx 0) (fun _ => set_nonfree_frag_ctx 1) fresh).

(** The same transmitter with some statistics in its contexts. *)
Definition with_statistics : rle_transmitter unit :=
  {| rle_ctx_man := fun i =>
       set_stats_field
         {| counter_ok := Z.of_nat i; counter_dropped := 1;
            counter_lost := 0; counter_bytes := 100 * Z.of_nat i |}
         (rle_ctx_man fresh i);
     free_ctx := 0; rle_conf := tt |}.

(** The fresh transmitter after [n] fragments were taken from the
    context of fragment id 0, and two stand-ins for the encapsulation
    and the fragmentation: one that accepts and leaves the context as it
    is, one that fails. *)
Definition with_nb_frag_pdu (n : Z) (c : rle_ctx_management) : rle_ctx_management :=
  {| frag_id := frag_id c; next_seq_nb := next_seq_nb c;
     is_fragmented := is_fragmented c; frag_counter := frag_counter c;
     qos_tag := qos_tag c; use_crc := use_crc c; pdu_length := pdu_length c;
     remaining_pdu_length := remaining_pdu_length c; rle_length := rle_length c;
     proto_type := proto_type c; label_type := label_type c; error_nb := error_nb c;
     error_type := error_type c; end_addr := end_addr c; end_address := end_address c;
     buf := buf c; nb_frag_pdu := n; stats := stats c |}.

Definition fragmented (n : Z) : rle_transmitter unit :=
  {| rle_ctx_man := fun i =>
       if Nat.eqb i 0 then with_nb_frag_pdu n (rle_ctx_man fresh i)
       else rle_ctx_man fresh i;
     free_ctx := 1; rle_conf := tt |}.

Definition accepting_encap (c : rle_ctx_management) (_ : unit) (_ : list Z) (_ _ : Z)
  : status * rle_ctx_management := (C_OK, c).

Definition failing_encap (c : rle_ctx_management) (_ : unit) (_ : list Z) (_ _ : Z)
  : status * rle_ctx_management := (C_ERROR, c).

Definition one_more_fragment (c : rle_ctx_management) (_ : unit) (_ _ : Z)
  : status * rle_ctx_management := (C_OK, with_nb_frag_pdu (nb_frag_pdu c + 1) c).

End RleTransmitter.

(** ** encap.c *)

Module Encap.
Import RleCtx.

(** A buffer handed over by the caller: where it lives and what it holds. *)
Record data_buffer := {
  base : Z;
  bytes : list Z
}.

(** The fields of [zc_rle_header_complete] that [create_header] fills.
    The bit-field widths are in zc_buffer.h, which is not among the
    sources: each field holds the value the code assigns. *)
Record zc_rle_header_complete := {
  start_ind : Z;
  end_ind : Z;
  rle_packet_length : Z;
  hdr_label_type : Z;
  proto_type_supp : Z;
  hdr_proto_type : Z;
  ptrs_start : option Z;
  ptrs_end : option Z
}.

Definition IP_VERSION_4 : Z := 4.
Definition IP_VERSION_6 : Z := 6.

(** The fields of [struct iphdr] the check reads: the version is the
    high nibble of byte 0 and [tot_len] is bytes 2 and 3 in network
    order.  A read past the end of the buffer has no defined result. *)
Definition iphdr_version (buf : list Z) : option Z :=
  match nth_error buf 0 with
  | Some b0 => Some (Z.land (Z.shiftr b0 4) 0x0f)
  | None => None
  end.

Definition iphdr_tot_len_ntohs (buf : list Z) : option Z :=
  match nth_error buf 2, nth_error buf 3 with
  | Some b2, Some b3 => Some (Z.lor (Z.shiftl b2 8) b3)
  | _, _ => None
  end.

(** [ip_hdr->tot_len] as it is stored, without [ntohs]: the value a
    little-endian host reads in bytes 2 and 3. *)
Definition iphdr_tot_len (buf : list Z) : option Z :=
  match nth_error buf 2, nth_error buf 3 with
  | Some b2, Some b3 => Some (Z.lor (Z.shiftl b3 8) b2)
  | _, _ => None
  end.

(** [encap_check_pdu_validity]: the size compared with RLE_MAX_PDU_SIZE
    is the total length announced by the IP header; the size printed is
    the field as it is stored. *)
Definition encap_check_pdu_validity (buf : data_buffer)
  : option (status * list diagnostic) :=
  match iphdr_tot_len (bytes buf), iphdr_tot_len_ntohs (bytes buf),
        iphdr_version (bytes buf) with
  | Some tot_len, Some ip_len, Some version =>
      if RLE_MAX_PDU_SIZE <? ip_len then Some (C_ERROR, [PDU_too_large tot_len])
      else if negb (version =? IP_VERSION_4) && negb (version =? IP_VERSION_6)
           then Some (C_ERROR, [IP_version_not_supported version])
           else Some (C_OK, [])
  | _, _, _ => None
  end.

Section Constants.

(** Values of constants.h and of the platform, not among the sources. *)
Variables RLE_LT_IMPLICIT_PROTO_TYPE RLE_LT_PROTO_SIGNAL : Z.
Variables RLE_T_PROTO_TYPE_NO_SUPP RLE_PROTO_TYPE_IP RLE_PROTO_TYPE_FIELD_SIZE : Z.
(** [sizeof(int * )] and [sizeof(int)], for the arithmetic on [int * ]. *)
Variables sizeof_int_ptr sizeof_int : Z.

(** [create_header].  The header is written at [rle_ctx->buf], which
    [rle_ctx_init] has allocated; [data_length], a [size_t], reaches the
    length setters as [uint32_t]. *)
Definition create_header (rle_ctx : rle_ctx_management) (buf : data_buffer) (data_length : Z)
  : status * rle_ctx_management * zc_rle_header_complete * list diagnostic :=
  let p_start := base buf in
  let p_end := base buf + data_length in
  let rle_hdr :=
    {| start_ind := 1; end_ind := 1; rle_packet_length := data_length;
       hdr_label_type := RLE_LT_IMPLICIT_PROTO_TYPE;
       proto_type_supp := RLE_T_PROTO_TYPE_NO_SUPP;
       hdr_proto_type := RLE_PROTO_TYPE_IP;
       ptrs_start := Some p_start; ptrs_end := Some p_end |} in
  let '(c1, d1) := rle_ctx_set_end_address rle_ctx (Some (p_end + sizeof_int_ptr * sizeof_int)) in
  let c2 := rle_ctx_set_is_fragmented c1 false in
  let c3 := rle_ctx_set_frag_counter c2 1 in
  let c4 := rle_ctx_set_use_crc c3 false in
  let '(c5, d5) := rle_ctx_set_pdu_length c4 (uint32 data_length) in
  let '(c6, d6) := rle_ctx_set_remaining_pdu_length c5 (uint32 data_length) in
  let '(c7, d7) :=
    rle_ctx_set_rle_length c6 (uint32 (data_length + RLE_PROTO_TYPE_FIELD_SIZE)) in
  let c8 := rle_ctx_set_proto_type c7 (hdr_proto_type rle_hdr) in
  let '(c9, d9) :=
    rle_ctx_set_label_type RLE_LT_IMPLICIT_PROTO_TYPE RLE_LT_PROTO_SIGNAL c8
      (hdr_label_type rle_hdr) in
  let c10 := rle_ctx_set_qos_tag c9 0 in
  (C_OK, c10, rle_hdr, d1 ++ d5 ++ d6 ++ d7 ++ d9).

(** What a call leaves: the status, the context, the header written at
    the head of the context's buffer (if any) and the messages. *)
Record outcome := {
  result : status;
  ctx_after : rle_ctx_management;
  header_written : option zc_rle_header_complete;
  messages : list diagnostic
}.

Definition encap_encapsulate_pdu (rle_ctx : rle_ctx_management) (buf : data_buffer)
    (data_length : Z) : option outcome :=
  match encap_check_pdu_validity buf with
  | None => None
  | Some (C_ERROR, d) =>
      Some {| result := C_ERROR; ctx_after := rle_ctx; header_written := None; messages := d |}
  | Some (_, d) =>
      let '(r, c, h, d') := create_header rle_ctx buf data_length in
      match r with
      | C_ERROR =>
          Some {| result := C_ERROR; ctx_after := c; header_written := Some h;
                  messages := d ++ d' |}
      | _ =>
          Some {| result := C_OK; ctx_after := c; header_written := Some h;
                  messages := d ++ d' |}
      end
  end.

End Constants.

(** An SDU of [length] bytes that starts as an IPv4 header announcing a
    total length of 20 and goes on with zeroes. *)
Definition ipv4_sdu (length : nat) : data_buffer :=
  {| base := 0x1000;
     bytes := firstn length ([0x45; 0x00; 0x00; 0x14] ++ repeat 0 (length - 4)) |}.

(** An SDU of [length] zero bytes, the payload of the specification's
    scenarios. *)
Definition zero_sdu (length : nat) : data_buffer :=
  {| base := 0x1000; bytes := repeat 0 length |}.

End Encap.

(** ** The configuration

    [struct rle_config], with the fields the tests initialise. *)
Record rle_config := {
  allow_ptype_omission : bool;
  use_compressed_ptype : bool;
  allow_alpdu_crc : bool;
  allow_alpdu_sequence_number : bool;
  use_explicit_payload_header_map : bool;
  implicit_protocol_type : Z;
  implicit_ppdu_label_size : Z;
  implicit_payload_label_size : Z;
  type_0_alpdu_label_size : Z
}.

(** ** reassembly.c *)

Module Reassembly.

(** [struct rle_sdu]: the storage the caller provides, how many of its
    bytes are the SDU, and the protocol type. *)
Record rle_sdu := {
  buffer : list Z;
  size : Z;
  protocol_type : Z
}.

(** Protocol types of rle_header_proto_type_field.h, which is not among
    the sources: the EtherTypes are those of the specification's tables,
    0x31 is the compressed code "VLAN without protocol type field". *)
Definition RLE_PROTO_TYPE_VLAN_UNCOMP : Z := 0x8100.
Definition RLE_PROTO_TYPE_IPV4_UNCOMP : Z := 0x0800.
Definition RLE_PROTO_TYPE_IPV6_UNCOMP : Z := 0x86dd.
Definition RLE_PROTO_TYPE_VLAN_COMP_WO_PTYPE_FIELD : Z := 0x31.

(** Layout of the Ethernet header ([struct ether_header]: two 6-byte
    addresses, then [ether_type]).  Modelled from the spec: [struct
    vlan_hdr] is not among the sources; it is the 4-byte VLAN tag whose
    protocol type field follows the 2-byte tag control information. *)
Definition sizeof_ether_header : nat := 14.
Definition offsetof_ether_type : nat := 12.
Definition sizeof_vlan_hdr : nat := 4.
Definition offsetof_tpid : nat := 2.
Definition sizeof_uint16 : nat := 2.

(** Modelled from the spec: the trailer types of trailer.h are not among
    the sources; the CRC trailer has 4 bytes and the sequence number
    trailer 1, the uncompressed ALPDU header 2. *)
Definition sizeof_rle_alpdu_crc_trailer_t : Z := 4.
Definition sizeof_rle_alpdu_seqno_trailer_t : Z := 1.
Definition sizeof_rle_alpdu_hdr_uncomp_t : Z := 2.

(** [memcpy(dst + off, src, n)] on the storage [dst]. *)
Definition memcpy (dst : list Z) (off : nat) (src : list Z) (n : nat) : list Z :=
  firstn off dst ++ firstn n src ++ skipn (off + n) dst.

(** A 16-bit value in network byte order. *)
Definition htons_bytes (v : Z) : list Z := [Z.land (Z.shiftr v 8) 0xff; Z.land v 0xff].

Definition ntohs_at (buf : list Z) (off : nat) : Z :=
  Z.lor (Z.shiftl (nth off buf 0) 8) (nth (S off) buf 0).

(** [reassembly_insert_vlan_ptype]: [None] is the [false] return, which
    leaves [reassembled_sdu] as it was. *)
Definition reassembly_insert_vlan_ptype (sdu_frag : list Z) (reassembled_sdu : rle_sdu)
  : option rle_sdu :=
  let sdu_frag_len := length sdu_frag in
  let comp_eth_vlan_len := (sizeof_ether_header + sizeof_vlan_hdr - sizeof_uint16)%nat in
  let sdu_min_len := (comp_eth_vlan_len + 1)%nat in
  if (sdu_frag_len <? sdu_min_len)%nat then None
  else
    let eth_proto_type := ntohs_at sdu_frag offsetof_ether_type in
    let vlan_payload := skipn (sizeof_ether_header + sizeof_vlan_hdr - sizeof_uint16) sdu_frag in
    let ip_version := Z.land (Z.shiftr (nth 0 vlan_payload 0) 4) 0x0f in
    if negb (eth_proto_type =? RLE_PROTO_TYPE_VLAN_UNCOMP) then None
    else
      let deduced :=
        if ip_version =? 4 then Some RLE_PROTO_TYPE_IPV4_UNCOMP
        else if ip_version =? 6 then Some RLE_PROTO_TYPE_IPV6_UNCOMP
        else None in
      match deduced with
      | None => None
      | Some vlan_uncomp_ptype =>
          let b1 := memcpy (buffer reassembled_sdu) 0 sdu_frag comp_eth_vlan_len in
          let b2 := memcpy b1 (sizeof_ether_header + offsetof_tpid)
                      (htons_bytes vlan_uncomp_ptype) sizeof_uint16 in
          let b3 := memcpy b2 (sizeof_ether_header + sizeof_vlan_hdr)
                      (skipn comp_eth_vlan_len sdu_frag)
                      (sdu_frag_len - comp_eth_vlan_len) in
          Some {| buffer := b3;
                  size := Z.of_nat (sdu_frag_len + sizeof_uint16);
                  protocol_type := RLE_PROTO_TYPE_VLAN_UNCOMP |}
      end.

(** The bytes the receiver hands over: the first [size] of the storage. *)
Definition delivered_bytes (sdu : rle_sdu) : list Z := firstn (Z.to_nat (size sdu)) (buffer sdu).

(** What an ALPDU header extraction yields when it returns 0. *)
Record extraction := {
  ptype : Z;
  comp_ptype : Z;
  sdu_frag : list Z;
  alpdu_hdr_len : Z
}.

(** What [check_alpdu_trailer] leaves. *)
Record trailer_check := {
  chk_ret : Z;
  chk_next_seq_nb : Z;
  chk_seqnum_init : bool;
  chk_lost_packets : Z
}.

(** The PPDU and ALPDU header readers (header.c) and the trailer check
    (trailer.c) are not among the sources: reassembly is defined over
    any implementation of them.  An extraction that returns non-zero is
    [None].  Modelled from the spec for its effects: the trailer check
    reads the trailer, the rebuilt SDU, the trailer mode and the expected
    sequence number of the context and the initialised flag; it leaves a
    return code, the sequence number and flag it records, and the number
    of lost packets. *)
Record header_ops := {
  rle_start_ppdu_hdr_get_frag_id : list Z -> Z;
  rle_cont_end_ppdu_hdr_get_frag_id : list Z -> Z;
  comp_ppdu_extract_alpdu_frag : list Z -> list Z;
  start_ppdu_extract_alpdu_frag : list Z -> list Z * Z * bool;
  cont_end_ppdu_extract_alpdu_frag : list Z -> list Z;
  rle_comp_ppdu_hdr_get_is_suppressed : list Z -> bool;
  rle_comp_ppdu_hdr_get_is_signal : list Z -> bool;
  rle_start_ppdu_hdr_get_is_suppressed : list Z -> bool;
  rle_start_ppdu_hdr_get_is_signal : list Z -> bool;
  signal_alpdu_extract_sdu_frag : list Z -> option extraction;
  suppr_alpdu_extract_sdu_frag : list Z -> rle_config -> option extraction;
  comp_alpdu_extract_sdu_frag : list Z -> option extraction;
  uncomp_alpdu_extract_sdu_frag : list Z -> option extraction;
  check_alpdu_trailer : list Z -> rle_sdu -> bool -> Z -> bool -> trailer_check
}.

(** Modelled from the spec: reassembly_buffer.h is not among the sources.
    A reassembly buffer holds the declared total SDU length, the bytes
    received so far (which [sdu_info.buffer] and [sdu.start] both point
    to), and the SDU information recorded from the START PPDU. *)
Record rle_rasm_buf_t := {
  sdu_len : Z;
  reassembled : list Z;
  sdu_info_size : Z;
  sdu_info_protocol_type : Z;
  comp_protocol_type : Z
}.

Definition rasm_buf_get_sdu_len (b : rle_rasm_buf_t) : Z := sdu_len b.
Definition rasm_buf_get_reassembled_sdu_len (b : rle_rasm_buf_t) : Z :=
  Z.of_nat (length (reassembled b)).

(** [rasm_buf_init_sdu_frag; rasm_buf_sdu_frag_put; rasm_buf_cpy_sdu_frag] *)
Definition rasm_buf_append (b : rle_rasm_buf_t) (frag : list Z) : rle_rasm_buf_t :=
  {| sdu_len := sdu_len b; reassembled := reassembled b ++ frag;
     sdu_info_size := sdu_info_size b;
     sdu_info_protocol_type := sdu_info_protocol_type b;
     comp_protocol_type := comp_protocol_type b |}.

(** Modelled from the spec: the receiver's [struct rle_ctx_mngt] and its
    statistics helpers (rle_ctx.h) are not among the sources.  Counters
    are the per-context statistics of the specification; an increment
    adds to them. *)
Record rle_ctx_mngt := {
  buff : rle_rasm_buf_t;
  current_counter : Z;
  ctx_use_crc : bool;
  ctx_next_seq_nb : Z;
  counter_in : Z;
  counter_ok : Z;
  counter_dropped : Z;
  counter_lost : Z;
  counter_bytes_in : Z;
  counter_bytes_ok : Z;
  counter_bytes_dropped : Z
}.

Definition with_buff (c : rle_ctx_mngt) (b : rle_rasm_buf_t) : rle_ctx_mngt :=
  {| buff := b; current_counter := current_counter c; ctx_use_crc := ctx_use_crc c;
     ctx_next_seq_nb := ctx_next_seq_nb c; counter_in := counter_in c;
     counter_ok := counter_ok c; counter_dropped := counter_dropped c;
     counter_lost := counter_lost c; counter_bytes_in := counter_bytes_in c;
     counter_bytes_ok := counter_bytes_ok c;
     counter_bytes_dropped := counter_bytes_dropped c |}.

Definition with_current_counter (c : rle_ctx_mngt) (v : Z) : rle_ctx_mngt :=
  {| buff := buff c; current_counter := v; ctx_use_crc := ctx_use_crc c;
     ctx_next_seq_nb := ctx_next_seq_nb c; counter_in := counter_in c;
     counter_ok := counter_ok c; counter_dropped := counter_dropped c;
     counter_lost := counter_lost c; counter_bytes_in := counter_bytes_in c;
     counter_bytes_ok := counter_bytes_ok c;
     counter_bytes_dropped := counter_bytes_dropped c |}.

Definition rle_ctx_set_use_crc (c : rle_ctx_mngt) (v : bool) : rle_ctx_mngt :=
  {| buff := buff c; current_counter := current_counter c; ctx_use_crc := v;
     ctx_next_seq_nb := ctx_next_seq_nb c; counter_in := counter_in c;
     counter_ok := counter_ok c; counter_dropped := counter_dropped c;
     counter_lost := counter_lost c; counter_bytes_in := counter_bytes_in c;
     counter_bytes_ok := counter_bytes_ok c;
     counter_bytes_dropped := counter_bytes_dropped c |}.

Definition rle_ctx_get_use_crc (c : rle_ctx_mngt) : bool := ctx_use_crc c.

Definition with_next_seq_nb (c : rle_ctx_mngt) (v : Z) : rle_ctx_mngt :=
  {| buff := buff c; current_counter := current_counter c; ctx_use_crc := ctx_use_crc c;
     ctx_next_seq_nb := v; counter_in := counter_in c;
     counter_ok := counter_ok c; counter_dropped := counter_dropped c;
     counter_lost := counter_lost c; counter_bytes_in := counter_bytes_in c;
     counter_bytes_ok := counter_bytes_ok c;
     counter_bytes_dropped := counter_bytes_dropped c |}.

Definition rle_ctx_incr_counter_in (c : rle_ctx_mngt) : rle_ctx_mngt :=
  {| buff := buff c; current_counter := current_counter c; ctx_use_crc := ctx_use_crc c;
     ctx_next_seq_nb := ctx_next_seq_nb c; counter_in := counter_in c + 1;
     counter_ok := counter_ok c; counter_dropped := counter_dropped c;
     counter_lost := counter_lost c; counter_bytes_in := counter_bytes_in c;
     counter_bytes_ok := counter_bytes_ok c;
     counter_bytes_dropped := counter_bytes_dropped c |}.

Definition rle_ctx_incr_counter_ok (c : rle_ctx_mngt) : rle_ctx_mngt :=
  {| buff := buff c; current_counter := current_counter c; ctx_use_crc := ctx_use_crc c;
     ctx_next_seq_nb := ctx_next_seq_nb c; counter_in := counter_in c;
     counter_ok := counter_ok c + 1; counter_dropped := counter_dropped c;
     counter_lost := counter_lost c; counter_bytes_in := counter_bytes_in c;
     counter_bytes_ok := counter_bytes_ok c;
     counter_bytes_dropped := counter_bytes_dropped c |}.

Definition rle_ctx_incr_counter_dropped (c : rle_ctx_mngt) : rle_ctx_mngt :=
  {| buff := buff c; current_counter := current_counter c; ctx_use_crc := ctx_use_crc c;
     ctx_next_seq_nb := ctx_next_seq_nb c; counter_in := counter_in c;
     counter_ok := counter_ok c; counter_dropped := counter_dropped c + 1;
     counter_lost := counter_lost c; counter_bytes_in := counter_bytes_in c;
     counter_bytes_ok := counter_bytes_ok c;
     counter_bytes_dropped := counter_bytes_dropped c |}.

Definition rle_ctx_incr_counter_lost (c : rle_ctx_mngt) (n : Z) : rle_ctx_mngt :=
  {| buff := buff c; current_counter := current_counter c; ctx_use_crc := ctx_use_crc c;
     ctx_next_seq_nb := ctx_next_seq_nb c; counter_in := counter_in c;
     counter_ok := counter_ok c; counter_dropped := counter_dropped c;
     counter_lost := counter_lost c + n; counter_bytes_in := counter_bytes_in c;
     counter_bytes_ok := counter_bytes_ok c;
     counter_bytes_dropped := counter_bytes_dropped c |}.

Definition rle_ctx_incr_counter_bytes_in (c : rle_ctx_mngt) (n : Z) : rle_ctx_mngt :=
  {| buff := buff c; current_counter := current_counter c; ctx_use_crc := ctx_use_crc c;
     ctx_next_seq_nb := ctx_next_seq_nb c; counter_in := counter_in c;
     counter_ok := counter_ok c; counter_dropped := counter_dropped c;
     counter_lost := counter_lost c; counter_bytes_in := counter_bytes_in c + n;
     counter_bytes_ok := counter_bytes_ok c;
     counter_bytes_dropped := counter_bytes_dropped c |}.

Definition rle_ctx_incr_counter_bytes_ok (c : rle_ctx_mngt) (n : Z) : rle_ctx_mngt :=
  {| buff := buff c; current_counter := current_counter c; ctx_use_crc := ctx_use_crc c;
     ctx_next_seq_nb := ctx_next_seq_nb c; counter_in := counter_in c;
     counter_ok := counter_ok c; counter_dropped := counter_dropped c;
     counter_lost := counter_lost c; counter_bytes_in := counter_bytes_in c;
     counter_bytes_ok := counter_bytes_ok c + n;
     counter_bytes_dropped := counter_bytes_dropped c |}.

Definition rle_ctx_incr_counter_bytes_dropped (c : rle_ctx_mngt) (n : Z) : rle_ctx_mngt :=
  {| buff := buff c; current_counter := current_counter c; ctx_use_crc := ctx_use_crc c;
     ctx_next_seq_nb := ctx_next_seq_nb c; counter_in := counter_in c;
     counter_ok := counter_ok c; counter_dropped := counter_dropped c;
     counter_lost := counter_lost c; counter_bytes_in := counter_bytes_in c;
     counter_bytes_ok := counter_bytes_ok c;
     counter_bytes_dropped := counter_bytes_dropped c + n |}.

(** Modelled from the spec: rle_receiver.c and [struct rle_receiver] are
    not among the sources.  The receiver owns eight contexts, its
    configuration, for each fragment id whether its context is free
    (the FREE and IN_PROGRESS states of the reassembly state machine)
    and whether its sequence number is initialised;
    [rle_receiver_free_context] returns a context to FREE and
    [set_nonfree_frag_ctx] takes it. *)
Record rle_receiver := {
  rle_ctx_man : nat -> rle_ctx_mngt;
  conf : rle_config;
  ctx_free : nat -> bool;
  is_ctx_seqnum_init : nat -> bool
}.

Definition upd {A : Type} (f : nat -> A) (i : nat) (v : A) : nat -> A :=
  fun j => if Nat.eqb j i then v else f j.

Definition map_ctx (r : rle_receiver) (i : nat) (f : rle_ctx_mngt -> rle_ctx_mngt)
  : rle_receiver :=
  {| rle_ctx_man := upd (rle_ctx_man r) i (f (rle_ctx_man r i));
     conf := conf r; ctx_free := ctx_free r;
     is_ctx_seqnum_init := is_ctx_seqnum_init r |}.

Definition is_context_free (r : rle_receiver) (i : nat) : bool := ctx_free r i.

Definition rle_receiver_free_context (r : rle_receiver) (i : nat) : rle_receiver :=
  {| rle_ctx_man := rle_ctx_man r; conf := conf r;
     ctx_free := upd (ctx_free r) i true;
     is_ctx_seqnum_init := is_ctx_seqnum_init r |}.

Definition set_nonfree_frag_ctx (r : rle_receiver) (i : nat) : rle_receiver :=
  {| rle_ctx_man := rle_ctx_man r; conf := conf r;
     ctx_free := upd (ctx_free r) i false;
     is_ctx_seqnum_init := is_ctx_seqnum_init r |}.

Definition set_seqnum_init (r : rle_receiver) (i : nat) (v : bool) : rle_receiver :=
  {| rle_ctx_man := rle_ctx_man r; conf := conf r; ctx_free := ctx_free r;
     is_ctx_seqnum_init := upd (is_ctx_seqnum_init r) i v |}.

(** [assert((index_ctx >= 0) && (index_ctx <= RLE_MAX_FRAG_ID))] *)
Definition frag_id_in_range (index_ctx : Z) : bool :=
  (0 <=? index_ctx) && (index_ctx <=? RLE_MAX_FRAG_ID).

(** The three statistics updates of an error exit. *)
Definition count_drop (c : rle_ctx_mngt) (lost_packets : Z) : rle_ctx_mngt :=
  let c1 := rle_ctx_incr_counter_dropped c in
  let c2 := rle_ctx_incr_counter_lost c1 lost_packets in
  rle_ctx_incr_counter_bytes_dropped c2 (current_counter c2).

(** Subtraction on [size_t] (64 bits). *)
Definition size_t_sub (a b : Z) : Z := wrap 64 (a - b).

Section WithOps.

Variable ops : header_ops.

(** The SDU of an ALPDU whose compressed protocol type is not the VLAN
    special case: [size], [protocol_type], then the copy. *)
Definition complete_sdu (reassembled_sdu : rle_sdu) (src : list Z) (n : Z) (pt : Z) : rle_sdu :=
  {| buffer := memcpy (buffer reassembled_sdu) 0 src (Z.to_nat n);
     size := n;
     protocol_type := pt |}.

(** The branches of [reassembly_comp_ppdu] and [reassembly_start_ppdu]
    on the suppression and signal bits of the PPDU header and on
    [use_compressed_ptype], which select the reader of the ALPDU header;
    for a START PPDU, with the ALPDU header length of the branch. *)
Definition comp_ppdu_extract_sdu_frag (_this : rle_receiver) (ppdu alpdu_frag : list Z)
  : option extraction :=
  if rle_comp_ppdu_hdr_get_is_suppressed ops ppdu then
    if rle_comp_ppdu_hdr_get_is_signal ops ppdu
    then signal_alpdu_extract_sdu_frag ops alpdu_frag
    else suppr_alpdu_extract_sdu_frag ops alpdu_frag (conf _this)
  else if use_compressed_ptype (conf _this)
       then comp_alpdu_extract_sdu_frag ops alpdu_frag
       else uncomp_alpdu_extract_sdu_frag ops alpdu_frag.

Definition start_ppdu_extract_sdu_frag (_this : rle_receiver) (ppdu alpdu_frag : list Z)
  : option (extraction * Z) :=
  if rle_start_ppdu_hdr_get_is_suppressed ops ppdu then
    match (if rle_start_ppdu_hdr_get_is_signal ops ppdu
           then signal_alpdu_extract_sdu_frag ops alpdu_frag
           else suppr_alpdu_extract_sdu_frag ops alpdu_frag (conf _this)) with
    | Some e => Some (e, 0)
    | None => None
    end
  else if use_compressed_ptype (conf _this) then
    match comp_alpdu_extract_sdu_frag ops alpdu_frag with
    | Some e => Some (e, alpdu_hdr_len e)
    | None => None
    end
  else
    match uncomp_alpdu_extract_sdu_frag ops alpdu_frag with
    | Some e => Some (e, sizeof_rle_alpdu_hdr_uncomp_t)
    | None => None
    end.

(** [reassembly_comp_ppdu].  [None] is a failed assertion; otherwise the
    status and the SDU structure as the call leaves it. *)
Definition reassembly_comp_ppdu (_this : rle_receiver) (ppdu : list Z)
    (reassembled_sdu : rle_sdu) : option (status * rle_sdu) :=
  let alpdu_frag := comp_ppdu_extract_alpdu_frag ops ppdu in
  match comp_ppdu_extract_sdu_frag _this ppdu alpdu_frag with
  | None => Some (C_ERROR, reassembled_sdu)
  | Some e =>
      if negb (comp_ptype e =? RLE_PROTO_TYPE_VLAN_COMP_WO_PTYPE_FIELD) then
        Some (C_REASSEMBLY_OK,
              complete_sdu reassembled_sdu (sdu_frag e) (Z.of_nat (length (sdu_frag e))) (ptype e))
      else if negb (ptype e =? RLE_PROTO_TYPE_VLAN_UNCOMP) then None
      else
        match reassembly_insert_vlan_ptype (sdu_frag e) reassembled_sdu with
        | None => Some (C_ERROR, reassembled_sdu)
        | Some sdu => Some (C_REASSEMBLY_OK, sdu)
        end
  end.

(** [reassembly_start_ppdu]: the status, the receiver and [*index_ctx]. *)
Definition reassembly_start_ppdu (_this : rle_receiver) (ppdu : list Z)
  : option (status * rle_receiver * Z) :=
  let ppdu_length := Z.of_nat (length ppdu) in
  let index_ctx := rle_start_ppdu_hdr_get_frag_id ops ppdu in
  if negb (frag_id_in_range index_ctx) then None
  else
    let i := Z.to_nat index_ctx in
    let r1 := map_ctx _this i (fun c =>
                rle_ctx_incr_counter_bytes_in
                  (rle_ctx_incr_counter_in (with_current_counter c ppdu_length))
                  ppdu_length) in
    let '(ret, r2) :=
      if negb (is_context_free r1 i) then (C_ERROR, r1)
      else
        let r := set_nonfree_frag_ctx r1 i in
        let '(alpdu_frag, alpdu_total_len, is_crc_used) :=
          start_ppdu_extract_alpdu_frag ops ppdu in
        let sdu_total_len := alpdu_total_len in
        match start_ppdu_extract_sdu_frag r ppdu alpdu_frag with
        | None => (C_ERROR, r)
        | Some (e, hdr_len) =>
            let sdu_frag_len := Z.of_nat (length (sdu_frag e)) in
            if sdu_total_len <? sdu_frag_len then (C_ERROR, r)
            else
              let sdu_total_len := size_t_sub sdu_total_len hdr_len in
              let alpdu_trailer_len :=
                if is_crc_used then sizeof_rle_alpdu_crc_trailer_t
                else sizeof_rle_alpdu_seqno_trailer_t in
              if sdu_total_len <? alpdu_trailer_len then (C_ERROR, r)
              else
                let sdu_total_len := size_t_sub sdu_total_len alpdu_trailer_len in
                let r := map_ctx r i (fun c => rle_ctx_set_use_crc c is_crc_used) in
                if sdu_total_len <? sdu_frag_len then (C_ERROR, r)
                else
                  (C_OK,
                   map_ctx r i (fun c =>
                     with_buff c
                       {| sdu_len := sdu_total_len;
                          reassembled := sdu_frag e;
                          sdu_info_size := sdu_total_len;
                          sdu_info_protocol_type := ptype e;
                          comp_protocol_type := comp_ptype e |}))
        end in
    let r3 :=
      match ret with
      | C_OK => r2
      | _ => rle_receiver_free_context (map_ctx r2 i (fun c => count_drop c 1)) i
      end in
    Some (ret, r3, index_ctx).

(** [reassembly_cont_ppdu]: the status, the receiver and [*index_ctx]. *)
Definition reassembly_cont_ppdu (_this : rle_receiver) (ppdu : list Z)
  : option (status * rle_receiver * Z) :=
  let ppdu_length := Z.of_nat (length ppdu) in
  let index_ctx := rle_cont_end_ppdu_hdr_get_frag_id ops ppdu in
  if negb (frag_id_in_range index_ctx) then None
  else
    let i := Z.to_nat index_ctx in
    let r1 := map_ctx _this i (fun c =>
                rle_ctx_incr_counter_bytes_in
                  (with_current_counter c (current_counter c + ppdu_length))
                  ppdu_length) in
    let '(ret, r2) :=
      if is_context_free r1 i then (C_ERROR, r1)
      else
        let rasm_buf := buff (rle_ctx_man r1 i) in
        let alpdu_frag := cont_end_ppdu_extract_alpdu_frag ops ppdu in
        let sdu_frag := alpdu_frag in
        let sdu_frag_len := Z.of_nat (length sdu_frag) in
        if rasm_buf_get_sdu_len rasm_buf
           <? rasm_buf_get_reassembled_sdu_len rasm_buf + sdu_frag_len
        then (C_ERROR, r1)
        else (C_OK, map_ctx r1 i (fun c => with_buff c (rasm_buf_append (buff c) sdu_frag))) in
    let r3 :=
      match ret with
      | C_OK => r2
      | _ => rle_receiver_free_context (map_ctx r2 i (fun c => count_drop c 1)) i
      end in
    Some (ret, r3, index_ctx).

(** The part of [reassembly_end_ppdu] before the label [out]: the status,
    [lost_packets], the receiver and the SDU structure it reaches [out]
    with.  [None] is a failed assertion. *)
Definition reassembly_end_ppdu_body (r1 : rle_receiver) (i : nat) (ppdu : list Z)
    (reassembled_sdu : rle_sdu) : option (status * Z * rle_receiver * rle_sdu) :=
  if is_context_free r1 i then
    Some (C_ERROR, 0,
          rle_receiver_free_context (map_ctx r1 i (fun c => count_drop c 1)) i,
          reassembled_sdu)
  else
    let rle_ctx := rle_ctx_man r1 i in
    let rasm_buf := buff rle_ctx in
    let alpdu_frag := cont_end_ppdu_extract_alpdu_frag ops ppdu in
    let alpdu_frag_len := Z.of_nat (length alpdu_frag) in
    let rle_trailer_len :=
      if rle_ctx_get_use_crc rle_ctx then sizeof_rle_alpdu_crc_trailer_t
      else sizeof_rle_alpdu_seqno_trailer_t in
    if alpdu_frag_len <? rle_trailer_len then Some (C_ERROR, 0, r1, reassembled_sdu)
    else
      let sdu_frag_len := alpdu_frag_len - rle_trailer_len in
      let sdu_frag := firstn (Z.to_nat sdu_frag_len) alpdu_frag in
      let rle_trailer := skipn (Z.to_nat sdu_frag_len) alpdu_frag in
      if negb (sdu_info_size rasm_buf =? rasm_buf_get_sdu_len rasm_buf) then None
      else if rasm_buf_get_sdu_len rasm_buf
              <? rasm_buf_get_reassembled_sdu_len rasm_buf + sdu_frag_len
      then Some (C_ERROR, 0, r1, reassembled_sdu)
      else
        let r2 := map_ctx r1 i (fun c => with_buff c (rasm_buf_append (buff c) sdu_frag)) in
        let rasm_buf := buff (rle_ctx_man r2 i) in
        if rasm_buf_get_reassembled_sdu_len rasm_buf <? rasm_buf_get_sdu_len rasm_buf
        then Some (C_ERROR, 0, r2, reassembled_sdu)
        else
          let rebuilt :=
            if negb (comp_protocol_type rasm_buf =? RLE_PROTO_TYPE_VLAN_COMP_WO_PTYPE_FIELD)
            then Some (Some (complete_sdu reassembled_sdu (reassembled rasm_buf)
                               (sdu_info_size rasm_buf) (sdu_info_protocol_type rasm_buf)))
            else if negb (sdu_info_protocol_type rasm_buf =? RLE_PROTO_TYPE_VLAN_UNCOMP)
                 then None
                 else Some (reassembly_insert_vlan_ptype
                              (firstn (Z.to_nat (sdu_info_size rasm_buf)) (reassembled rasm_buf))
                              reassembled_sdu) in
          match rebuilt with
          | None => None
          | Some None => Some (C_ERROR, 0, r2, reassembled_sdu)
          | Some (Some sdu) =>
              let chk := check_alpdu_trailer ops rle_trailer sdu
                           (rle_ctx_get_use_crc (rle_ctx_man r2 i))
                           (ctx_next_seq_nb (rle_ctx_man r2 i))
                           (is_ctx_seqnum_init r2 i) in
              let r3 := set_seqnum_init
                          (map_ctx r2 i (fun c => with_next_seq_nb c (chk_next_seq_nb chk)))
                          i (chk_seqnum_init chk) in
              if negb (chk_ret chk =? 0) then Some (C_ERROR, chk_lost_packets chk, r3, sdu)
              else
                Some (C_REASSEMBLY_OK, chk_lost_packets chk,
                      map_ctx r3 i (fun c =>
                        rle_ctx_incr_counter_ok (rle_ctx_incr_counter_bytes_ok c (size sdu))),
                      sdu)
          end.

(** [reassembly_end_ppdu]: the status, the receiver, [*index_ctx] and the
    SDU structure. *)
Definition reassembly_end_ppdu (_this : rle_receiver) (ppdu : list Z)
    (reassembled_sdu : rle_sdu) : option (status * rle_receiver * Z * rle_sdu) :=
  let ppdu_length := Z.of_nat (length ppdu) in
  let index_ctx := rle_cont_end_ppdu_hdr_get_frag_id ops ppdu in
  if negb (frag_id_in_range index_ctx) then None
  else
    let i := Z.to_nat index_ctx in
    let r1 := map_ctx _this i (fun c =>
                rle_ctx_incr_counter_bytes_in
                  (with_current_counter c (current_counter c + ppdu_length))
                  ppdu_length) in
    match reassembly_end_ppdu_body r1 i ppdu reassembled_sdu with
    | None => None
    | Some (ret, lost_packets, r, sdu) =>
        let r' :=
          match ret with
          | C_REASSEMBLY_OK => r
          | _ => map_ctx r i (fun c => count_drop c lost_packets)
          end in
        Some (ret, rle_receiver_free_context r' i, index_ctx, sdu)
    end.

(** A run of CONT PPDUs, each accepted. *)
Fixpoint reassembly_cont_ppdus (_this : rle_receiver) (ppdus : list (list Z))
  : option rle_receiver :=
  match ppdus with
  | [] => Some _this
  | ppdu :: rest =>
      match reassembly_cont_ppdu _this ppdu with
      | Some (C_OK, r, _) => reassembly_cont_ppdus r rest
      | _ => None
      end
  end.

(** An SDU is delivered by a call exactly when it returns
    C_REASSEMBLY_OK. *)
Definition delivers (ret : status) : bool := status_eqb ret C_REASSEMBLY_OK.

End WithOps.

(** Context [i] is IN_PROGRESS on an SDU of [n] bytes of which
    [received] have arrived. *)
Definition in_progress (r : rle_receiver) (i : nat) (n : Z) (received : list Z)
    (pt cpt : Z) (crc : bool) : Prop :=
  is_context_free r i = false /\
  buff (rle_ctx_man r i)
  = {| sdu_len := n; reassembled := received; sdu_info_size := n;
       sdu_info_protocol_type := pt; comp_protocol_type := cpt |} /\
  ctx_use_crc (rle_ctx_man r i) = crc.

(** Fragment id [j] is in [r'] as it is in [r]: its context, whether it
    is free and whether its sequence number is initialised. *)
Definition untouched (r r' : rle_receiver) (j : nat) : Prop :=
  rle_ctx_man r' j = rle_ctx_man r j /\
  is_context_free r' j = is_context_free r j /\
  is_ctx_seqnum_init r' j = is_ctx_seqnum_init r j.

(** The size recorded for the SDU of a context is the declared total,
    which the bytes received so far do not exceed. *)
Definition within_declared_length (c : rle_ctx_mngt) : Prop :=
  sdu_info_size (buff c) = sdu_len (buff c) /\
  Z.of_nat (length (reassembled (buff c))) <= sdu_len (buff c).

Definition outer_ether_type (sdu_frag : list Z) : Z := ntohs_at sdu_frag 12.
Definition ip_version (sdu_frag : list Z) : Z :=
  Z.land (Z.shiftr (nth 16 sdu_frag 0) 4) 0x0f.

(** *** Inputs for the examples *)

(** Scenario 6 of the specification: Ethernet addresses, EtherType
    0x8100, the VLAN tag control information, then an IPv4 header. *)
Definition vlan_ipv4_frame : list Z :=
  repeat 0xaa 12 ++ [0x81; 0x00; 0x00; 0x64; 0x45; 0x00; 0x00; 0x14].

Definition empty_sdu : rle_sdu :=
  {| buffer := repeat 0 64; size := 0; protocol_type := 0 |}.

(** One implementation of the readers, for the examples.  A PPDU starts
    with start and end bits and an 11-bit length; the last three bits of
    its second byte are the fragment id of a CONT or END PPDU, or the
    label type and the suppression bit of a COMP or START PPDU, whose
    next two bytes hold fragment id, CRC bit and total length.  The
    ALPDU header holds the uncompressed type in two bytes, or a
    compressed code in one.  The trailer check compares the sequence
    number, or a byte sum standing for the CRC. *)
Definition decompress (code : Z) : option Z :=
  if code =? 0x0d then Some 0x0800
  else if code =? 0x11 then Some 0x86dd
  else if code =? 0x0f then Some 0x8100
  else if code =? 0x19 then Some 0x88a8
  else if code =? 0x1a then Some 0x9100
  else if code =? 0x0e then Some 0x0806
  else if code =? 0x31 then Some 0x8100
  else if code =? 0x42 then Some 0x0082
  else None.

Definition simple_uncomp (alpdu : list Z) : option extraction :=
  match alpdu with
  | lo :: hi :: rest =>
      Some {| ptype := Z.lor (Z.shiftl hi 8) lo; comp_ptype := 0xff;
              sdu_frag := rest; alpdu_hdr_len := 2 |}
  | _ => None
  end.

Definition simple_comp (alpdu : list Z) : option extraction :=
  match alpdu with
  | code :: rest =>
      if code =? 0xff then
        match rest with
        | lo :: hi :: rest' =>
            Some {| ptype := Z.lor (Z.shiftl hi 8) lo; comp_ptype := 0xff;
                    sdu_frag := rest'; alpdu_hdr_len := 3 |}
        | _ => None
        end
      else
        match decompress code with
        | Some pt => Some {| ptype := pt; comp_ptype := code; sdu_frag := rest;
                             alpdu_hdr_len := 1 |}
        | None => None
        end
  | [] => None
  end.

Definition simple_suppr (alpdu : list Z) (conf : rle_config) : option extraction :=
  match decompress (implicit_protocol_type conf) with
  | Some pt => Some {| ptype := pt; comp_ptype := implicit_protocol_type conf;
                       sdu_frag := alpdu; alpdu_hdr_len := 0 |}
  | None => None
  end.

Definition simple_signal (alpdu : list Z) : option extraction :=
  Some {| ptype := 0x0082; comp_ptype := 0x42; sdu_frag := alpdu; alpdu_hdr_len := 0 |}.

Definition simple_check (trailer : list Z) (sdu : rle_sdu) (use_crc : bool)
    (expected : Z) (initialised : bool) : trailer_check :=
  if use_crc then
    {| chk_ret := if nth 0 trailer 0 =? fold_right Z.add 0 (delivered_bytes sdu) mod 256
                  then 0 else 1;
       chk_next_seq_nb := expected; chk_seqnum_init := initialised;
       chk_lost_packets := 0 |}
  else
    let received := Z.land (nth 0 trailer 0) 0x07 in
    if negb initialised || (received =? expected) then
      {| chk_ret := 0; chk_next_seq_nb := (received + 1) mod 8; chk_seqnum_init := true;
         chk_lost_packets := 0 |}
    else
      {| chk_ret := 1; chk_next_seq_nb := (received + 1) mod 8; chk_seqnum_init := true;
         chk_lost_packets := 1 |}.

Definition simple_ops : header_ops :=
  {| rle_start_ppdu_hdr_get_frag_id := fun ppdu => Z.shiftr (nth 2 ppdu 0) 5;
     rle_cont_end_ppdu_hdr_get_frag_id := fun ppdu => Z.land (nth 1 ppdu 0) 0x07;
     comp_ppdu_extract_alpdu_frag := skipn 2;
     start_ppdu_extract_alpdu_frag := fun ppdu =>
       (skipn 4 ppdu,
        Z.lor (Z.shiftl (Z.land (nth 2 ppdu 0) 0x0f) 8) (nth 3 ppdu 0),
        Z.testbit (nth 2 ppdu 0) 4);
     cont_end_ppdu_extract_alpdu_frag := skipn 2;
     rle_comp_ppdu_hdr_get_is_suppressed := fun ppdu => Z.testbit (nth 1 ppdu 0) 0;
     rle_comp_ppdu_hdr_get_is_signal := fun ppdu =>
       Z.land (Z.shiftr (nth 1 ppdu 0) 1) 0x03 =? 3;
     rle_start_ppdu_hdr_get_is_suppressed := fun ppdu => Z.testbit (nth 1 ppdu 0) 0;
     rle_start_ppdu_hdr_get_is_signal := fun ppdu =>
       Z.land (Z.shiftr (nth 1 ppdu 0) 1) 0x03 =? 3;
     signal_alpdu_extract_sdu_frag := simple_signal;
     suppr_alpdu_extract_sdu_frag := simple_suppr;
     comp_alpdu_extract_sdu_frag := simple_comp;
     uncomp_alpdu_extract_sdu_frag := simple_uncomp;
     check_alpdu_trailer := simple_check |}.

Definition blank_ctx : rle_ctx_mngt :=
  {| buff := {| sdu_len := 0; reassembled := []; sdu_info_size := 0;
                sdu_info_protocol_type := 0; comp_protocol_type := 0 |};
     current_counter := 0; ctx_use_crc := false; ctx_next_seq_nb := 0;
     counter_in := 0; counter_ok := 0; counter_dropped := 0; counter_lost := 0;
     counter_bytes_in := 0; counter_bytes_ok := 0; counter_bytes_dropped := 0 |}.

(** A receiver with all its contexts free, for a link with uncompressed
    protocol types and sequence numbers. *)
Definition fresh_receiver : rle_receiver :=
  {| rle_ctx_man := fun _ => blank_ctx;
     conf := {| allow_ptype_omission := false; use_compressed_ptype := false;
                allow_alpdu_crc := false; allow_alpdu_sequence_number := true;
                use_explicit_payload_header_map := false; implicit_protocol_type := 0x0d;
                implicit_ppdu_label_size := 0; implicit_payload_label_size := 0;
                type_0_alpdu_label_size := 0 |};
     ctx_free := fun _ => true;
     is_ctx_seqnum_init := fun _ => false |}.

(** A START PPDU on fragment id 0 for an IPv4 SDU of 6 bytes (ALPDU of 9
    bytes with header and sequence number), carrying its first 3 bytes;
    END PPDUs on fragment id 0 carrying 5, 2 and 3 more bytes and the
    trailer; a CONT PPDU carrying 4 bytes. *)
Definition start_ppdu : list Z := [0x80; 0x28; 0x00; 0x09; 0x00; 0x08; 1; 2; 3].
Definition end_ppdu_too_long : list Z := [0x40; 0x30; 4; 5; 6; 7; 8; 0x00].
Definition end_ppdu_too_short : list Z := [0x40; 0x18; 4; 5; 0x00].
Definition end_ppdu_complete : list Z := [0x40; 0x20; 4; 5; 6; 0x00].
Definition cont_ppdu_too_long : list Z := [0x00; 0x20; 4; 5; 6; 7].
Definition cont_ppdu_one_byte : list Z := [0x00; 0x08; 4].
Definition end_ppdu_last_two : list Z := [0x40; 0x18; 5; 6; 0x00].

(** A Complete PPDU carrying the IPv4 SDU 1, 2, 3 behind its
    uncompressed protocol type, and one cut in the middle of the ALPDU
    header; the frame of scenario 6 with the protocol type field of its
    VLAN header. *)
Definition comp_ppdu : list Z := [0xc0; 0x28; 0x00; 0x08; 1; 2; 3].
Definition comp_ppdu_truncated : list Z := [0xc0; 0x08; 0x00].
Definition vlan_ipv4_full_frame : list Z :=
  repeat 0xaa 12 ++ [0x81; 0x00; 0x00; 0x64; 0x08; 0x00; 0x45; 0x00; 0x00; 0x14].

(** A receiver whose context 0 is in progress on the frame of scenario
    6 as it travels, without the protocol type field of its VLAN header
    (20 bytes, of which the 12 of the addresses have arrived), and the
    END PPDU with the last 8 bytes and the sequence number. *)
Definition vlan_receiver : rle_receiver :=
  {| rle_ctx_man := fun i =>
       if Nat.eqb i 0
       then with_buff blank_ctx
              {| sdu_len := 20; reassembled := repeat 0xaa 12; sdu_info_size := 20;
                 sdu_info_protocol_type := RLE_PROTO_TYPE_VLAN_UNCOMP;
                 comp_protocol_type := RLE_PROTO_TYPE_VLAN_COMP_WO_PTYPE_FIELD |}
       else blank_ctx;
     conf := conf fresh_receiver;
     ctx_free := fun i => negb (Nat.eqb i 0);
     is_ctx_seqnum_init := fun _ => false |}.

Definition end_ppdu_vlan : list Z :=
  [0x40; 0x48; 0x81; 0x00; 0x00; 0x64; 0x45; 0x00; 0x00; 0x14; 0x00].

Definition receiver_after_start : rle_receiver :=
  match reassembly_start_ppdu simple_ops fresh_receiver start_ppdu with
  | Some (_, r, _) => r
  | None => fresh_receiver
  end.

End Reassembly.

(** ** test_rle_encap.c *)

Module TestRleEncap.

(** [struct rle_context_configuration], the configuration this test
    hands to [rle_transmitter_new]. *)
Record rle_context_configuration := {
  implicit_protocol_type : Z;
  use_alpdu_crc : bool;
  use_ptype_omission : bool;
  use_compressed_ptype : bool
}.

Fixpoint bytes_eqb (a b : list Z) : bool :=
  match a, b with
  | [], [] => true
  | x :: a', y :: b' => (x =? y) && bytes_eqb a' b'
  | _, _ => false
  end.

(** [compare_packets]: the sizes, then octet by octet. *)
Definition compare_packets (pkt_1 pkt_2 : list Z) : bool :=
  if negb (Nat.eqb (length pkt_1) (length pkt_2)) then false
  else bytes_eqb pkt_1 pkt_2.

(** [check_encap]: the ALPDU against header followed by SDU. *)
Definition check_encap (sdu alpdu alpdu_header : list Z) : bool :=
  let theorical_alpdu := alpdu_header ++ sdu in
  if negb (Nat.eqb (length sdu + length alpdu_header) (length alpdu)) then false
  else compare_packets alpdu theorical_alpdu.

Definition is_suppressible (protocol_type default_ptype : Z) : bool :=
  if protocol_type =? 0x0082 then true
  else if protocol_type =? 0x8100 then default_ptype =? 0x0f
  else if protocol_type =? 0x88a8 then default_ptype =? 0x19
  else if protocol_type =? 0x9100 then default_ptype =? 0x1a
  else if protocol_type =? 0x0800 then (default_ptype =? 0x0d) || (default_ptype =? 0x30)
  else if protocol_type =? 0x86dd then (default_ptype =? 0x11) || (default_ptype =? 0x30)
  else if protocol_type =? 0x0806 then default_ptype =? 0x0e
  else false.

(** The compressed code [test_encap] expects for a protocol type, [None]
    for the fallback. *)
Definition compressed_ptype (protocol_type : Z) : option Z :=
  if protocol_type =? 0x0800 then Some 0x0d
  else if protocol_type =? 0x86dd then Some 0x11
  else if protocol_type =? 0x8100 then Some 0x0f
  else if protocol_type =? 0x88a8 then Some 0x19
  else if protocol_type =? 0x9100 then Some 0x1a
  else if protocol_type =? 0x0806 then Some 0x0e
  else None.

(** The ALPDU header [test_encap] builds for its four arguments and
    requires of the transmitter. *)
Definition theorical_alpdu_header (protocol_type : Z) (conf : rle_context_configuration)
    (length : nat) (frag_id : Z) : list Z :=
  if negb (is_suppressible protocol_type (implicit_protocol_type conf)) then
    if use_compressed_ptype conf then
      match compressed_ptype protocol_type with
      | Some code => [code]
      | None => [0xff; Z.land protocol_type 0x00ff; Z.shiftr (Z.land protocol_type 0xff00) 8]
      end
    else [Z.land protocol_type 0x00ff; Z.shiftr (Z.land protocol_type 0xff00) 8]
  else [].

Section UnderTest.

(** The test data and the library under test: [rle_transmitter_new] on a
    configuration, [rle_encapsulate] of an SDU on a fragment id, then
    [rle_transmitter_dump_alpdu].  [None] is an encapsulation that does
    not return RLE_ENCAP_OK. *)
Variable payload_initializer : list Z.
Variable encapsulate_and_dump :
  rle_context_configuration -> list Z -> Z -> Z -> option (list Z).

Definition test_encap (protocol_type : Z) (conf : rle_context_configuration)
    (length : nat) (frag_id : Z) : bool :=
  let sdu := firstn length payload_initializer in
  match encapsulate_and_dump conf sdu protocol_type frag_id with
  | None => false
  | Some alpdu =>
      let theorical_alpdu_header := theorical_alpdu_header protocol_type conf length frag_id in
      if negb (Nat.eqb (List.length theorical_alpdu_header + length) (List.length alpdu))
      then false
      else check_encap sdu alpdu theorical_alpdu_header
  end.

End UnderTest.

(** The configurations of [test_encap_all] for a protocol type whose own
    compressed code is [default_ptype]. *)
Definition conf_uncomp : rle_context_configuration :=
  {| implicit_protocol_type := 0x00; use_alpdu_crc := false;
     use_compressed_ptype := false; use_ptype_omission := false |}.
Definition conf_comp : rle_context_configuration :=
  {| implicit_protocol_type := 0x00; use_alpdu_crc := false;
     use_compressed_ptype := true; use_ptype_omission := false |}.
Definition conf_omitted (default_ptype : Z) : rle_context_configuration :=
  {| implicit_protocol_type := default_ptype; use_alpdu_crc := false;
     use_compressed_ptype := false; use_ptype_omission := true |}.
Definition conf_omitted_ip : rle_context_configuration :=
  {| implicit_protocol_type := 0x30; use_alpdu_crc := false;
     use_compressed_ptype := false; use_ptype_omission := true |}.
Definition conf_not_omitted : rle_context_configuration :=
  {| implicit_protocol_type := 0x00; use_alpdu_crc := false;
     use_compressed_ptype := false; use_ptype_omission := true |}.

(** Every configuration [test_encap_all] builds either allows the
    omission or has the implicit protocol type 0x00. *)
Definition tested_configuration (conf : rle_context_configuration) : Prop :=
  use_ptype_omission conf = false -> implicit_protocol_type conf = 0x00.

(** The ALPDU header as the specification words it (4.1): omitted when
    the omission is allowed and the pair is in the suppressibility table;
    else, with compression, the compressed code or the fallback 0xff and
    the uncompressed type in little-endian order; else the uncompressed
    type in little-endian order. *)
Definition specified_alpdu_header (conf : rle_context_configuration) (protocol_type : Z)
  : list Z :=
  if use_ptype_omission conf && is_suppressible protocol_type (implicit_protocol_type conf)
  then []
  else if use_compressed_ptype conf then
    match compressed_ptype protocol_type with
    | Some code => [code]
    | None => [0xff; protocol_type mod 256; protocol_type / 256]
    end
  else [protocol_type mod 256; protocol_type / 256].

(** The configuration of [test_encap_too_big]: an implicit protocol
    type, and no omission. *)
Definition conf_too_big : rle_context_configuration :=
  {| implicit_protocol_type := 0x0d; use_alpdu_crc := false;
     use_ptype_omission := false; use_compressed_ptype := false |}.

(** [test_encap_all]: the eight protocol types, for each the implicit
    protocol type of its omission configuration, fragment ids 0 to 6,
    the five configurations, SDUs of 100 bytes; one failure fails the
    test. *)
Definition protocol_types : list Z :=
  [0x0082; 0x8100; 0x88a8; 0x9100; 0x0800; 0x86dd; 0x0806; 0x1234].

Definition default_ptype_of (protocol_type : Z) : Z :=
  if protocol_type =? 0x0082 then 0x42
  else if protocol_type =? 0x8100 then 0x0f
  else if protocol_type =? 0x88a8 then 0x19
  else if protocol_type =? 0x9100 then 0x1a
  else if protocol_type =? 0x0800 then 0x0d
  else if protocol_type =? 0x86dd then 0x11
  else if protocol_type =? 0x0806 then 0x0e
  else 0x00.

Definition confs (default_ptype : Z) : list rle_context_configuration :=
  [conf_uncomp; conf_comp; conf_omitted default_ptype; conf_omitted_ip; conf_not_omitted].

Definition test_encap_all (payload_initializer : list Z)
    (encapsulate_and_dump : rle_context_configuration -> list Z -> Z -> Z -> option (list Z))
  : bool :=
  fold_left
    (fun output protocol_type =>
       fold_left
         (fun output frag_id =>
            fold_left
              (fun output conf =>
                 if test_encap payload_initializer encapsulate_and_dump protocol_type conf
                      100 frag_id
                 then output else false)
              (confs (default_ptype_of protocol_type)) output)
         [0; 1; 2; 3; 4; 5; 6] output)
    protocol_types true.

(** Modelled from the spec: [rle_encapsulate] and
    [rle_transmitter_dump_alpdu] are not among the sources.  The ALPDU
    header of 4.1: the protocol type is omitted when the omission is
    allowed and the pair is in the suppressibility table, and for the
    L2S type, which the table suppresses for any implicit code because
    it travels under label type 3, whatever the configuration; else the
    compressed code or the fallback; else the uncompressed type. *)
Definition alpdu_header (conf : rle_context_configuration) (protocol_type : Z) : list Z :=
  if (protocol_type =? 0x0082)
     || (use_ptype_omission conf
         && is_suppressible protocol_type (implicit_protocol_type conf))
  then []
  else if use_compressed_ptype conf then
    match compressed_ptype protocol_type with
    | Some code => [code]
    | None => [0xff; protocol_type mod 256; protocol_type / 256]
    end
  else [protocol_type mod 256; protocol_type / 256].

(** Modelled from the spec: the ALPDU that encapsulation leaves in the
    context of the fragment id is the header followed by the SDU; an
    SDU above RLE_MAX_PDU_SIZE is refused (4.1, SDU_TOO_BIG). *)
Definition rle_encapsulate_and_dump (conf : rle_context_configuration) (sdu : list Z)
    (protocol_type frag_id : Z) : option (list Z) :=
  if RLE_MAX_PDU_SIZE <? Z.of_nat (length sdu) then None
  else Some (alpdu_header conf protocol_type ++ sdu).


End TestRleEncap.

(** ** test_rle_misc.c and the header overhead query *)

Module TestRleMisc.

Inductive rle_fpdu_types :=
| RLE_LOGON_FPDU
| RLE_CTRL_FPDU
| RLE_TRAFFIC_FPDU
| RLE_TRAFFIC_CTRL_FPDU.

(** The status codes of the query, as the specification lists them. *)
Inductive rle_header_size_status :=
| RLE_HEADER_SIZE_OK
| RLE_HEADER_SIZE_ERR
| RLE_HEADER_SIZE_ERR_NON_DETERMINISTIC
| RLE_HEADER_SIZE_ERR_INVALID_CONFIG.

Definition header_size_status_eqb (a b : rle_header_size_status) : bool :=
  match a, b with
  | RLE_HEADER_SIZE_OK, RLE_HEADER_SIZE_OK
  | RLE_HEADER_SIZE_ERR, RLE_HEADER_SIZE_ERR
  | RLE_HEADER_SIZE_ERR_NON_DETERMINISTIC, RLE_HEADER_SIZE_ERR_NON_DETERMINISTIC
  | RLE_HEADER_SIZE_ERR_INVALID_CONFIG, RLE_HEADER_SIZE_ERR_INVALID_CONFIG => true
  | _, _ => false
  end.

(** Modelled from the spec: [rle_get_header_size] is not among the
    sources.  Its overheads are fixed: 6 for a Logon FPDU, 3 for a
    Control FPDU and 5 for a Traffic-Control FPDU, for all
    configurations; a Traffic FPDU has no answer from the configuration
    alone.  The configuration may be NULL ([None]); the last argument is
    what [*rle_header_size] holds before the call. *)
Definition rle_get_header_size (conf : option rle_config) (fpdu_type : rle_fpdu_types)
    (rle_header_size : Z) : rle_header_size_status * Z :=
  match fpdu_type with
  | RLE_LOGON_FPDU => (RLE_HEADER_SIZE_OK, 6)
  | RLE_CTRL_FPDU => (RLE_HEADER_SIZE_OK, 3)
  | RLE_TRAFFIC_CTRL_FPDU => (RLE_HEADER_SIZE_OK, 5)
  | RLE_TRAFFIC_FPDU => (RLE_HEADER_SIZE_ERR_NON_DETERMINISTIC, rle_header_size)
  end.

(** Modelled from the spec (3): a configuration is rejected if a label
    size exceeds 15, if the payload header map is used, if neither CRC
    nor sequence number is allowed, or if the implicit protocol type is
    0x31 or an undefined code.  The specification does not list the
    defined codes: this test holds of every valid configuration, and of
    those with an undefined code other than 0x31 as well. *)
Definition rle_config_is_valid (conf : rle_config) : bool :=
  (0 <=? implicit_ppdu_label_size conf) && (implicit_ppdu_label_size conf <=? 15)
  && (0 <=? implicit_payload_label_size conf) && (implicit_payload_label_size conf <=? 15)
  && (0 <=? type_0_alpdu_label_size conf) && (type_0_alpdu_label_size conf <=? 15)
  && negb (use_explicit_payload_header_map conf)
  && (allow_alpdu_crc conf || allow_alpdu_sequence_number conf)
  && negb (implicit_protocol_type conf =? 0x31).

Section UnderTest.

(** The query under test. *)
Variable get_header_size :
  option rle_config -> rle_fpdu_types -> Z -> rle_header_size_status * Z.

(** [struct test_request] *)
Record test_request := {
  fpdu_type : rle_fpdu_types;
  expected_size : Z;
  conf : rle_config
}.

Definition test_request_rle_header_overhead (fpdu_type : rle_fpdu_types)
    (expected_size : Z) (conf : rle_config) : bool :=
  let '(header_size_status, overhead_size) := get_header_size (Some conf) fpdu_type 0 in
  if header_size_status_eqb header_size_status RLE_HEADER_SIZE_OK
  then overhead_size =? expected_size
  else false.

Definition plain_conf (omission compressed : bool) (implicit : Z) : rle_config :=
  {| allow_ptype_omission := omission; use_compressed_ptype := compressed;
     allow_alpdu_crc := false; allow_alpdu_sequence_number := true;
     use_explicit_payload_header_map := false; implicit_protocol_type := implicit;
     implicit_ppdu_label_size := 0; implicit_payload_label_size := 0;
     type_0_alpdu_label_size := 0 |}.

Definition test_request_rle_header_overhead_traffic : bool :=
  let conf := plain_conf false false 0x00 in
  let '(header_size_status, _) := get_header_size (Some conf) RLE_TRAFFIC_FPDU 0 in
  header_size_status_eqb header_size_status RLE_HEADER_SIZE_ERR_NON_DETERMINISTIC.

Definition test_requests : list test_request :=
  [ {| fpdu_type := RLE_LOGON_FPDU; expected_size := 6;
       conf := plain_conf false false 0x00 |};
    {| fpdu_type := RLE_CTRL_FPDU; expected_size := 3;
       conf := plain_conf false false 0x00 |};
    {| fpdu_type := RLE_TRAFFIC_CTRL_FPDU; expected_size := 5;
       conf := plain_conf true false 0x34 |};
    {| fpdu_type := RLE_TRAFFIC_CTRL_FPDU; expected_size := 5;
       conf := plain_conf false true 0x34 |};
    {| fpdu_type := RLE_TRAFFIC_CTRL_FPDU; expected_size := 5;
       conf := plain_conf false false 0x34 |} ].

Definition test_request_rle_header_overhead_all : bool :=
  fold_left
    (fun output rq =>
       output && test_request_rle_header_overhead (fpdu_type rq) (expected_size rq) (conf rq))
    test_requests true.

End UnderTest.

End TestRleMisc.

(** * Properties *)

(** ** Machine integers *)

Lemma wrap_range (w x : Z) : 0 <= w -> 0 <= wrap w x < 2 ^ w.
Proof.
  intros Hw. unfold wrap. apply Z.mod_pos_bound.
  apply Z.pow_pos_nonneg; lia.
Qed.

Lemma wrap_small (w x : Z) : 0 <= x < 2 ^ w -> wrap w x = x.
Proof. intros H. unfold wrap. now apply Z.mod_small. Qed.

Lemma wrap_add_l (w x y : Z) : wrap w (wrap w x + y) = wrap w (x + y).
Proof. unfold wrap. now rewrite Zplus_mod_idemp_l. Qed.

Lemma status_eqb_eq (a b : status) : status_eqb a b = true <-> a = b.
Proof. destruct a, b; simpl; split; intros H; try reflexivity; discriminate. Qed.

(** ** rle_ctx.c *)

Module RleCtxProofs.
Import RleCtx.

Lemma next_seq_nb_incr (c : rle_ctx_management) :
  next_seq_nb (rle_ctx_incr_seq_nb c) = (next_seq_nb c + 1) mod 256.
Proof. reflexivity. Qed.

(** C7, as stated, fails: eight reservations after the transmitter's
    initialisation leave 8 in [next_seq_nb], outside 0..7, where an
    advance modulo 8 from 7 gives 0. *)
Lemma rle_ctx_incr_seq_nb_leaves_3_bit_range :
  let c7 := incr_seq_nb_times 7 (initialised 0) in
  next_seq_nb c7 = 7 /\
  next_seq_nb (rle_ctx_incr_seq_nb c7) = 8 /\
  next_seq_nb (rle_ctx_incr_seq_nb c7) <> (next_seq_nb c7 + 1) mod 8 /\
  ~ (0 <= next_seq_nb (rle_ctx_incr_seq_nb c7) <= 7).
Proof.
  cbv zeta. repeat split.
  - intros H. vm_compute in H. discriminate.
  - intros [_ H]. vm_compute in H. apply H. reflexivity.
Qed.

(** C7, amended: [rle_ctx_incr_seq_nb] advances the stored [next_seq_nb]
    by one modulo 256, so the stored value stays in 0..255; its residue
    modulo 8, the 3-bit sequence number, advances by one modulo 8. *)
Theorem rle_ctx_incr_seq_nb_mod_256 (c : rle_ctx_management) :
  next_seq_nb (rle_ctx_incr_seq_nb c) = (next_seq_nb c + 1) mod 256 /\
  0 <= next_seq_nb (rle_ctx_incr_seq_nb c) <= 255 /\
  next_seq_nb (rle_ctx_incr_seq_nb c) mod 8 = (next_seq_nb c mod 8 + 1) mod 8.
Proof.
  rewrite next_seq_nb_incr. split; [reflexivity | split].
  - pose proof (Z.mod_pos_bound (next_seq_nb c + 1) 256 ltac:(lia)). lia.
  - rewrite Z.mod_mod_divide by (exists 32; reflexivity).
    now rewrite Zplus_mod_idemp_l.
Qed.

Section LabelType.

Variables RLE_LT_IMPLICIT_PROTO_TYPE RLE_LT_PROTO_SIGNAL : Z.
Hypothesis legal_values_differ : RLE_LT_IMPLICIT_PROTO_TYPE <> RLE_LT_PROTO_SIGNAL.

Lemma label_type_guard_always_holds (val : Z) :
  negb (val =? RLE_LT_IMPLICIT_PROTO_TYPE) || negb (val =? RLE_LT_PROTO_SIGNAL) = true.
Proof.
  destruct (Z.eqb_spec val RLE_LT_IMPLICIT_PROTO_TYPE) as [E1 | N1];
    destruct (Z.eqb_spec val RLE_LT_PROTO_SIGNAL) as [E2 | N2]; simpl; try reflexivity.
  exfalso. apply legal_values_differ. congruence.
Qed.

(** C9: whatever the value, the two legal label types included,
    [rle_ctx_set_label_type] reports an invalid value and returns with
    the context, its label type in particular, as it was. *)
Theorem rle_ctx_set_label_type_rejects_every_value (c : rle_ctx_management) (val : Z) :
  rle_ctx_set_label_type RLE_LT_IMPLICIT_PROTO_TYPE RLE_LT_PROTO_SIGNAL c val
  = (c, [Invalid_Label_type_value val]) /\
  label_type (fst (rle_ctx_set_label_type RLE_LT_IMPLICIT_PROTO_TYPE RLE_LT_PROTO_SIGNAL c
                     RLE_LT_IMPLICIT_PROTO_TYPE)) = label_type c /\
  label_type (fst (rle_ctx_set_label_type RLE_LT_IMPLICIT_PROTO_TYPE RLE_LT_PROTO_SIGNAL c
                     RLE_LT_PROTO_SIGNAL)) = label_type c.
Proof.
  unfold rle_ctx_set_label_type.
  rewrite !label_type_guard_always_holds. repeat split.
Qed.

End LabelType.

Lemma rle_ctx_set_label_type_rejects_every_value_witness :
  2 <> 3 /\
  rle_ctx_set_label_type 2 3 (initialised 0) 3
  = (initialised 0, [Invalid_Label_type_value 3]).
Proof.
  split.
  - discriminate.
  - apply (rle_ctx_set_label_type_rejects_every_value 2 3 ltac:(discriminate)
             (initialised 0) 3).
Defined.

(** *** Further properties of rle_ctx.c *)

Lemma next_seq_nb_incr_times (n : nat) (c : rle_ctx_management) :
  0 <= next_seq_nb c < 256 ->
  next_seq_nb (incr_seq_nb_times n c) = (next_seq_nb c + Z.of_nat n) mod 256.
Proof.
  intros Hrange. induction n as [ | n IH].
  - cbn [incr_seq_nb_times]. rewrite Z.add_0_r. symmetry. now apply Z.mod_small.
  - cbn [incr_seq_nb_times]. rewrite next_seq_nb_incr, IH, Zplus_mod_idemp_l.
    f_equal. lia.
Qed.

Lemma frame_incr_seq_nb_times (n : nat) (c : rle_ctx_management) :
  frag_id (incr_seq_nb_times n c) = frag_id c /\
  label_type (incr_seq_nb_times n c) = label_type c /\
  pdu_length (incr_seq_nb_times n c) = pdu_length c.
Proof.
  induction n as [ | n IH]; [ repeat split | ].
  cbn [incr_seq_nb_times]. exact IH.
Qed.

(** X1: from a stored sequence number in 0..255, [n] calls of
    [rle_ctx_incr_seq_nb] leave that number plus [n], modulo 256: the
    stored number is back after 256 calls and its residue modulo 8 after
    8 calls; fragment id, label type and PDU length are not touched. *)
Theorem rle_ctx_incr_seq_nb_composes (n : nat) (c : rle_ctx_management) :
  0 <= next_seq_nb c < 256 ->
  next_seq_nb (incr_seq_nb_times n c) = (next_seq_nb c + Z.of_nat n) mod 256 /\
  next_seq_nb (incr_seq_nb_times 256 c) = next_seq_nb c /\
  next_seq_nb (incr_seq_nb_times (n + 8) c) mod 8 = next_seq_nb (incr_seq_nb_times n c) mod 8 /\
  frag_id (incr_seq_nb_times n c) = frag_id c /\
  label_type (incr_seq_nb_times n c) = label_type c /\
  pdu_length (incr_seq_nb_times n c) = pdu_length c.
Proof.
  intros Hrange. split; [ now apply next_seq_nb_incr_times | ].
  split; [ | split; [ | apply frame_incr_seq_nb_times ] ].
  - rewrite next_seq_nb_incr_times by assumption.
    change (Z.of_nat 256) with (1 * 256). rewrite Z.mod_add by lia.
    now apply Z.mod_small.
  - rewrite !next_seq_nb_incr_times by assumption.
    rewrite !Z.mod_mod_divide by (exists 32; reflexivity).
    rewrite Nat2Z.inj_add, Z.add_assoc.
    change (Z.of_nat 8) with (1 * 8). now rewrite Z.mod_add by lia.
Qed.

Lemma rle_ctx_incr_seq_nb_composes_witness :
  0 <= next_seq_nb (initialised 3) < 256 /\
  next_seq_nb (incr_seq_nb_times 10 (initialised 3)) = 10.
Proof.
  assert (H : 0 <= next_seq_nb (initialised 3) < 256)
    by (split; [ discriminate | reflexivity ]).
  split; [ exact H | ].
  exact (proj1 (rle_ctx_incr_seq_nb_composes 10 (initialised 3) H)).
Defined.

(** X2: [rle_ctx_init] returns C_OK exactly when the allocation
    succeeded; either way the context is flushed (fragment id, sequence
    number and label type 0xff, lengths 0, not fragmented) and [buf] is
    what the allocation returned, the end address pointing to the start
    of the buffer on success.  [rle_ctx_destroy] after it returns C_OK
    and leaves a flushed context without buffer. *)
Theorem rle_ctx_init_then_destroy (c : rle_ctx_management) (allocated : option Z) :
  let init := rle_ctx_init c allocated in
  let destroyed := rle_ctx_destroy (snd init) in
  (fst init = C_OK <-> allocated <> None) /\
  buf (snd init) = allocated /\
  end_addr (snd init) = allocated /\
  (frag_id (snd init) = 0xff /\ next_seq_nb (snd init) = 0xff /\
   label_type (snd init) = 0xff /\ is_fragmented (snd init) = false /\
   pdu_length (snd init) = 0 /\ remaining_pdu_length (snd init) = 0 /\
   rle_length (snd init) = 0) /\
  fst destroyed = C_OK /\
  buf (snd destroyed) = None /\ end_addr (snd destroyed) = None /\
  frag_id (snd destroyed) = 0xff /\ next_seq_nb (snd destroyed) = 0xff.
Proof.
  cbv zeta. unfold rle_ctx_init. destruct allocated as [a | ]; cbn.
  - repeat split; try discriminate; intros; reflexivity.
  - repeat split; try discriminate; intros H; try reflexivity; now elim H.
Qed.

(** X3: for a fragment id of 8 bits and a length of 32 bits, as the
    setters take them, the setters with a bound store a value within the
    bound, which the getter then returns, and refuse a value above it,
    leaving the whole context as it was and reporting it: fragment ids
    above RLE_MAX_FRAG_ID (7), lengths above RLE_MAX_PDU_SIZE (4088), a
    NULL end address. *)
Theorem rle_ctx_bounded_setters (c : rle_ctx_management) (id len addr : Z) :
  0 <= id < 2 ^ 8 -> 0 <= len < 2 ^ 32 ->
  (id <= RLE_MAX_FRAG_ID ->
   rle_ctx_get_frag_id (fst (rle_ctx_set_frag_id c id)) = id /\
   snd (rle_ctx_set_frag_id c id) = []) /\
  (RLE_MAX_FRAG_ID < id ->
   rle_ctx_set_frag_id c id = (c, [Invalid_fragment_id id])) /\
  (len <= RLE_MAX_PDU_SIZE ->
   rle_ctx_get_pdu_length (fst (rle_ctx_set_pdu_length c len)) = len /\
   remaining_pdu_length (fst (rle_ctx_set_remaining_pdu_length c len)) = len /\
   rle_length (fst (rle_ctx_set_rle_length c len)) = len) /\
  (RLE_MAX_PDU_SIZE < len ->
   rle_ctx_set_pdu_length c len = (c, [Invalid_PDU_length len]) /\
   rle_ctx_set_remaining_pdu_length c len = (c, [Invalid_remaining_RLE_length len]) /\
   rle_ctx_set_rle_length c len = (c, [Invalid_RLE_length len])) /\
  rle_ctx_set_end_address c None = (c, [Useful_data_end_address_NULL]) /\
  rle_ctx_get_end_address (fst (rle_ctx_set_end_address c (Some addr))) = Some addr.
Proof.
  intros _ _.
  unfold rle_ctx_set_frag_id, rle_ctx_set_pdu_length, rle_ctx_set_remaining_pdu_length,
    rle_ctx_set_rle_length.
  repeat split; try (intros H);
    try (replace (RLE_MAX_FRAG_ID <? id) with false by (symmetry; apply Z.ltb_ge; lia));
    try (replace (RLE_MAX_FRAG_ID <? id) with true by (symmetry; apply Z.ltb_lt; lia));
    try (replace (RLE_MAX_PDU_SIZE <? len) with false by (symmetry; apply Z.ltb_ge; lia));
    try (replace (RLE_MAX_PDU_SIZE <? len) with true by (symmetry; apply Z.ltb_lt; lia));
    reflexivity.
Qed.

Lemma rle_ctx_bounded_setters_witness :
  rle_ctx_set_frag_id (initialised 0) 9 = (initialised 0, [Invalid_fragment_id 9]) /\
  rle_ctx_get_pdu_length (fst (rle_ctx_set_pdu_length (initialised 0) 4088)) = 4088.
Proof.
  pose proof (rle_ctx_bounded_setters (initialised 0) 9 4088 0
                ltac:(split; [ discriminate | reflexivity ])
                ltac:(split; [ discriminate | reflexivity ]))
    as (_ & Hrefused & Hstored & _).
  split.
  - apply Hrefused. reflexivity.
  - apply Hstored. discriminate.
Defined.

End RleCtxProofs.

(** ** rle_transmitter.c *)

Module RleTransmitterProofs.
Import RleCtx RleTransmitter.

Section Transmitter.

Variable rle_configuration : Type.
Let transmitter : Type := rle_transmitter rle_configuration.

Lemma uint8_testbit (x i : Z) :
  0 <= i -> Z.testbit (uint8 x) i = (i <? 8) && Z.testbit x i.
Proof.
  intros Hi. unfold uint8, wrap.
  destruct (Z.ltb_spec i 8) as [Hlt | Hge]; cbn [andb].
  - apply Z.mod_pow2_bits_low. lia.
  - apply Z.mod_pow2_bits_high. lia.
Qed.

(** Taking a fragment id sets its bit and no other. *)
Lemma set_nonfree_frag_ctx_sets_one_bit (t : transmitter) (index j : Z) :
  0 <= index -> 0 <= j < 8 ->
  ctx_bit (snd (set_nonfree_frag_ctx index t)) j = (j =? index) || ctx_bit t j.
Proof.
  intros Hindex Hj. unfold ctx_bit, set_nonfree_frag_ctx, bind, load_free_ctx, store_free_ctx.
  simpl. rewrite uint8_testbit by lia.
  replace (j <? 8) with true by (symmetry; apply Z.ltb_lt; lia). simpl.
  rewrite Z.lor_spec, Z.shiftl_spec by lia.
  rewrite orb_comm. f_equal.
  destruct (Z.eqb_spec j index) as [-> | Hne].
  - now rewrite Z.sub_diag.
  - destruct (Z.ltb_spec j index).
    + apply Z.testbit_neg_r. lia.
    + apply Z.bits_above_log2; simpl; lia.
Qed.

(** Releasing any fragment id stores 0 in the bitmap. *)
Lemma set_free_frag_ctx_stores_zero (t : transmitter) (index : Z) :
  free_ctx (snd (set_free_frag_ctx index t)) = 0.
Proof.
  unfold set_free_frag_ctx, store_free_ctx. simpl.
  now rewrite Z.shiftl_0_l.
Qed.

Lemma set_free_frag_ctx_clears_every_bit (t : transmitter) (index j : Z) :
  ctx_bit (snd (set_free_frag_ctx index t)) j = false.
Proof.
  unfold ctx_bit. rewrite set_free_frag_ctx_stores_zero. apply Z.bits_0.
Qed.

Ltac released_all :=
  match goal with
  | |- context [set_free_frag_ctx ?i ?x] =>
      let Hz := fresh "Hz" in
      pose proof (set_free_frag_ctx_stores_zero x i) as Hz;
      destruct (set_free_frag_ctx i x); exact Hz
  end.

(** Both error exits of the transmitter release through
    [set_free_frag_ctx]: whatever the fragment id, the whole bitmap is
    cleared. *)
Lemma rle_transmitter_get_packet_error_clears_bitmap
    (fragmentation_fragment_pdu :
       rle_ctx_management -> rle_configuration -> Z -> Z -> status * rle_ctx_management)
    (RLE_MAX_SEQ_NO : Z) (t : transmitter) (burst_length fragment_id protocol_type : Z) :
  let run := rle_transmitter_get_packet rle_configuration fragmentation_fragment_pdu
               RLE_MAX_SEQ_NO burst_length fragment_id protocol_type t in
  fst run <> C_OK -> free_ctx (snd run) = 0.
Proof.
  cbv zeta. unfold rle_transmitter_get_packet, bind, load_ctx, load_conf, store_ctx, ret.
  destruct (RLE_MAX_SEQ_NO <=? nb_frag_pdu (rle_ctx_man t (Z.to_nat fragment_id))).
  - intros _. released_all.
  - cbn [rle_ctx_man rle_conf free_ctx].
    destruct (fragmentation_fragment_pdu _ _ _ _) as [r c']. destruct r; intros Hret;
      try (now elim Hret); released_all.
Qed.

Lemma rle_transmitter_encap_data_error_clears_bitmap
    (encap_encapsulate_pdu :
       rle_ctx_management -> rle_configuration -> list Z -> Z -> Z
       -> status * rle_ctx_management)
    (t : transmitter) (data : list Z) (data_length protocol_type frag_id : Z) :
  fst (is_frag_ctx_free frag_id t) = false ->
  let run := rle_transmitter_encap_data rle_configuration encap_encapsulate_pdu
               (Some data) data_length protocol_type frag_id t in
  fst run <> C_OK -> free_ctx (snd run) = 0.
Proof.
  cbv zeta.
  unfold rle_transmitter_encap_data, is_frag_ctx_free, set_nonfree_frag_ctx,
    set_free_frag_ctx, bind, load_free_ctx, store_free_ctx, load_ctx, load_conf,
    store_ctx, ret.
  cbn [fst snd rle_ctx_man rle_conf free_ctx]. intros ->.
  destruct (encap_encapsulate_pdu _ _ _ _ _) as [r c']. destruct r;
    cbn [fst snd free_ctx]; intros Hret; try (now elim Hret).
  now rewrite Z.shiftl_0_l.
Qed.

Lemma for_loop_sums (getter : rle_ctx_management -> Z) (t : transmitter)
    (count from : nat) (acc : Z) :
  for_loop rle_configuration count from
    (fun i ctr => bind (load_ctx rle_configuration i)
                    (fun rle_ctx => ret (uint64 (ctr + getter rle_ctx))))
    (uint64 acc) t
  = (uint64 (acc + range_sum getter t count from), t).
Proof.
  revert from acc. induction count as [ | k IH]; intros from acc; simpl.
  - unfold ret. now rewrite Z.add_0_r.
  - unfold bind at 1. unfold bind at 1. unfold load_ctx at 1. unfold ret at 1.
    unfold uint64 at 2. rewrite wrap_add_l. fold (uint64 (acc + getter (rle_ctx_man t from))).
    rewrite IH. now rewrite Z.add_assoc.
Qed.

Lemma sum_counter_spec (getter : rle_ctx_management -> Z) (t : transmitter) :
  sum_counter getter t = (uint64 (total getter t), t).
Proof.
  unfold sum_counter.
  change 0 with (uint64 0) at 1.
  rewrite for_loop_sums. f_equal. f_equal.
  unfold total, RLE_MAX_FRAG_NUMBER. simpl. lia.
Qed.

Lemma sum_counter_exact (getter : rle_ctx_management -> Z) (t : transmitter) :
  0 <= total getter t < 2 ^ 64 ->
  sum_counter getter t = (total getter t, t).
Proof.
  intros H. rewrite sum_counter_spec. unfold uint64. now rewrite wrap_small.
Qed.

(** C10: each of the four queries returns the sum of its counter over
    the eight contexts, computed in the 64 bits of its result, which is
    exactly that sum whenever the sum is a 64-bit value, and leaves the
    transmitter as it was. *)
Theorem rle_transmitter_get_counters_sum_contexts (t : transmitter) :
  (rle_transmitter_get_counter_ok t = (uint64 (total rle_ctx_get_counter_ok t), t) /\
   rle_transmitter_get_counter_dropped t = (uint64 (total rle_ctx_get_counter_dropped t), t) /\
   rle_transmitter_get_counter_lost t = (uint64 (total rle_ctx_get_counter_lost t), t) /\
   rle_transmitter_get_counter_bytes t = (uint64 (total rle_ctx_get_counter_bytes t), t)) /\
  ((0 <= total rle_ctx_get_counter_ok t < 2 ^ 64 ->
    rle_transmitter_get_counter_ok t = (total rle_ctx_get_counter_ok t, t)) /\
   (0 <= total rle_ctx_get_counter_dropped t < 2 ^ 64 ->
    rle_transmitter_get_counter_dropped t = (total rle_ctx_get_counter_dropped t, t)) /\
   (0 <= total rle_ctx_get_counter_lost t < 2 ^ 64 ->
    rle_transmitter_get_counter_lost t = (total rle_ctx_get_counter_lost t, t)) /\
   (0 <= total rle_ctx_get_counter_bytes t < 2 ^ 64 ->
    rle_transmitter_get_counter_bytes t = (total rle_ctx_get_counter_bytes t, t))).
Proof.
  unfold rle_transmitter_get_counter_ok, rle_transmitter_get_counter_dropped,
    rle_transmitter_get_counter_lost, rle_transmitter_get_counter_bytes.
  split; repeat split; try apply sum_counter_spec; apply sum_counter_exact.
Qed.

(** *** Further properties of rle_transmitter.c *)

Lemma is_frag_ctx_free_bit (t : transmitter) (j : Z) :
  0 <= j -> fst (is_frag_ctx_free j t) = ctx_bit t j.
Proof.
  intros Hj. unfold is_frag_ctx_free, bind, load_free_ctx, ret, ctx_bit. cbn [fst].
  change 1 with (Z.ones 1). rewrite Z.land_ones by lia. change (2 ^ 1) with 2.
  rewrite <- Z.bit0_mod, Z.shiftr_spec by lia. cbn [Z.add].
  now destruct (Z.testbit (free_ctx t) j).
Qed.

(** X4: taking a fragment id in 0..7 makes [is_frag_ctx_free] answer
    C_TRUE for it, leaves the answer for each other fragment id as it
    was, and touches no context. *)
Theorem set_nonfree_frag_ctx_takes_one_context (t : transmitter) (index j : Z) :
  0 <= index < 8 -> 0 <= j < 8 -> j <> index ->
  fst (is_frag_ctx_free index (snd (set_nonfree_frag_ctx index t))) = true /\
  fst (is_frag_ctx_free j (snd (set_nonfree_frag_ctx index t))) = fst (is_frag_ctx_free j t) /\
  rle_ctx_man (snd (set_nonfree_frag_ctx index t)) = rle_ctx_man t.
Proof.
  intros Hindex Hj Hne.
  rewrite !is_frag_ctx_free_bit by lia.
  rewrite !set_nonfree_frag_ctx_sets_one_bit by lia.
  rewrite Z.eqb_refl. replace (j =? index) with false by (symmetry; now apply Z.eqb_neq).
  repeat split.
Qed.

(** X5: [init] leaves every fragment id free and, in each of the eight
    contexts, the fragment id of the context, sequence number 0, the
    buffer that was allocated for it and no PDU; the contexts are
    flushed, so nothing of the former transmitter state remains but the
    statistics.  [rle_transmitter_module_destroy] after it leaves each
    of them without buffer and every fragment id free. *)
Theorem init_sets_up_eight_contexts (malloc : nat -> option Z) (t : transmitter) (i : nat) :
  (i < RLE_MAX_FRAG_NUMBER)%nat ->
  let t' := snd (init malloc t) in
  let c := rle_ctx_man t' i in
  let t'' := snd (rle_transmitter_module_destroy t') in
  free_ctx t' = 0 /\
  fst (is_frag_ctx_free (Z.of_nat i) t') = false /\
  rle_ctx_get_frag_id c = Z.of_nat i /\
  next_seq_nb c = 0 /\
  buf c = malloc i /\
  is_fragmented c = false /\ pdu_length c = 0 /\ remaining_pdu_length c = 0 /\
  stats c = stats (rle_ctx_man t i) /\
  free_ctx t'' = 0 /\ buf (rle_ctx_man t'' i) = None /\
  rle_ctx_get_frag_id (rle_ctx_man t'' i) = 0xff.
Proof.
  unfold RLE_MAX_FRAG_NUMBER. intros Hi. cbv zeta.
  do 8 (destruct i as [ | i];
        [ clear Hi; repeat split; try reflexivity;
          unfold init, rle_transmitter_module_destroy, RLE_MAX_FRAG_NUMBER, for_loop, bind,
            load_ctx, store_ctx, set_free_all_frag_ctx, store_free_ctx, ret;
          cbn [fst snd rle_ctx_man free_ctx Nat.eqb];
          unfold rle_ctx_init; destruct (malloc _); reflexivity
        | ]).
  lia.
Qed.

Section Calls.

Variable encap_encapsulate_pdu :
  rle_ctx_management -> rle_configuration -> list Z -> Z -> Z -> status * rle_ctx_management.
Variable fragmentation_fragment_pdu :
  rle_ctx_management -> rle_configuration -> Z -> Z -> status * rle_ctx_management.
Variable RLE_MAX_SEQ_NO : Z.

Let encap_data := rle_transmitter_encap_data rle_configuration encap_encapsulate_pdu.
Let get_packet :=
  rle_transmitter_get_packet rle_configuration fragmentation_fragment_pdu RLE_MAX_SEQ_NO.

Lemma is_frag_ctx_free_state (t : transmitter) (frag_id : Z) :
  is_frag_ctx_free frag_id t = (fst (is_frag_ctx_free frag_id t), t).
Proof. reflexivity. Qed.

Lemma encap_data_on_free_context (t : transmitter) (data : list Z)
    (data_length protocol_type frag_id : Z) :
  fst (is_frag_ctx_free frag_id t) = false ->
  let t1 := snd (set_nonfree_frag_ctx frag_id t) in
  let done := encap_encapsulate_pdu (rle_ctx_man t (Z.to_nat frag_id)) (rle_conf t)
                data data_length protocol_type in
  encap_data (Some data) data_length protocol_type frag_id t
  = match fst done with
    | C_ERROR =>
        (C_ERROR,
         snd (set_free_frag_ctx frag_id
                (snd (store_ctx rle_configuration (Z.to_nat frag_id)
                        (rle_ctx_incr_counter_dropped (snd done))
                        (snd (store_ctx rle_configuration (Z.to_nat frag_id)
                                (snd done) t1))))))
    | _ => (C_OK, snd (store_ctx rle_configuration (Z.to_nat frag_id) (snd done) t1))
    end.
Proof.
  intros Hfree. cbv zeta. unfold encap_data, rle_transmitter_encap_data.
  unfold bind at 1. rewrite is_frag_ctx_free_state, Hfree.
  unfold set_nonfree_frag_ctx, set_free_frag_ctx, bind, load_free_ctx, store_free_ctx,
    load_ctx, load_conf, store_ctx, ret.
  cbn [fst snd rle_ctx_man rle_conf free_ctx].
  destruct (encap_encapsulate_pdu _ _ _ _ _) as [r c']. cbn [fst snd].
  destruct r; cbn [fst snd rle_ctx_man rle_conf free_ctx]; rewrite ?Nat.eqb_refl;
    reflexivity.
Qed.

Lemma encap_data_on_busy_context (t : transmitter) (data : list Z)
    (data_length protocol_type frag_id : Z) :
  fst (is_frag_ctx_free frag_id t) = true ->
  encap_data (Some data) data_length protocol_type frag_id t = (C_ERROR, t).
Proof.
  intros Hbusy. unfold encap_data, rle_transmitter_encap_data. unfold bind at 1.
  now rewrite is_frag_ctx_free_state, Hbusy.
Qed.

(** X6: [rle_transmitter_encap_data] returns C_ERROR and leaves the
    transmitter as it was, without calling the encapsulation, when the
    data buffer is NULL or the fragment id, in 0..7, is in use. *)
Theorem rle_transmitter_encap_data_refused (t : transmitter) (data_buffer : option (list Z))
    (data_length protocol_type frag_id : Z) :
  data_buffer = None \/ (0 <= frag_id < 8 /\ fst (is_frag_ctx_free frag_id t) = true) ->
  encap_data data_buffer data_length protocol_type frag_id t = (C_ERROR, t).
Proof.
  intros [-> | [_ Hbusy]]; [ reflexivity | ].
  destruct data_buffer as [data | ]; [ | reflexivity ].
  now apply encap_data_on_busy_context.
Qed.

(** X7: on a free fragment id in 0..7, when the encapsulation does not
    fail, [rle_transmitter_encap_data] returns C_OK, leaves in the
    context of this fragment id what the encapsulation left, and takes
    the fragment id, the other contexts and fragment ids being as
    before; any further call on this fragment id is then refused and
    changes nothing. *)
Theorem rle_transmitter_encap_data_takes_context (t : transmitter) (data : list Z)
    (data_length protocol_type frag_id j : Z) :
  0 <= frag_id < 8 -> 0 <= j < 8 -> j <> frag_id ->
  fst (is_frag_ctx_free frag_id t) = false ->
  let done := encap_encapsulate_pdu (rle_ctx_man t (Z.to_nat frag_id)) (rle_conf t)
                data data_length protocol_type in
  fst done <> C_ERROR ->
  let run := encap_data (Some data) data_length protocol_type frag_id t in
  fst run = C_OK /\
  rle_ctx_man (snd run) (Z.to_nat frag_id) = snd done /\
  rle_ctx_man (snd run) (Z.to_nat j) = rle_ctx_man t (Z.to_nat j) /\
  fst (is_frag_ctx_free frag_id (snd run)) = true /\
  fst (is_frag_ctx_free j (snd run)) = fst (is_frag_ctx_free j t) /\
  (forall data' data_length' protocol_type',
     encap_data data' data_length' protocol_type' frag_id (snd run) = (C_ERROR, snd run)).
Proof.
  intros Hid Hj Hne Hfree. cbv zeta. intros Hdone.
  rewrite encap_data_on_free_context by assumption. cbv zeta.
  assert (Htaken : fst (is_frag_ctx_free frag_id (snd (set_nonfree_frag_ctx frag_id t)))
                   = true)
    by (rewrite is_frag_ctx_free_bit, set_nonfree_frag_ctx_sets_one_bit, Z.eqb_refl by lia;
        reflexivity).
  assert (Hothers : fst (is_frag_ctx_free j (snd (set_nonfree_frag_ctx frag_id t)))
                    = fst (is_frag_ctx_free j t)).
  { rewrite !is_frag_ctx_free_bit, set_nonfree_frag_ctx_sets_one_bit by lia.
    now replace (j =? frag_id) with false by (symmetry; now apply Z.eqb_neq). }
  set (done := encap_encapsulate_pdu _ _ _ _ _) in *.
  assert (Hrun : match fst done with
                 | C_ERROR =>
                     (C_ERROR,
                      snd (set_free_frag_ctx frag_id
                             (snd (store_ctx rle_configuration (Z.to_nat frag_id)
                                     (rle_ctx_incr_counter_dropped (snd done))
                                     (snd (store_ctx rle_configuration (Z.to_nat frag_id)
                                             (snd done)
                                             (snd (set_nonfree_frag_ctx frag_id t))))))))
                 | _ => (C_OK, snd (store_ctx rle_configuration (Z.to_nat frag_id) (snd done)
                                      (snd (set_nonfree_frag_ctx frag_id t))))
                 end
                 = (C_OK, snd (store_ctx rle_configuration (Z.to_nat frag_id) (snd done)
                                 (snd (set_nonfree_frag_ctx frag_id t)))))
    by (destruct (fst done); try reflexivity; now elim Hdone).
  rewrite Hrun. cbn [fst snd].
  assert (Hbusy : fst (is_frag_ctx_free frag_id
                         (snd (store_ctx rle_configuration (Z.to_nat frag_id) (snd done)
                                 (snd (set_nonfree_frag_ctx frag_id t))))) = true)
    by exact Htaken.
  split; [ reflexivity | ]. split.
  { unfold store_ctx. cbn [snd rle_ctx_man]. now rewrite Nat.eqb_refl. }
  split.
  { unfold store_ctx. cbn [snd rle_ctx_man].
    replace (Z.to_nat j =? Z.to_nat frag_id)%nat with false
      by (symmetry; apply Nat.eqb_neq; lia).
    reflexivity. }
  split; [ exact Hbusy | ]. split; [ exact Hothers | ].
  intros [data' | ] data_length' protocol_type'; [ | reflexivity ].
  now apply encap_data_on_busy_context.
Qed.

(** X8: on a fragment id in 0..7 that is not in use, when the
    encapsulation fails, [rle_transmitter_encap_data]
    returns C_ERROR, counts one dropped packet in the context of the
    fragment id (on what the encapsulation left there), leaves the other
    contexts as they were and marks every fragment id free. *)
Theorem rle_transmitter_encap_data_failure (t : transmitter) (data : list Z)
    (data_length protocol_type frag_id : Z) (j : nat) :
  0 <= frag_id < 8 -> j <> Z.to_nat frag_id ->
  fst (is_frag_ctx_free frag_id t) = false ->
  let done := encap_encapsulate_pdu (rle_ctx_man t (Z.to_nat frag_id)) (rle_conf t)
                data data_length protocol_type in
  fst done = C_ERROR ->
  let run := encap_data (Some data) data_length protocol_type frag_id t in
  fst run = C_ERROR /\
  rle_ctx_man (snd run) (Z.to_nat frag_id) = rle_ctx_incr_counter_dropped (snd done) /\
  rle_ctx_get_counter_dropped (rle_ctx_man (snd run) (Z.to_nat frag_id))
  = uint64 (rle_ctx_get_counter_dropped (snd done) + 1) /\
  rle_ctx_man (snd run) j = rle_ctx_man t j /\
  free_ctx (snd run) = 0.
Proof.
  intros _ Hne Hfree. cbv zeta. intros Hdone.
  rewrite encap_data_on_free_context by assumption. cbv zeta. rewrite Hdone.
  unfold set_free_frag_ctx, set_nonfree_frag_ctx, store_ctx, store_free_ctx, bind,
    load_free_ctx.
  cbn [fst snd rle_ctx_man free_ctx]. rewrite Nat.eqb_refl.
  replace (j =? Z.to_nat frag_id)%nat with false by (symmetry; now apply Nat.eqb_neq).
  rewrite Z.shiftl_0_l. repeat split.
Qed.

Lemma total_after_store (getter : rle_ctx_management -> Z) (t : transmitter)
    (i : nat) (c : rle_ctx_management) :
  (i < 8)%nat ->
  total getter (snd (store_ctx rle_configuration i c t))
  = total getter t - getter (rle_ctx_man t i) + getter c.
Proof.
  intros Hi. unfold total, store_ctx. cbn [snd rle_ctx_man].
  do 8 (destruct i as [ | i]; [ cbn [Nat.eqb]; lia | ]). lia.
Qed.

(** X9: when the context already holds RLE_MAX_SEQ_NO fragments or
    more, [rle_transmitter_get_packet] returns C_ERROR_TOO_MUCH_FRAG
    without calling the fragmentation: the context is as it was but for
    one more dropped packet, every fragment id is marked free, and, for
    a fragment id in 0..7 and counters that do not overflow, the dropped
    total of the transmitter grows by one. *)
Theorem rle_transmitter_get_packet_too_much_frag (t : transmitter)
    (burst_length fragment_id protocol_type : Z) :
  0 <= fragment_id < 8 ->
  RLE_MAX_SEQ_NO <= nb_frag_pdu (rle_ctx_man t (Z.to_nat fragment_id)) ->
  0 <= total rle_ctx_get_counter_dropped t < 2 ^ 64 - 1 ->
  (forall i, (i < 8)%nat -> 0 <= rle_ctx_get_counter_dropped (rle_ctx_man t i)) ->
  let run := get_packet burst_length fragment_id protocol_type t in
  fst run = C_ERROR_TOO_MUCH_FRAG /\
  rle_ctx_man (snd run) (Z.to_nat fragment_id)
  = rle_ctx_incr_counter_dropped (rle_ctx_man t (Z.to_nat fragment_id)) /\
  free_ctx (snd run) = 0 /\
  fst (rle_transmitter_get_counter_dropped (snd run))
  = fst (rle_transmitter_get_counter_dropped t) + 1.
Proof.
  intros Hid Hmax Htotal Hall. cbv zeta.
  assert (Hpos := Hall (Z.to_nat fragment_id) ltac:(lia)).
  set (t1 := store_ctx rle_configuration (Z.to_nat fragment_id)
               (rle_ctx_incr_counter_dropped (rle_ctx_man t (Z.to_nat fragment_id))) t).
  assert (Hrun : get_packet burst_length fragment_id protocol_type t
                 = (C_ERROR_TOO_MUCH_FRAG, snd (set_free_frag_ctx fragment_id (snd t1)))).
  { unfold t1, get_packet, rle_transmitter_get_packet, set_free_frag_ctx, bind, load_ctx,
      load_conf, store_ctx, store_free_ctx, ret.
    cbn [fst snd rle_ctx_man rle_conf free_ctx].
    replace (RLE_MAX_SEQ_NO <=? nb_frag_pdu (rle_ctx_man t (Z.to_nat fragment_id)))
      with true by (symmetry; now apply Z.leb_le).
    reflexivity. }
  rewrite Hrun. cbn [fst snd].
  split; [ reflexivity | ]. split.
  { unfold t1, set_free_frag_ctx, store_ctx, store_free_ctx. cbn [snd rle_ctx_man].
    now rewrite Nat.eqb_refl. }
  split; [ apply set_free_frag_ctx_stores_zero | ].
  assert (Hsum : total rle_ctx_get_counter_dropped (snd (set_free_frag_ctx fragment_id (snd t1)))
                 = total rle_ctx_get_counter_dropped t + 1).
  { change (total rle_ctx_get_counter_dropped (snd (set_free_frag_ctx fragment_id (snd t1))))
      with (total rle_ctx_get_counter_dropped (snd t1)).
    unfold t1. rewrite total_after_store by lia.
    unfold rle_ctx_incr_counter_dropped, rle_ctx_get_counter_dropped at 3.
    cbn [stats set_stats_field counter_dropped].
    unfold uint64. rewrite wrap_small; [ unfold rle_ctx_get_counter_dropped; lia | ].
    fold (rle_ctx_get_counter_dropped (rle_ctx_man t (Z.to_nat fragment_id))).
    assert (rle_ctx_get_counter_dropped (rle_ctx_man t (Z.to_nat fragment_id))
            <= total rle_ctx_get_counter_dropped t).
    { unfold total.
      pose proof (Hall 0%nat ltac:(lia)). pose proof (Hall 1%nat ltac:(lia)).
      pose proof (Hall 2%nat ltac:(lia)). pose proof (Hall 3%nat ltac:(lia)).
      pose proof (Hall 4%nat ltac:(lia)). pose proof (Hall 5%nat ltac:(lia)).
      pose proof (Hall 6%nat ltac:(lia)). pose proof (Hall 7%nat ltac:(lia)).
      assert (Hcase : (Z.to_nat fragment_id < 8)%nat) by lia.
      revert Hcase. generalize (Z.to_nat fragment_id) as k. intros k Hk.
      do 8 (destruct k as [ | k]; [ lia | ]). lia. }
    lia. }
  unfold rle_transmitter_get_counter_dropped.
  rewrite !sum_counter_exact by (rewrite ?Hsum; lia).
  cbn [fst]. exact Hsum.
Qed.

(** X10: for a fragment id in 0..7 whose context holds less than
    RLE_MAX_SEQ_NO fragments, [rle_transmitter_get_packet]
    returns the status of the fragmentation.  On C_OK the context is
    what the fragmentation left and the fragment ids in use stay in use
    (the last fragment does not release the context); on any other
    status one more dropped packet is counted on what the fragmentation
    left and every fragment id is marked free.  The other contexts are
    as before. *)
Theorem rle_transmitter_get_packet_follows_fragmentation (t : transmitter)
    (burst_length fragment_id protocol_type : Z) (j : nat) :
  0 <= fragment_id < 8 -> j <> Z.to_nat fragment_id ->
  nb_frag_pdu (rle_ctx_man t (Z.to_nat fragment_id)) < RLE_MAX_SEQ_NO ->
  let done := fragmentation_fragment_pdu (rle_ctx_man t (Z.to_nat fragment_id)) (rle_conf t)
                burst_length protocol_type in
  let run := get_packet burst_length fragment_id protocol_type t in
  fst run = fst done /\
  rle_ctx_man (snd run) j = rle_ctx_man t j /\
  (fst done = C_OK ->
   rle_ctx_man (snd run) (Z.to_nat fragment_id) = snd done /\
   free_ctx (snd run) = free_ctx t) /\
  (fst done <> C_OK ->
   rle_ctx_man (snd run) (Z.to_nat fragment_id) = rle_ctx_incr_counter_dropped (snd done) /\
   free_ctx (snd run) = 0).
Proof.
  intros _ Hne Hmax. cbv zeta.
  unfold get_packet, rle_transmitter_get_packet, bind, load_ctx, load_conf, store_ctx, ret,
    set_free_frag_ctx, store_free_ctx.
  replace (RLE_MAX_SEQ_NO <=? nb_frag_pdu (rle_ctx_man t (Z.to_nat fragment_id)))
    with false by (symmetry; apply Z.leb_gt; lia).
  cbn [fst snd rle_ctx_man rle_conf free_ctx].
  destruct (fragmentation_fragment_pdu _ _ _ _) as [r c']. cbn [fst snd].
  replace (j =? Z.to_nat fragment_id)%nat with false by (symmetry; now apply Nat.eqb_neq).
  destruct r; cbn [fst snd rle_ctx_man free_ctx]; rewrite ?Nat.eqb_refl, ?Z.shiftl_0_l;
    replace (j =? Z.to_nat fragment_id)%nat with false by (symmetry; now apply Nat.eqb_neq);
    (split; [ reflexivity | ]); (split; [ reflexivity | ]);
    split; intros H; try discriminate; try (now elim H); split; reflexivity.
Qed.

End Calls.

End Transmitter.

(** C3 fails on the code: with fragment ids 0 and 1 in use, releasing
    fragment id 0 clears the bit of fragment id 1 as well, so that
    [is_frag_ctx_free] no longer reports the pending ALPDU of context 1. *)
Theorem set_free_frag_ctx_releases_other_contexts :
  ctx_bit two_in_use 0 = true /\ ctx_bit two_in_use 1 = true /\
  ctx_bit (snd (set_free_frag_ctx 0 two_in_use)) 1 = false /\
  fst (is_frag_ctx_free 1 two_in_use) = true /\
  fst (is_frag_ctx_free 1 (snd (set_free_frag_ctx 0 two_in_use))) = false.
Proof. repeat split. Qed.

Lemma rle_transmitter_get_counters_sum_contexts_witness :
  0 <= total rle_ctx_get_counter_ok with_statistics < 2 ^ 64 /\
  rle_transmitter_get_counter_ok with_statistics = (28, with_statistics).
Proof.
  assert (H : 0 <= total rle_ctx_get_counter_ok with_statistics < 2 ^ 64)
    by (vm_compute; split; [ discriminate | reflexivity ]).
  split; [ exact H | ].
  exact (proj1 (proj2 (rle_transmitter_get_counters_sum_contexts unit with_statistics)) H).
Defined.

Lemma init_sets_up_eight_contexts_witness :
  (5 < RLE_MAX_FRAG_NUMBER)%nat /\
  rle_ctx_get_frag_id (rle_ctx_man fresh 5) = 5 /\
  buf (rle_ctx_man fresh 5) = Some 0x60000.
Proof.
  assert (H : (5 < RLE_MAX_FRAG_NUMBER)%nat) by (unfold RLE_MAX_FRAG_NUMBER; lia).
  split; [ exact H | ].
  pose proof (init_sets_up_eight_contexts unit
                (fun i => Some (0x10000 * (Z.of_nat i + 1)))
                {| rle_ctx_man := fun _ => blank; free_ctx := 0; rle_conf := tt |} 5 H)
    as P.
  cbv zeta in P.
  exact (conj (proj1 (proj2 (proj2 P))) (proj1 (proj2 (proj2 (proj2 (proj2 P)))))).
Defined.

Lemma set_nonfree_frag_ctx_takes_one_context_witness :
  fst (is_frag_ctx_free 2 (snd (set_nonfree_frag_ctx 2 two_in_use))) = true /\
  fst (is_frag_ctx_free 3 (snd (set_nonfree_frag_ctx 2 two_in_use))) = false.
Proof.
  destruct (set_nonfree_frag_ctx_takes_one_context unit two_in_use 2 3)
    as (Htaken & Hother & _); [ lia | lia | lia | ].
  split; [ exact Htaken | ]. rewrite Hother. reflexivity.
Defined.

Lemma rle_transmitter_encap_data_refused_witness :
  fst (is_frag_ctx_free 1 two_in_use) = true /\
  rle_transmitter_encap_data unit accepting_encap (Some [0x45; 0; 0; 20]) 4 0x0800 1 two_in_use
  = (C_ERROR, two_in_use).
Proof.
  split; [ reflexivity | ].
  apply (rle_transmitter_encap_data_refused unit accepting_encap two_in_use
           (Some [0x45; 0; 0; 20]) 4 0x0800 1).
  right. split; [ lia | reflexivity ].
Defined.

Lemma rle_transmitter_encap_data_takes_context_witness :
  let run := rle_transmitter_encap_data unit accepting_encap (Some [0x45; 0; 0; 20]) 4 0x0800
               2 two_in_use in
  fst run = C_OK /\ fst (is_frag_ctx_free 2 (snd run)) = true /\
  fst (is_frag_ctx_free 1 (snd run)) = true.
Proof.
  cbv zeta.
  destruct (rle_transmitter_encap_data_takes_context unit accepting_encap two_in_use
              [0x45; 0; 0; 20] 4 0x0800 2 1)
    as (Hok & _ & _ & Htaken & Hother & _);
    [ lia | lia | lia | reflexivity | discriminate | ].
  split; [ exact Hok | ]. split; [ exact Htaken | ]. rewrite Hother. reflexivity.
Defined.

Lemma rle_transmitter_encap_data_failure_witness :
  let run := rle_transmitter_encap_data unit failing_encap (Some [0; 0; 0; 0]) 4 0x0800
               2 two_in_use in
  fst run = C_ERROR /\
  rle_ctx_get_counter_dropped (rle_ctx_man (snd run) 2) = 1 /\
  free_ctx (snd run) = 0.
Proof.
  cbv zeta.
  destruct (rle_transmitter_encap_data_failure unit failing_encap two_in_use
              [0; 0; 0; 0] 4 0x0800 2 1%nat)
    as (Herr & _ & Hdropped & _ & Hbits);
    [ lia | discriminate | reflexivity | reflexivity | ].
  split; [ exact Herr | ]. split; [ exact Hdropped | exact Hbits ].
Defined.

Lemma rle_transmitter_get_packet_too_much_frag_witness :
  let run := rle_transmitter_get_packet unit one_more_fragment 256 100 0 0x0800
               (fragmented 256) in
  fst run = C_ERROR_TOO_MUCH_FRAG /\
  free_ctx (snd run) = 0 /\
  fst (rle_transmitter_get_counter_dropped (snd run)) = 1.
Proof.
  cbv zeta.
  destruct (rle_transmitter_get_packet_too_much_frag unit one_more_fragment 256
              (fragmented 256) 100 0 0x0800)
    as (Hret & _ & Hbits & Hdropped).
  - lia.
  - vm_compute. discriminate.
  - vm_compute. split; [ discriminate | reflexivity ].
  - intros i Hi. do 8 (destruct i as [ | i]; [ vm_compute; discriminate | ]). lia.
  - split; [ exact Hret | ]. split; [ exact Hbits | ]. rewrite Hdropped. reflexivity.
Defined.

Lemma rle_transmitter_get_packet_follows_fragmentation_witness :
  let run := rle_transmitter_get_packet unit one_more_fragment 256 100 0 0x0800
               (fragmented 3) in
  fst run = C_OK /\ nb_frag_pdu (rle_ctx_man (snd run) 0) = 4 /\ free_ctx (snd run) = 1.
Proof.
  cbv zeta.
  destruct (rle_transmitter_get_packet_follows_fragmentation unit one_more_fragment 256
              (fragmented 3) 100 0 0x0800 1%nat)
    as (Hret & _ & Hok & _); [ lia | discriminate | reflexivity | ].
  destruct (Hok eq_refl) as (Hctx & Hbits).
  split; [ exact Hret | ]. split; [ exact (f_equal nb_frag_pdu Hctx) | exact Hbits ].
Defined.

End RleTransmitterProofs.

(** ** encap.c *)

Module EncapProofs.
Import RleCtx Encap.

(** X12: the validity check reads nothing but the first four bytes: two
    buffers that agree on them get the same answer, so that the size of
    the SDU plays no part in it. *)
Lemma encap_check_pdu_validity_reads_header_only (b1 b2 : data_buffer) :
  firstn 4 (bytes b1) = firstn 4 (bytes b2) ->
  encap_check_pdu_validity b1 = encap_check_pdu_validity b2.
Proof.
  intros H.
  assert (Hnth : forall i, (i < 4)%nat -> nth_error (bytes b1) i = nth_error (bytes b2) i).
  { intros i Hi.
    pose proof (nth_error_firstn 4 (bytes b1) i) as H1.
    pose proof (nth_error_firstn 4 (bytes b2) i) as H2.
    replace (i <? 4)%nat with true in H1, H2 by (symmetry; apply Nat.ltb_lt; exact Hi).
    rewrite <- H1, <- H2, H. reflexivity. }
  unfold encap_check_pdu_validity, iphdr_tot_len, iphdr_tot_len_ntohs, iphdr_version.
  rewrite (Hnth 0%nat), (Hnth 2%nat), (Hnth 3%nat) by lia. reflexivity.
Qed.

Section Constants.

Variables RLE_LT_IMPLICIT_PROTO_TYPE RLE_LT_PROTO_SIGNAL : Z.
Variables RLE_T_PROTO_TYPE_NO_SUPP RLE_PROTO_TYPE_IP RLE_PROTO_TYPE_FIELD_SIZE : Z.
Variables sizeof_int_ptr sizeof_int : Z.

Let create_header :=
  create_header RLE_LT_IMPLICIT_PROTO_TYPE RLE_LT_PROTO_SIGNAL RLE_T_PROTO_TYPE_NO_SUPP
    RLE_PROTO_TYPE_IP RLE_PROTO_TYPE_FIELD_SIZE sizeof_int_ptr sizeof_int.
Let encap_encapsulate_pdu :=
  encap_encapsulate_pdu RLE_LT_IMPLICIT_PROTO_TYPE RLE_LT_PROTO_SIGNAL RLE_T_PROTO_TYPE_NO_SUPP
    RLE_PROTO_TYPE_IP RLE_PROTO_TYPE_FIELD_SIZE sizeof_int_ptr sizeof_int.

Lemma create_header_returns_ok (c : rle_ctx_management) (buf : data_buffer) (n : Z) :
  fst (fst (fst (create_header c buf n))) = C_OK.
Proof.
  unfold create_header, Encap.create_header.
  repeat match goal with
         | |- context [let '(_, _) := ?x in _] => destruct x
         end.
  reflexivity.
Qed.

(** A buffer that passes the validity check is encapsulated, whatever
    [data_length] is. *)
Lemma encap_encapsulate_pdu_follows_validity (c : rle_ctx_management) (buf : data_buffer)
    (n : Z) (d : list diagnostic) :
  encap_check_pdu_validity buf = Some (C_OK, d) ->
  exists o, encap_encapsulate_pdu c buf n = Some o /\ result o = C_OK.
Proof.
  intros Hvalid. unfold encap_encapsulate_pdu, Encap.encap_encapsulate_pdu.
  rewrite Hvalid.
  pose proof (create_header_returns_ok c buf n) as Hok.
  unfold create_header in Hok.
  destruct (Encap.create_header _ _ _ _ _ _ _ c buf n) as [[[r c'] h] d'].
  simpl in Hok. subst r. eexists. split; reflexivity.
Qed.

Lemma encap_encapsulate_pdu_rejects_invalid (c : rle_ctx_management) (buf : data_buffer)
    (n : Z) (d : list diagnostic) :
  encap_check_pdu_validity buf = Some (C_ERROR, d) ->
  encap_encapsulate_pdu c buf n
  = Some {| result := C_ERROR; ctx_after := c; header_written := None; messages := d |}.
Proof.
  intros Hvalid. unfold encap_encapsulate_pdu, Encap.encap_encapsulate_pdu.
  now rewrite Hvalid.
Qed.

(** C6 fails on the code: the size that [encap_check_pdu_validity]
    compares with RLE_MAX_PDU_SIZE is the one the IP header announces.
    An SDU of 4089 bytes whose header announces 20 is encapsulated with
    C_OK, and an SDU of 4088 zero bytes is refused for its IP version. *)
Theorem encap_encapsulate_pdu_ignores_sdu_length (c : rle_ctx_management) :
  length (bytes (ipv4_sdu 4089)) = 4089%nat /\
  (exists o, encap_encapsulate_pdu c (ipv4_sdu 4089) 4089 = Some o /\ result o = C_OK) /\
  length (bytes (zero_sdu 4088)) = 4088%nat /\
  encap_encapsulate_pdu c (zero_sdu 4088) 4088
  = Some {| result := C_ERROR; ctx_after := c; header_written := None;
            messages := [IP_version_not_supported 0] |}.
Proof.
  split; [ | split; [ | split ] ].
  - vm_compute. reflexivity.
  - apply (encap_encapsulate_pdu_follows_validity c (ipv4_sdu 4089) 4089 []).
    vm_compute. reflexivity.
  - vm_compute. reflexivity.
  - apply encap_encapsulate_pdu_rejects_invalid. vm_compute. reflexivity.
Qed.

(** *** Further properties of encap.c *)

Ltac lengths_case :=
  repeat match goal with
         | |- context [RLE_MAX_PDU_SIZE <? ?v] =>
             first [ replace (RLE_MAX_PDU_SIZE <? v) with false
                       by (symmetry; apply Z.ltb_ge; unfold RLE_MAX_PDU_SIZE in *; lia)
                   | replace (RLE_MAX_PDU_SIZE <? v) with true
                       by (symmetry; apply Z.ltb_lt; unfold RLE_MAX_PDU_SIZE in *; lia) ]
         end.

(** X13: [create_header] returns C_OK for every data length that,
    with the protocol type field, is a 32-bit value as the length
    setters take it.  A length that fits RLE_MAX_PDU_SIZE together with
    the protocol type field is recorded as PDU length and remaining
    length, and with the field added as RLE length.  A length above
    RLE_MAX_PDU_SIZE is recorded nowhere in the context, whose three
    lengths stay as they were, and the status is still C_OK.  In both
    cases the context is marked not fragmented, with fragment counter 1,
    no CRC, QoS tag 0 and the IP protocol type, and keeps its fragment
    id, sequence number and buffer. *)
Theorem create_header_records_lengths (c : rle_ctx_management) (buf : data_buffer) (n : Z) :
  0 <= RLE_PROTO_TYPE_FIELD_SIZE -> 0 <= n -> n + RLE_PROTO_TYPE_FIELD_SIZE < 2 ^ 32 ->
  let '(r, c', h, d) := create_header c buf n in
  r = C_OK /\
  (n + RLE_PROTO_TYPE_FIELD_SIZE <= RLE_MAX_PDU_SIZE ->
   pdu_length c' = n /\ remaining_pdu_length c' = n /\
   rle_length c' = n + RLE_PROTO_TYPE_FIELD_SIZE) /\
  (RLE_MAX_PDU_SIZE < n ->
   pdu_length c' = pdu_length c /\ remaining_pdu_length c' = remaining_pdu_length c /\
   rle_length c' = rle_length c /\
   In (Invalid_PDU_length n) d /\ In (Invalid_remaining_RLE_length n) d /\
   In (Invalid_RLE_length (n + RLE_PROTO_TYPE_FIELD_SIZE)) d) /\
  (is_fragmented c' = false /\ frag_counter c' = 1 /\ use_crc c' = false /\
   qos_tag c' = 0 /\ rle_ctx_get_proto_type c' = RLE_PROTO_TYPE_IP /\
   rle_ctx_get_end_address c' = Some (base buf + n + sizeof_int_ptr * sizeof_int)) /\
  (frag_id c' = frag_id c /\ next_seq_nb c' = next_seq_nb c /\ RleCtx.buf c' = RleCtx.buf c /\
   stats c' = stats c).
Proof.
  intros Hfield Hn Hmax. unfold create_header, Encap.create_header.
  unfold uint32. rewrite !wrap_small by lia.
  unfold rle_ctx_set_end_address, rle_ctx_set_pdu_length, rle_ctx_set_remaining_pdu_length,
    rle_ctx_set_rle_length, rle_ctx_set_label_type.
  destruct (negb (_ =? _) || negb (_ =? _));
    destruct (Z.ltb_spec RLE_MAX_PDU_SIZE n) as [Hbig | Hfits];
    destruct (Z.ltb_spec RLE_MAX_PDU_SIZE (n + RLE_PROTO_TYPE_FIELD_SIZE)) as [Hbig' | Hfits'];
    cbn; repeat split; intros; try reflexivity; try lia; auto.
Qed.

(** X14: as soon as the two legal label types differ, [create_header]
    leaves the label type of the context as it was, the setter refusing
    the label type of the header it has just built. *)
Theorem create_header_keeps_label_type (c : rle_ctx_management) (buf : data_buffer) (n : Z) :
  RLE_LT_IMPLICIT_PROTO_TYPE <> RLE_LT_PROTO_SIGNAL ->
  let '(r, c', h, d) := create_header c buf n in
  rle_ctx_get_label_type c' = rle_ctx_get_label_type c /\
  exists val, In (Invalid_Label_type_value val) d.
Proof.
  intros Hdiffer. unfold create_header, Encap.create_header.
  unfold rle_ctx_set_end_address, rle_ctx_set_pdu_length, rle_ctx_set_remaining_pdu_length,
    rle_ctx_set_rle_length, rle_ctx_set_label_type.
  cbn [hdr_label_type].
  rewrite (RleCtxProofs.label_type_guard_always_holds _ _ Hdiffer).
  destruct (RLE_MAX_PDU_SIZE <? uint32 n);
    destruct (RLE_MAX_PDU_SIZE <? uint32 (n + RLE_PROTO_TYPE_FIELD_SIZE));
    cbn; (split; [ reflexivity | ]); eexists; auto 10.
Qed.

(** X15: [encap_encapsulate_pdu] either returns C_ERROR, and then the
    context is as it was and no header was written, or returns C_OK with
    a header written, of a complete PDU (start and end indicators 1);
    it returns C_ERROR exactly when the validity check does, whatever
    the data length. *)
Theorem encap_encapsulate_pdu_outcomes (c : rle_ctx_management) (buf : data_buffer) (n : Z)
    (o : outcome) :
  encap_encapsulate_pdu c buf n = Some o ->
  (result o = C_ERROR /\ ctx_after o = c /\ header_written o = None /\
   encap_check_pdu_validity buf = Some (C_ERROR, messages o))
  \/
  (result o = C_OK /\
   (exists h, header_written o = Some h /\ start_ind h = 1 /\ end_ind h = 1) /\
   frag_id (ctx_after o) = frag_id c /\
   encap_check_pdu_validity buf = Some (C_OK, [])).
Proof.
  unfold encap_encapsulate_pdu, Encap.encap_encapsulate_pdu.
  assert (Hcheck : forall r d, encap_check_pdu_validity buf = Some (r, d) ->
                   r = C_ERROR \/ (r = C_OK /\ d = [])).
  { unfold encap_check_pdu_validity. intros r d.
    destruct (iphdr_tot_len _); [ | discriminate ].
    destruct (iphdr_tot_len_ntohs _); [ | discriminate ].
    destruct (iphdr_version _); [ | discriminate ].
    destruct (_ <? _); [ intros [= <- <-]; now left | ].
    destruct (_ && _); intros [= <- <-]; [ now left | now right ]. }
  destruct (encap_check_pdu_validity buf) as [[r d] | ] eqn:Hvalid; [ | discriminate ].
  destruct (Hcheck r d eq_refl) as [-> | [-> ->]].
  - intros [= <-]. left. repeat split.
  - pose proof (create_header_returns_ok c buf n) as Hok.
    unfold create_header in Hok.
    assert (Hframe : frag_id (snd (fst (fst (Encap.create_header RLE_LT_IMPLICIT_PROTO_TYPE
                       RLE_LT_PROTO_SIGNAL RLE_T_PROTO_TYPE_NO_SUPP RLE_PROTO_TYPE_IP
                       RLE_PROTO_TYPE_FIELD_SIZE sizeof_int_ptr sizeof_int c buf n))))
                     = frag_id c /\
                     start_ind (snd (fst (Encap.create_header RLE_LT_IMPLICIT_PROTO_TYPE
                       RLE_LT_PROTO_SIGNAL RLE_T_PROTO_TYPE_NO_SUPP RLE_PROTO_TYPE_IP
                       RLE_PROTO_TYPE_FIELD_SIZE sizeof_int_ptr sizeof_int c buf n))) = 1 /\
                     end_ind (snd (fst (Encap.create_header RLE_LT_IMPLICIT_PROTO_TYPE
                       RLE_LT_PROTO_SIGNAL RLE_T_PROTO_TYPE_NO_SUPP RLE_PROTO_TYPE_IP
                       RLE_PROTO_TYPE_FIELD_SIZE sizeof_int_ptr sizeof_int c buf n))) = 1).
    { unfold Encap.create_header.
      unfold rle_ctx_set_end_address, rle_ctx_set_pdu_length,
        rle_ctx_set_remaining_pdu_length, rle_ctx_set_rle_length, rle_ctx_set_label_type.
      destruct (negb (_ =? _) || negb (_ =? _)); destruct (RLE_MAX_PDU_SIZE <? uint32 n);
        destruct (RLE_MAX_PDU_SIZE <? uint32 (n + RLE_PROTO_TYPE_FIELD_SIZE));
        cbn; repeat split. }
    destruct (Encap.create_header _ _ _ _ _ _ _ c buf n) as [[[r c'] h] d'].
    cbn [fst snd] in Hok, Hframe. subst r.
    destruct Hframe as (Hid & Hs & He).
    intros [= <-]. right. cbn [result header_written ctx_after].
    split; [ reflexivity | ]. split; [ exists h; repeat split; assumption | ].
    split; [ exact Hid | reflexivity ].
Qed.

(** X11: [encap_check_pdu_validity] accepts a buffer of four bytes or
    more exactly when the total length its IP header announces is at
    most RLE_MAX_PDU_SIZE and its IP version is 4 or 6, and otherwise
    returns C_ERROR with a message. *)
Theorem encap_check_pdu_validity_decides (buf : data_buffer) :
  (4 <= length (bytes buf))%nat ->
  exists ip_len version r d,
    iphdr_tot_len_ntohs (bytes buf) = Some ip_len /\
    iphdr_version (bytes buf) = Some version /\
    encap_check_pdu_validity buf = Some (r, d) /\
    (r = C_OK <-> ip_len <= RLE_MAX_PDU_SIZE /\ (version = 4 \/ version = 6)) /\
    (r <> C_OK -> r = C_ERROR /\ d <> []).
Proof.
  intros Hlen.
  unfold encap_check_pdu_validity, iphdr_tot_len, iphdr_tot_len_ntohs, iphdr_version.
  destruct (bytes buf) as [ | b0 [ | b1 [ | b2 [ | b3 rest]]]]; cbn in Hlen; try lia.
  cbn [nth_error].
  exists (Z.lor (Z.shiftl b2 8) b3), (Z.land (Z.shiftr b0 4) 0x0f).
  unfold IP_VERSION_4, IP_VERSION_6.
  destruct (Z.ltb_spec RLE_MAX_PDU_SIZE (Z.lor (Z.shiftl b2 8) b3)) as [Hbig | Hfits].
  - eexists _, _. split; [ reflexivity | ]. split; [ reflexivity | ].
    split; [ reflexivity | ]. split; [ split | ].
    + discriminate.
    + intros [H _]. lia.
    + intros _. split; [ reflexivity | discriminate ].
  - destruct (Z.eqb_spec (Z.land (Z.shiftr b0 4) 0x0f) 4) as [E4 | N4];
      [ | destruct (Z.eqb_spec (Z.land (Z.shiftr b0 4) 0x0f) 6) as [E6 | N6] ];
      cbn [negb andb]; eexists _, _;
      (split; [ reflexivity | ]); (split; [ reflexivity | ]); (split; [ reflexivity | ]).
    + split; [ split; [ intros _; split; [ assumption | now left ] | reflexivity ] | ].
      intros H. now elim H.
    + split; [ split; [ intros _; split; [ assumption | now right ] | reflexivity ] | ].
      intros H. now elim H.
    + split; [ split; [ discriminate | intros [_ [H | H]]; contradiction ] | ].
      intros _. split; [ reflexivity | discriminate ].
Qed.

End Constants.

Lemma encap_check_pdu_validity_reads_header_only_witness :
  firstn 4 (bytes (ipv4_sdu 4089)) = firstn 4 (bytes (ipv4_sdu 20)) /\
  encap_check_pdu_validity (ipv4_sdu 4089) = encap_check_pdu_validity (ipv4_sdu 20).
Proof.
  assert (H : firstn 4 (bytes (ipv4_sdu 4089)) = firstn 4 (bytes (ipv4_sdu 20)))
    by (vm_compute; reflexivity).
  split; [ exact H | ].
  exact (encap_check_pdu_validity_reads_header_only (ipv4_sdu 4089) (ipv4_sdu 20) H).
Defined.

Lemma encap_check_pdu_validity_decides_witness :
  (4 <= length (bytes (ipv4_sdu 20)))%nat /\
  exists d, encap_check_pdu_validity (ipv4_sdu 20) = Some (C_OK, d).
Proof.
  assert (H : (4 <= length (bytes (ipv4_sdu 20)))%nat) by (vm_compute; lia).
  split; [ exact H | ].
  destruct (encap_check_pdu_validity_decides (ipv4_sdu 20) H)
    as (ip_len & version & r & d & Hlen & Hversion & Hcheck & Hok & _).
  exists d. rewrite Hcheck. f_equal. f_equal. apply Hok.
  vm_compute in Hlen. vm_compute in Hversion.
  injection Hlen as <-. injection Hversion as <-.
  split; [ discriminate | now left ].
Defined.

Lemma create_header_records_lengths_witness :
  pdu_length (snd (fst (fst (create_header 0 1 0 0x0800 2 8 4 (RleCtx.initialised 0)
                               (ipv4_sdu 5000) 5000)))) = 0 /\
  fst (fst (fst (create_header 0 1 0 0x0800 2 8 4 (RleCtx.initialised 0)
                   (ipv4_sdu 5000) 5000))) = C_OK.
Proof.
  pose proof (create_header_records_lengths 0 1 0 0x0800 2 8 4 (RleCtx.initialised 0)
                (ipv4_sdu 5000) 5000 ltac:(lia) ltac:(lia) ltac:(reflexivity)) as P.
  destruct (create_header 0 1 0 0x0800 2 8 4 (RleCtx.initialised 0) (ipv4_sdu 5000) 5000)
    as [[[r c'] h] d].
  destruct P as (Hok & _ & Hbig & _).
  cbn [fst snd]. split; [ | exact Hok ].
  apply Hbig. reflexivity.
Defined.

Lemma create_header_keeps_label_type_witness :
  0 <> 1 /\
  rle_ctx_get_label_type (snd (fst (fst (create_header 0 1 0 0x0800 2 8 4
                                           (RleCtx.initialised 0) (ipv4_sdu 20) 20)))) = 0xff.
Proof.
  split; [ discriminate | ].
  pose proof (create_header_keeps_label_type 0 1 0 0x0800 2 8 4 (RleCtx.initialised 0)
                (ipv4_sdu 20) 20 ltac:(discriminate)) as P.
  destruct (create_header 0 1 0 0x0800 2 8 4 (RleCtx.initialised 0) (ipv4_sdu 20) 20)
    as [[[r c'] h] d].
  destruct P as (Hkept & _).
  cbn [fst snd]. rewrite Hkept. reflexivity.
Defined.

Lemma encap_encapsulate_pdu_outcomes_witness :
  exists o, encap_encapsulate_pdu 0 1 0 0x0800 2 8 4 (RleCtx.initialised 0) (zero_sdu 40) 40
            = Some o /\
            result o = C_ERROR /\ ctx_after o = RleCtx.initialised 0.
Proof.
  eexists. split; [ vm_compute; reflexivity | ].
  destruct (encap_encapsulate_pdu_outcomes 0 1 0 0x0800 2 8 4 (RleCtx.initialised 0)
              (zero_sdu 40) 40 _ eq_refl) as [(Hr & Hc & _) | (Hr & _)].
  - split; [ exact Hr | exact Hc ].
  - discriminate Hr.
Defined.

End EncapProofs.

(** ** reassembly.c *)

Module ReassemblyProofs.
Import Reassembly.

(** [memcpy] into the middle part of a storage replaces that part. *)
Lemma memcpy_middle (p m q src : list Z) (off n : nat) :
  length p = off -> length m = n -> (n <= length src)%nat ->
  memcpy (p ++ m ++ q) off src n = p ++ firstn n src ++ q.
Proof.
  intros Hp Hm Hsrc. unfold memcpy. f_equal.
  - rewrite firstn_app, <- Hp, Nat.sub_diag, firstn_all. simpl. apply app_nil_r.
  - f_equal. rewrite app_assoc, skipn_app.
    rewrite length_app, Hp, Hm, Nat.sub_diag. simpl.
    rewrite skipn_all2; [ reflexivity | rewrite length_app; lia ].
Qed.

(** A storage of at least [a + b + c] bytes, cut in four. *)
Lemma storage_split (buf : list Z) (a b c : nat) :
  (a + b + c <= length buf)%nat ->
  exists p1 p2 p3 p4,
    buf = p1 ++ p2 ++ p3 ++ p4 /\ length p1 = a /\ length p2 = b /\ length p3 = c.
Proof.
  intros Hlen.
  exists (firstn a buf), (firstn b (skipn a buf)), (firstn c (skipn b (skipn a buf))),
    (skipn c (skipn b (skipn a buf))).
  repeat split.
  - now rewrite !firstn_skipn.
  - rewrite length_firstn. lia.
  - rewrite length_firstn, length_skipn. lia.
  - rewrite length_firstn, !length_skipn. lia.
Qed.

(** What the three copies of [reassembly_insert_vlan_ptype] leave in the
    first [length sdu_frag + 2] bytes of the storage. *)
Lemma vlan_copies (storage sdu_frag tpid : list Z) :
  (16 <= length sdu_frag)%nat -> length tpid = 2%nat ->
  (length sdu_frag + 2 <= length storage)%nat ->
  firstn (length sdu_frag + 2)
    (memcpy (memcpy (memcpy storage 0 sdu_frag 16) 16 tpid 2) 18
       (skipn 16 sdu_frag) (length sdu_frag - 16))
  = firstn 16 sdu_frag ++ tpid ++ skipn 16 sdu_frag.
Proof.
  intros Hfrag Htpid Hcap.
  destruct (storage_split storage 16 2 (length sdu_frag - 16) ltac:(lia))
    as (p1 & p2 & p3 & p4 & -> & H1 & H2 & H3).
  assert (Hf16 : length (firstn 16 sdu_frag) = 16%nat) by (rewrite length_firstn; lia).
  assert (Hrest : length (skipn 16 sdu_frag) = (length sdu_frag - 16)%nat)
    by apply length_skipn.
  change (memcpy (p1 ++ p2 ++ p3 ++ p4) 0 sdu_frag 16)
    with (memcpy ([] ++ p1 ++ p2 ++ p3 ++ p4) 0 sdu_frag 16).
  rewrite (memcpy_middle [] p1 (p2 ++ p3 ++ p4) sdu_frag 0 16) by (simpl; lia).
  change ([] ++ firstn 16 sdu_frag ++ p2 ++ p3 ++ p4)
    with (firstn 16 sdu_frag ++ p2 ++ p3 ++ p4).
  rewrite (memcpy_middle (firstn 16 sdu_frag) p2 (p3 ++ p4) tpid 16 2) by lia.
  rewrite (firstn_all2 (n := 2) tpid) by lia.
  replace (firstn 16 sdu_frag ++ tpid ++ p3 ++ p4)
    with ((firstn 16 sdu_frag ++ tpid) ++ p3 ++ p4) by now rewrite <- app_assoc.
  rewrite (memcpy_middle (firstn 16 sdu_frag ++ tpid) p3 p4 (skipn 16 sdu_frag) 18
             (length sdu_frag - 16)) by (rewrite ?length_app; lia).
  rewrite (firstn_all2 (n := length sdu_frag - 16) (skipn 16 sdu_frag)) by lia.
  rewrite <- app_assoc.
  rewrite !app_assoc. rewrite firstn_app.
  rewrite firstn_all2 by (rewrite !length_app; lia).
  replace (length sdu_frag + 2 - length ((firstn 16 sdu_frag ++ tpid) ++ skipn 16 sdu_frag))%nat
    with 0%nat by (rewrite !length_app; lia).
  simpl. apply app_nil_r.
Qed.

Lemma insert_vlan_unfold (sdu_frag : list Z) (out : rle_sdu) :
  reassembly_insert_vlan_ptype sdu_frag out =
  if (length sdu_frag <? 17)%nat then None
  else if negb (outer_ether_type sdu_frag =? 0x8100) then None
  else if ip_version sdu_frag =? 4 then
    Some {| buffer := memcpy (memcpy (memcpy (buffer out) 0 sdu_frag 16) 16 [0x08; 0x00] 2) 18
                        (skipn 16 sdu_frag) (length sdu_frag - 16);
            size := Z.of_nat (length sdu_frag + 2); protocol_type := 0x8100 |}
  else if ip_version sdu_frag =? 6 then
    Some {| buffer := memcpy (memcpy (memcpy (buffer out) 0 sdu_frag 16) 16 [0x86; 0xdd] 2) 18
                        (skipn 16 sdu_frag) (length sdu_frag - 16);
            size := Z.of_nat (length sdu_frag + 2); protocol_type := 0x8100 |}
  else None.
Proof.
  unfold reassembly_insert_vlan_ptype, outer_ether_type, ip_version.
  change (sizeof_ether_header + sizeof_vlan_hdr - sizeof_uint16)%nat with 16%nat.
  change (16 + 1)%nat with 17%nat.
  change (sizeof_ether_header + offsetof_tpid)%nat with 16%nat.
  change (sizeof_ether_header + sizeof_vlan_hdr)%nat with 18%nat.
  change offsetof_ether_type with 12%nat.
  change sizeof_uint16 with 2%nat.
  change RLE_PROTO_TYPE_VLAN_UNCOMP with 0x8100.
  replace (nth 0 (skipn 16 sdu_frag) 0) with (nth 16 sdu_frag 0)
    by (rewrite nth_skipn; reflexivity).
  destruct (length sdu_frag <? 17)%nat; [ reflexivity | ].
  destruct (negb (ntohs_at sdu_frag 12 =? 33024)); [ reflexivity | ].
  destruct (Z.land (Z.shiftr (nth 16 sdu_frag 0) 4) 15 =? 4); [ reflexivity | ].
  destruct (Z.land (Z.shiftr (nth 16 sdu_frag 0) 4) 15 =? 6); reflexivity.
Qed.



(** *** The storage around the rebuilt frame, and the way back *)

Lemma memcpy_length (dst src : list Z) (off n : nat) :
  (off + n <= length dst)%nat -> (n <= length src)%nat ->
  length (memcpy dst off src n) = length dst.
Proof.
  intros Hdst Hsrc. unfold memcpy.
  rewrite !length_app, !length_firstn, length_skipn. lia.
Qed.

Lemma memcpy_skipn (dst src : list Z) (off n k : nat) :
  (off + n <= k)%nat -> (off + n <= length dst)%nat -> (n <= length src)%nat ->
  skipn k (memcpy dst off src n) = skipn k dst.
Proof.
  intros Hk Hdst Hsrc. unfold memcpy.
  rewrite skipn_app, length_firstn.
  rewrite (skipn_all2 (firstn off dst)) by (rewrite length_firstn; lia).
  cbn [app]. rewrite skipn_app, length_firstn.
  rewrite (skipn_all2 (firstn n src)) by (rewrite length_firstn; lia).
  cbn [app]. rewrite skipn_skipn. f_equal. lia.
Qed.

Lemma vlan_copies_frame (storage sdu_frag tpid : list Z) :
  (17 <= length sdu_frag)%nat -> length tpid = 2%nat ->
  (length sdu_frag + 2 <= length storage)%nat ->
  let written :=
    memcpy (memcpy (memcpy storage 0 sdu_frag 16) 16 tpid 2) 18
      (skipn 16 sdu_frag) (length sdu_frag - 16) in
  length written = length storage /\
  skipn (length sdu_frag + 2) written = skipn (length sdu_frag + 2) storage.
Proof.
  intros Hfrag Htpid Hcap. cbv zeta.
  assert (Hrest : length (skipn 16 sdu_frag) = (length sdu_frag - 16)%nat)
    by apply length_skipn.
  assert (H1 : length (memcpy storage 0 sdu_frag 16) = length storage)
    by (apply memcpy_length; lia).
  assert (H2 : length (memcpy (memcpy storage 0 sdu_frag 16) 16 tpid 2) = length storage)
    by (rewrite memcpy_length; lia).
  split.
  - rewrite memcpy_length; lia.
  - rewrite memcpy_skipn by lia. rewrite memcpy_skipn by lia.
    rewrite memcpy_skipn by lia. reflexivity.
Qed.

(** X25: when the storage of the SDU has room for the rebuilt frame,
    [reassembly_insert_vlan_ptype] writes nothing outside the bytes of
    that frame: the storage keeps its length and every byte after the
    rebuilt frame is as it was. *)
Theorem reassembly_insert_vlan_ptype_stays_in_frame (sdu_frag : list Z) (out sdu : rle_sdu) :
  (length sdu_frag + 2 <= length (buffer out))%nat ->
  reassembly_insert_vlan_ptype sdu_frag out = Some sdu ->
  size sdu = Z.of_nat (length sdu_frag + 2) /\
  length (buffer sdu) = length (buffer out) /\
  skipn (length sdu_frag + 2) (buffer sdu) = skipn (length sdu_frag + 2) (buffer out).
Proof.
  intros Hcap. rewrite insert_vlan_unfold.
  destruct (Nat.ltb_spec (length sdu_frag) 17) as [ | Hlen]; [ discriminate | ].
  destruct (negb (_ =? _)); [ discriminate | ].
  destruct (_ =? 4); [ | destruct (_ =? 6); [ | discriminate ] ];
    intros H; apply (f_equal (fun o => match o with Some x => x | None => out end)) in H;
    subst sdu; cbn [size buffer]; (split; [ reflexivity | ]);
    apply vlan_copies_frame; (lia || reflexivity).
Qed.

(** X24: [reassembly_insert_vlan_ptype] undoes the removal of the
    protocol type field of the VLAN header: for an Ethernet frame with
    outer EtherType 0x8100 whose VLAN header announces IPv4 or IPv6 in
    accordance with the IP version of its payload, the frame without
    bytes 16 and 17 is rebuilt into the frame itself. *)
Theorem reassembly_insert_vlan_ptype_round_trip (frame : list Z) (out : rle_sdu) :
  (19 <= length frame)%nat ->
  (length frame <= length (buffer out))%nat ->
  ntohs_at frame 12 = RLE_PROTO_TYPE_VLAN_UNCOMP ->
  (firstn 2 (skipn 16 frame) = htons_bytes RLE_PROTO_TYPE_IPV4_UNCOMP /\
   Z.land (Z.shiftr (nth 18 frame 0) 4) 0x0f = 4) \/
  (firstn 2 (skipn 16 frame) = htons_bytes RLE_PROTO_TYPE_IPV6_UNCOMP /\
   Z.land (Z.shiftr (nth 18 frame 0) 4) 0x0f = 6) ->
  exists sdu,
    reassembly_insert_vlan_ptype (firstn 16 frame ++ skipn 18 frame) out = Some sdu /\
    delivered_bytes sdu = frame /\
    size sdu = Z.of_nat (length frame) /\
    protocol_type sdu = RLE_PROTO_TYPE_VLAN_UNCOMP.
Proof.
  intros Hlen Hcap Hether Hinner.
  set (compressed := firstn 16 frame ++ skipn 18 frame).
  assert (Hhead : length (firstn 16 frame) = 16%nat) by (rewrite length_firstn; lia).
  assert (Hclen : (length compressed + 2 = length frame)%nat)
    by (unfold compressed; rewrite length_app, Hhead, length_skipn; lia).
  assert (Hf16 : firstn 16 compressed = firstn 16 frame).
  { unfold compressed. rewrite firstn_app, Hhead, Nat.sub_diag, firstn_all2 by lia.
    cbn [firstn]. apply app_nil_r. }
  assert (Hs16 : skipn 16 compressed = skipn 18 frame).
  { unfold compressed. rewrite skipn_app, Hhead, Nat.sub_diag, skipn_all2 by lia.
    reflexivity. }
  assert (Hnth : forall k, (k < 16)%nat -> nth k compressed 0 = nth k frame 0).
  { intros k Hk. unfold compressed. rewrite app_nth1 by lia.
    rewrite nth_firstn. now replace (k <? 16)%nat with true by (symmetry; apply Nat.ltb_lt; lia). }
  assert (Hether' : outer_ether_type compressed = 0x8100).
  { unfold outer_ether_type, ntohs_at in *. rewrite !Hnth by lia. exact Hether. }
  assert (Hversion : ip_version compressed = Z.land (Z.shiftr (nth 18 frame 0) 4) 0x0f).
  { unfold ip_version. f_equal. f_equal.
    replace (nth 16 compressed 0) with (nth 0 (skipn 16 compressed) 0)
      by (rewrite nth_skipn; reflexivity).
    rewrite Hs16, nth_skipn. reflexivity. }
  assert (Hframe : forall tpid, firstn 2 (skipn 16 frame) = tpid ->
                   firstn 16 compressed ++ tpid ++ skipn 16 compressed = frame).
  { intros tpid <-. rewrite Hf16, Hs16.
    replace (skipn 18 frame) with (skipn 2 (skipn 16 frame))
      by (rewrite skipn_skipn; reflexivity).
    now rewrite !firstn_skipn. }
  rewrite insert_vlan_unfold.
  replace (length compressed <? 17)%nat with false by (symmetry; apply Nat.ltb_ge; lia).
  rewrite Hether', Hversion. cbn [negb Z.eqb Pos.eqb].
  destruct Hinner as [[Htpid Hv] | [Htpid Hv]]; rewrite Hv; cbn [Z.eqb Pos.eqb];
    eexists; (split; [ reflexivity | ]); cbn [size protocol_type buffer];
    (split; [ | split; [ lia | reflexivity ] ]);
    unfold delivered_bytes; cbn [size buffer]; rewrite Nat2Z.id;
    (rewrite vlan_copies; [ apply Hframe; exact Htpid | lia | reflexivity | lia ]).
Qed.

Section WithOps.

Variable ops : header_ops.

(** A Complete PPDU of the VLAN special case is delivered exactly when
    the protocol type can be put back. *)
Lemma reassembly_comp_ppdu_vlan (r : rle_receiver) (ppdu : list Z) (out : rle_sdu)
    (e : extraction) :
  comp_ppdu_extract_sdu_frag ops r ppdu (comp_ppdu_extract_alpdu_frag ops ppdu) = Some e ->
  comp_ptype e = RLE_PROTO_TYPE_VLAN_COMP_WO_PTYPE_FIELD ->
  ptype e = RLE_PROTO_TYPE_VLAN_UNCOMP ->
  reassembly_comp_ppdu ops r ppdu out
  = match reassembly_insert_vlan_ptype (sdu_frag e) out with
    | Some sdu => Some (C_REASSEMBLY_OK, sdu)
    | None => Some (C_ERROR, out)
    end.
Proof.
  intros Hextract Hcode Hptype. unfold reassembly_comp_ppdu.
  rewrite Hextract, Hcode, Hptype. cbn [Z.eqb Pos.eqb negb].
  destruct (reassembly_insert_vlan_ptype (sdu_frag e) out); reflexivity.
Qed.

(** The statistics and the release of an error exit. *)
Lemma upd_same {A : Type} (f : nat -> A) (i : nat) (v : A) : upd f i v i = v.
Proof. unfold upd. now rewrite Nat.eqb_refl. Qed.

Lemma ctx_of_map_ctx (r : rle_receiver) (i : nat) (f : rle_ctx_mngt -> rle_ctx_mngt) :
  rle_ctx_man (map_ctx r i f) i = f (rle_ctx_man r i).
Proof. apply upd_same. Qed.

Lemma released (r : rle_receiver) (i : nat) :
  is_context_free (rle_receiver_free_context r i) i = true.
Proof. apply upd_same. Qed.

Lemma ctx_of_released (r : rle_receiver) (i : nat) :
  rle_ctx_man (rle_receiver_free_context r i) = rle_ctx_man r.
Proof. reflexivity. Qed.

Ltac split_on H :=
  match type of H with
  | context [if ?b then _ else _] => destruct b eqn:?
  | context [match ?x with _ => _ end] => destruct x eqn:?
  end.

(** An error of [reassembly_cont_ppdu]: one SDU dropped, one lost, the
    bytes of the burst dropped, the context released. *)
Lemma reassembly_cont_ppdu_error (r r' : rle_receiver) (ppdu : list Z)
    (ret : status) (index_ctx : Z) :
  reassembly_cont_ppdu ops r ppdu = Some (ret, r', index_ctx) ->
  ret <> C_OK ->
  let i := Z.to_nat index_ctx in
  let c := rle_ctx_man r i in
  let c' := rle_ctx_man r' i in
  let burst := current_counter c + Z.of_nat (length ppdu) in
  ret = C_ERROR /\
  counter_dropped c' = counter_dropped c + 1 /\
  counter_lost c' = counter_lost c + 1 /\
  counter_bytes_dropped c' = counter_bytes_dropped c + burst /\
  is_context_free r' i = true.
Proof.
  unfold reassembly_cont_ppdu. intros H Hret.
  destruct (negb (frag_id_in_range (rle_cont_end_ppdu_hdr_get_frag_id ops ppdu)));
    [ discriminate | ].
  repeat split_on H; cbv iota beta in H; injection H as <- <- <-;
    try congruence; cbv zeta;
    rewrite released, ctx_of_released, !ctx_of_map_ctx; repeat split.
Qed.

(** What [reassembly_end_ppdu] reaches the label [out] with on an error:
    on a free context the statistics are already updated once and one
    packet is counted lost; on a context in progress they are untouched
    and [lost_packets] is zero unless the trailer check failed, in which
    case it is what the check reports. *)
Lemma reassembly_end_ppdu_body_error (r1 mid : rle_receiver) (i : nat) (ppdu : list Z)
    (out sdu : rle_sdu) (ret : status) (lost_packets : Z) :
  reassembly_end_ppdu_body ops r1 i ppdu out = Some (ret, lost_packets, mid, sdu) ->
  ret <> C_REASSEMBLY_OK ->
  let c := rle_ctx_man r1 i in
  let m := rle_ctx_man mid i in
  ret = C_ERROR /\
  current_counter m = current_counter c /\
  (is_context_free r1 i = true ->
   lost_packets = 0 /\
   counter_dropped m = counter_dropped c + 1 /\
   counter_lost m = counter_lost c + 1 /\
   counter_bytes_dropped m = counter_bytes_dropped c + current_counter c) /\
  (is_context_free r1 i = false ->
   counter_dropped m = counter_dropped c /\
   counter_lost m = counter_lost c /\
   counter_bytes_dropped m = counter_bytes_dropped c /\
   (lost_packets = 0 \/
    exists trailer rebuilt crc expected initialised,
      chk_ret (check_alpdu_trailer ops trailer rebuilt crc expected initialised) <> 0 /\
      lost_packets
      = chk_lost_packets (check_alpdu_trailer ops trailer rebuilt crc expected initialised))).
Proof.
  unfold reassembly_end_ppdu_body. intros H Hret. cbv zeta.
  destruct (is_context_free r1 i) eqn:Hfree.
  - injection H as <- <- <- <-.
    rewrite ctx_of_released, ctx_of_map_ctx.
    repeat split; try discriminate; intros; reflexivity.
  - repeat split_on H; try discriminate; injection H as <- <- <- <-; try congruence;
      (split; [ reflexivity | ]);
      cbn [set_seqnum_init rle_ctx_man]; rewrite ?ctx_of_map_ctx;
      (split; [ reflexivity | ]);
      (split; [ discriminate | ]); intros _;
      repeat (split; [ reflexivity | ]);
      try (left; reflexivity);
      right; do 5 eexists;
      (split; [ | reflexivity ]);
      match goal with
      | Hchk : negb (_ =? 0) = true |- _ =>
          apply negb_true_iff, Z.eqb_neq in Hchk; exact Hchk
      end.
Qed.

(** An error of [reassembly_end_ppdu]. *)
Lemma reassembly_end_ppdu_error (r r' : rle_receiver) (ppdu : list Z) (out sdu : rle_sdu)
    (ret : status) (index_ctx : Z) :
  reassembly_end_ppdu ops r ppdu out = Some (ret, r', index_ctx, sdu) ->
  ret <> C_REASSEMBLY_OK ->
  let i := Z.to_nat index_ctx in
  let c := rle_ctx_man r i in
  let c' := rle_ctx_man r' i in
  let burst := current_counter c + Z.of_nat (length ppdu) in
  delivers ret = false /\
  is_context_free r' i = true /\
  (exists k, 1 <= k /\
     counter_dropped c' = counter_dropped c + k /\
     counter_bytes_dropped c' = counter_bytes_dropped c + k * burst) /\
  (is_context_free r i = true -> counter_lost c' = counter_lost c + 1) /\
  (is_context_free r i = false ->
   counter_dropped c' = counter_dropped c + 1 /\
   exists lost_packets,
     counter_lost c' = counter_lost c + lost_packets /\
     (lost_packets = 0 \/
      exists trailer rebuilt crc expected initialised,
        chk_ret (check_alpdu_trailer ops trailer rebuilt crc expected initialised) <> 0 /\
        lost_packets
        = chk_lost_packets (check_alpdu_trailer ops trailer rebuilt crc expected initialised))).
Proof.
  unfold reassembly_end_ppdu. intros H Hret.
  destruct (negb (frag_id_in_range (rle_cont_end_ppdu_hdr_get_frag_id ops ppdu)));
    [ discriminate | ].
  destruct (reassembly_end_ppdu_body _ _ _ _ _) as [[[[ret0 lp] mid] sdu0] | ] eqn:Hbody;
    [ | discriminate ].
  injection H as <- <- <- <-.
  destruct (reassembly_end_ppdu_body_error _ _ _ _ _ _ _ _ Hbody Hret)
    as (-> & Hcc & Hwas_free & Hwas_busy).
  cbv zeta in *. rewrite ctx_of_map_ctx in Hcc, Hwas_free, Hwas_busy.
  cbn [is_context_free map_ctx ctx_free] in Hwas_free, Hwas_busy.
  cbn [rle_ctx_incr_counter_bytes_in with_current_counter current_counter counter_dropped
       counter_lost counter_bytes_dropped] in Hcc, Hwas_free, Hwas_busy.
  rewrite released, ctx_of_released, ctx_of_map_ctx.
  cbn [count_drop rle_ctx_incr_counter_dropped rle_ctx_incr_counter_lost
       rle_ctx_incr_counter_bytes_dropped current_counter counter_dropped counter_lost
       counter_bytes_dropped].
  split; [ reflexivity | split; [ reflexivity | ] ].
  unfold is_context_free in *.
  destruct (ctx_free r (Z.to_nat (rle_cont_end_ppdu_hdr_get_frag_id ops ppdu))) eqn:Hfree.
  - destruct (Hwas_free eq_refl) as (-> & Hd & Hl & Hb).
    split; [ exists 2; lia | ]. split; [ intros _; lia | discriminate ].
  - destruct (Hwas_busy eq_refl) as (Hd & Hl & Hb & Hlp).
    split; [ exists 1; lia | ]. split; [ discriminate | ].
    intros _. split; [ lia | ]. exists lp. split; [ lia | exact Hlp ].
Qed.

(** An END PPDU on a context in progress whose fragment does not fit
    the declared length, or leaves bytes missing, is an error that
    counts no lost packet. *)
Lemma reassembly_end_ppdu_length_error (r : rle_receiver) (ppdu : list Z) (out : rle_sdu) :
  let index_ctx := rle_cont_end_ppdu_hdr_get_frag_id ops ppdu in
  let i := Z.to_nat index_ctx in
  let c := rle_ctx_man r i in
  let alpdu_frag_len := Z.of_nat (length (cont_end_ppdu_extract_alpdu_frag ops ppdu)) in
  let trailer_len := if ctx_use_crc c then 4 else 1 in
  frag_id_in_range index_ctx = true ->
  is_context_free r i = false ->
  trailer_len <= alpdu_frag_len ->
  sdu_info_size (buff c) = sdu_len (buff c) ->
  Z.of_nat (length (reassembled (buff c))) + (alpdu_frag_len - trailer_len) <> sdu_len (buff c) ->
  exists r',
    reassembly_end_ppdu ops r ppdu out = Some (C_ERROR, r', index_ctx, out) /\
    counter_lost (rle_ctx_man r' i) = counter_lost c /\
    counter_dropped (rle_ctx_man r' i) = counter_dropped c + 1.
Proof.
  cbv zeta. intros Hrange Hbusy Htrailer Hassert Hlen.
  unfold reassembly_end_ppdu, reassembly_end_ppdu_body.
  rewrite Hrange. cbn [negb].
  cbn [is_context_free map_ctx ctx_free]. unfold is_context_free in Hbusy. rewrite Hbusy.
  rewrite !ctx_of_map_ctx.
  cbn [rle_ctx_get_use_crc rle_ctx_incr_counter_bytes_in with_current_counter ctx_use_crc buff].
  unfold sizeof_rle_alpdu_crc_trailer_t, sizeof_rle_alpdu_seqno_trailer_t.
  set (c := rle_ctx_man r (Z.to_nat (rle_cont_end_ppdu_hdr_get_frag_id ops ppdu))) in *.
  set (frag := cont_end_ppdu_extract_alpdu_frag ops ppdu) in *.
  set (tl := if ctx_use_crc c then 4 else 1) in *.
  replace (Z.of_nat (length frag) <? tl) with false by (symmetry; apply Z.ltb_ge; lia).
  unfold rasm_buf_get_sdu_len, rasm_buf_get_reassembled_sdu_len.
  rewrite Hassert, Z.eqb_refl. cbn [negb].
  destruct (Z.ltb_spec (sdu_len (buff c))
              (Z.of_nat (length (reassembled (buff c))) + (Z.of_nat (length frag) - tl)))
    as [Hover | Hfits].
  - eexists. split; [ reflexivity | ].
    rewrite ctx_of_released, !ctx_of_map_ctx. unfold c. split; cbn; lia.
  - cbn [rasm_buf_append with_buff buff reassembled sdu_len].
    rewrite length_app, length_firstn.
    replace (Z.of_nat (length (reassembled (buff c))
                       + Nat.min (Z.to_nat (Z.of_nat (length frag) - tl)) (length frag))
             <? sdu_len (buff c)) with true by (symmetry; apply Z.ltb_lt; lia).
    eexists. split; [ reflexivity | ].
    rewrite ctx_of_released, !ctx_of_map_ctx. unfold c. split; cbn; lia.
Qed.

(** *** Reassembly of fragments that arrive in order *)

Lemma delivered_complete_sdu (out : rle_sdu) (src : list Z) (pt : Z) :
  (length src <= length (buffer out))%nat ->
  delivered_bytes (complete_sdu out src (Z.of_nat (length src)) pt) = src.
Proof.
  intros Hcap. unfold delivered_bytes, complete_sdu, memcpy. cbn [size buffer].
  rewrite Nat2Z.id. cbn [firstn app Nat.add].
  rewrite firstn_app, !firstn_all, Nat.sub_diag. cbn [firstn]. apply app_nil_r.
Qed.

(** X17: a Complete PPDU outside the VLAN special case delivers the SDU
    fragment and the protocol type that the ALPDU header reader found. *)
Lemma reassembly_comp_ppdu_delivers (r : rle_receiver) (ppdu : list Z) (out : rle_sdu)
    (e : extraction) :
  comp_ppdu_extract_sdu_frag ops r ppdu (comp_ppdu_extract_alpdu_frag ops ppdu) = Some e ->
  comp_ptype e <> RLE_PROTO_TYPE_VLAN_COMP_WO_PTYPE_FIELD ->
  (length (sdu_frag e) <= length (buffer out))%nat ->
  exists sdu,
    reassembly_comp_ppdu ops r ppdu out = Some (C_REASSEMBLY_OK, sdu) /\
    delivered_bytes sdu = sdu_frag e /\
    protocol_type sdu = ptype e.
Proof.
  intros Hextract Hcode Hcap. unfold reassembly_comp_ppdu. rewrite Hextract.
  replace (comp_ptype e =? RLE_PROTO_TYPE_VLAN_COMP_WO_PTYPE_FIELD) with false
    by (symmetry; now apply Z.eqb_neq).
  cbn [negb]. eexists. split; [ reflexivity | ]. split.
  - now apply delivered_complete_sdu.
  - reflexivity.
Qed.

(** A START PPDU on a free context whose declared total is header, SDU
    and trailer takes the context and records the first fragment. *)
Lemma reassembly_start_ppdu_accepts (r : rle_receiver) (ppdu alpdu_frag : list Z)
    (total n hdr_len : Z) (crc : bool) (e : extraction) :
  let index_ctx := rle_start_ppdu_hdr_get_frag_id ops ppdu in
  let i := Z.to_nat index_ctx in
  let trailer_len := if crc then 4 else 1 in
  frag_id_in_range index_ctx = true ->
  is_context_free r i = true ->
  start_ppdu_extract_alpdu_frag ops ppdu = (alpdu_frag, total, crc) ->
  start_ppdu_extract_sdu_frag ops r ppdu alpdu_frag = Some (e, hdr_len) ->
  0 <= hdr_len -> total = hdr_len + n + trailer_len -> total < 2 ^ 64 ->
  Z.of_nat (length (sdu_frag e)) <= n ->
  exists r',
    reassembly_start_ppdu ops r ppdu = Some (C_OK, r', index_ctx) /\
    in_progress r' i n (sdu_frag e) (ptype e) (comp_ptype e) crc /\
    ctx_next_seq_nb (rle_ctx_man r' i) = ctx_next_seq_nb (rle_ctx_man r i) /\
    is_ctx_seqnum_init r' = is_ctx_seqnum_init r.
Proof.
  cbv zeta. intros Hrange Hfree Hfrag Hhdr Hh Htotal Hmax Hfirst.
  unfold reassembly_start_ppdu. rewrite Hrange. cbn [negb].
  cbn [is_context_free map_ctx ctx_free]. unfold is_context_free in Hfree. rewrite Hfree.
  cbn [negb]. rewrite Hfrag.
  assert (Hconf : forall f g,
             start_ppdu_extract_sdu_frag ops
               (set_nonfree_frag_ctx (map_ctx r f g) f) ppdu alpdu_frag
             = start_ppdu_extract_sdu_frag ops r ppdu alpdu_frag) by reflexivity.
  rewrite Hconf, Hhdr.
  set (t := if crc then 4 else 1) in *.
  assert (Ht : 1 <= t <= 4) by (unfold t; destruct crc; lia).
  assert (Hn : 0 <= n) by lia.
  replace (total <? Z.of_nat (length (sdu_frag e))) with false
    by (symmetry; apply Z.ltb_ge; lia).
  unfold size_t_sub.
  replace (if crc then sizeof_rle_alpdu_crc_trailer_t else sizeof_rle_alpdu_seqno_trailer_t)
    with t by (unfold t; now destruct crc).
  rewrite (wrap_small 64 (total - hdr_len)) by lia.
  replace (total - hdr_len <? t) with false by (symmetry; apply Z.ltb_ge; lia).
  rewrite (wrap_small 64 (total - hdr_len - t)) by lia.
  replace (total - hdr_len - t) with n by lia.
  replace (n <? Z.of_nat (length (sdu_frag e))) with false
    by (symmetry; apply Z.ltb_ge; lia).
  eexists. split; [ reflexivity | ].
  unfold in_progress, is_context_free.
  cbn [map_ctx set_nonfree_frag_ctx ctx_free rle_ctx_man is_ctx_seqnum_init].
  rewrite !upd_same. cbn. repeat split.
Qed.

(** A CONT PPDU that fits is appended. *)
Lemma reassembly_cont_ppdu_accepts (r : rle_receiver) (ppdu received : list Z)
    (n pt cpt : Z) (crc : bool) :
  let index_ctx := rle_cont_end_ppdu_hdr_get_frag_id ops ppdu in
  let i := Z.to_nat index_ctx in
  let frag := cont_end_ppdu_extract_alpdu_frag ops ppdu in
  frag_id_in_range index_ctx = true ->
  in_progress r i n received pt cpt crc ->
  Z.of_nat (length received) + Z.of_nat (length frag) <= n ->
  exists r',
    reassembly_cont_ppdu ops r ppdu = Some (C_OK, r', index_ctx) /\
    in_progress r' i n (received ++ frag) pt cpt crc /\
    ctx_next_seq_nb (rle_ctx_man r' i) = ctx_next_seq_nb (rle_ctx_man r i) /\
    is_ctx_seqnum_init r' = is_ctx_seqnum_init r.
Proof.
  cbv zeta. intros Hrange (Hbusy & Hbuff & Hcrc) Hfits.
  unfold reassembly_cont_ppdu. rewrite Hrange. cbn [negb].
  cbn [is_context_free map_ctx ctx_free]. unfold is_context_free in Hbusy. rewrite Hbusy.
  rewrite ctx_of_map_ctx.
  cbn [rle_ctx_incr_counter_bytes_in with_current_counter buff].
  unfold rasm_buf_get_sdu_len, rasm_buf_get_reassembled_sdu_len. rewrite Hbuff.
  cbn [sdu_len reassembled].
  replace (n <? Z.of_nat (length received)
                + Z.of_nat (length (cont_end_ppdu_extract_alpdu_frag ops ppdu)))
    with false by (symmetry; apply Z.ltb_ge; lia).
  eexists. split; [ reflexivity | ].
  unfold in_progress, is_context_free. cbn [map_ctx ctx_free rle_ctx_man is_ctx_seqnum_init].
  rewrite !upd_same. cbn. rewrite Hbuff. cbn. repeat split; assumption.
Qed.

(** An END PPDU that completes the SDU, outside the VLAN special case
    and with a trailer that checks, delivers the bytes received in their
    order with the protocol type recorded at the START PPDU, and
    releases the context. *)
Lemma reassembly_end_ppdu_delivers (r : rle_receiver) (ppdu received last trailer : list Z)
    (n pt cpt : Z) (crc : bool) (out : rle_sdu) :
  let index_ctx := rle_cont_end_ppdu_hdr_get_frag_id ops ppdu in
  let i := Z.to_nat index_ctx in
  frag_id_in_range index_ctx = true ->
  in_progress r i n received pt cpt crc ->
  cont_end_ppdu_extract_alpdu_frag ops ppdu = last ++ trailer ->
  Z.of_nat (length trailer) = (if crc then 4 else 1) ->
  Z.of_nat (length (received ++ last)) = n ->
  cpt <> RLE_PROTO_TYPE_VLAN_COMP_WO_PTYPE_FIELD ->
  (length (received ++ last) <= length (buffer out))%nat ->
  chk_ret (check_alpdu_trailer ops trailer (complete_sdu out (received ++ last) n pt) crc
             (ctx_next_seq_nb (rle_ctx_man r i)) (is_ctx_seqnum_init r i)) = 0 ->
  exists r' sdu,
    reassembly_end_ppdu ops r ppdu out = Some (C_REASSEMBLY_OK, r', index_ctx, sdu) /\
    delivered_bytes sdu = received ++ last /\
    protocol_type sdu = pt /\
    is_context_free r' i = true /\
    counter_ok (rle_ctx_man r' i) = counter_ok (rle_ctx_man r i) + 1.
Proof.
  cbv zeta. intros Hrange (Hbusy & Hbuff & Hcrc) Hfrag Htrailer Hcomplete Hcode Hcap Hchk.
  unfold reassembly_end_ppdu, reassembly_end_ppdu_body. rewrite Hrange. cbn [negb].
  cbn [is_context_free map_ctx ctx_free]. unfold is_context_free in Hbusy. rewrite Hbusy.
  rewrite !ctx_of_map_ctx.
  cbn [rle_ctx_get_use_crc rle_ctx_incr_counter_bytes_in with_current_counter ctx_use_crc buff
       ctx_next_seq_nb].
  rewrite Hcrc, Hfrag, Hbuff.
  unfold rasm_buf_get_sdu_len, rasm_buf_get_reassembled_sdu_len.
  cbn [sdu_len reassembled sdu_info_size sdu_info_protocol_type comp_protocol_type].
  replace (if crc then sizeof_rle_alpdu_crc_trailer_t else sizeof_rle_alpdu_seqno_trailer_t)
    with (Z.of_nat (length trailer)) by (rewrite Htrailer; now destruct crc).
  rewrite length_app in Hcomplete |- *.
  replace (Z.of_nat (length last + length trailer) <? Z.of_nat (length trailer)) with false
    by (symmetry; apply Z.ltb_ge; lia).
  replace (Z.to_nat (Z.of_nat (length last + length trailer) - Z.of_nat (length trailer)))
    with (length last) by lia.
  rewrite firstn_app, firstn_all, Nat.sub_diag, skipn_app, skipn_all, Nat.sub_diag.
  cbn [firstn skipn app]. rewrite app_nil_r.
  rewrite Z.eqb_refl. cbn [negb].
  replace (n <? Z.of_nat (length received)
                + (Z.of_nat (length last + length trailer) - Z.of_nat (length trailer)))
    with false by (symmetry; apply Z.ltb_ge; lia).
  cbn [rasm_buf_append with_buff buff reassembled sdu_len sdu_info_size
       sdu_info_protocol_type comp_protocol_type].
  rewrite length_app.
  replace (Z.of_nat (length received + length last) <? n) with false
    by (symmetry; apply Z.ltb_ge; lia).
  replace (cpt =? RLE_PROTO_TYPE_VLAN_COMP_WO_PTYPE_FIELD) with false
    by (symmetry; now apply Z.eqb_neq).
  cbn [negb rle_ctx_get_use_crc with_buff rle_ctx_incr_counter_bytes_in with_current_counter
       map_ctx ctx_use_crc ctx_next_seq_nb is_ctx_seqnum_init].
  rewrite Hcrc, Hchk. cbn [Z.eqb negb].
  do 2 eexists. split; [ reflexivity | ].
  rewrite released, ctx_of_released.
  cbn [set_seqnum_init rle_ctx_man map_ctx]. rewrite !upd_same.
  split; [ | split; [ reflexivity | split; [ reflexivity | reflexivity ] ] ].
  rewrite <- Hcomplete, <- length_app.
  apply delivered_complete_sdu. exact Hcap.
Qed.

(** X30: an END PPDU that completes a frame of the VLAN special case:
    the SDU with the protocol type put back is delivered if the trailer
    checks; a frame whose protocol type cannot be put back is dropped. *)
Lemma reassembly_end_ppdu_vlan (r : rle_receiver) (ppdu received last trailer : list Z)
    (n : Z) (crc : bool) (out : rle_sdu) :
  let index_ctx := rle_cont_end_ppdu_hdr_get_frag_id ops ppdu in
  let i := Z.to_nat index_ctx in
  frag_id_in_range index_ctx = true ->
  in_progress r i n received RLE_PROTO_TYPE_VLAN_UNCOMP
    RLE_PROTO_TYPE_VLAN_COMP_WO_PTYPE_FIELD crc ->
  cont_end_ppdu_extract_alpdu_frag ops ppdu = last ++ trailer ->
  Z.of_nat (length trailer) = (if crc then 4 else 1) ->
  Z.of_nat (length (received ++ last)) = n ->
  match reassembly_insert_vlan_ptype (received ++ last) out with
  | None =>
      exists r',
        reassembly_end_ppdu ops r ppdu out = Some (C_ERROR, r', index_ctx, out) /\
        counter_dropped (rle_ctx_man r' i) = counter_dropped (rle_ctx_man r i) + 1 /\
        is_context_free r' i = true
  | Some sdu =>
      chk_ret (check_alpdu_trailer ops trailer sdu crc
                 (ctx_next_seq_nb (rle_ctx_man r i)) (is_ctx_seqnum_init r i)) = 0 ->
      exists r',
        reassembly_end_ppdu ops r ppdu out = Some (C_REASSEMBLY_OK, r', index_ctx, sdu) /\
        is_context_free r' i = true
  end.
Proof.
  cbv zeta. intros Hrange (Hbusy & Hbuff & Hcrc) Hfrag Htrailer Hcomplete.
  unfold reassembly_end_ppdu, reassembly_end_ppdu_body. rewrite Hrange. cbn [negb].
  cbn [is_context_free map_ctx ctx_free]. unfold is_context_free in Hbusy. rewrite Hbusy.
  rewrite !ctx_of_map_ctx.
  cbn [rle_ctx_get_use_crc rle_ctx_incr_counter_bytes_in with_current_counter ctx_use_crc buff
       ctx_next_seq_nb].
  rewrite Hcrc, Hfrag, Hbuff.
  unfold rasm_buf_get_sdu_len, rasm_buf_get_reassembled_sdu_len.
  cbn [sdu_len reassembled sdu_info_size sdu_info_protocol_type comp_protocol_type].
  replace (if crc then sizeof_rle_alpdu_crc_trailer_t else sizeof_rle_alpdu_seqno_trailer_t)
    with (Z.of_nat (length trailer)) by (rewrite Htrailer; now destruct crc).
  pose proof Hcomplete as Hlen. rewrite length_app in Hlen. rewrite length_app.
  replace (Z.of_nat (length last + length trailer) <? Z.of_nat (length trailer)) with false
    by (symmetry; apply Z.ltb_ge; lia).
  replace (Z.to_nat (Z.of_nat (length last + length trailer) - Z.of_nat (length trailer)))
    with (length last) by lia.
  rewrite firstn_app, firstn_all, Nat.sub_diag, skipn_app, skipn_all, Nat.sub_diag.
  cbn [firstn skipn app]. rewrite app_nil_r.
  rewrite Z.eqb_refl. cbn [negb].
  replace (n <? Z.of_nat (length received)
                + (Z.of_nat (length last + length trailer) - Z.of_nat (length trailer)))
    with false by (symmetry; apply Z.ltb_ge; lia).
  cbn [rasm_buf_append with_buff buff reassembled sdu_len sdu_info_size
       sdu_info_protocol_type comp_protocol_type].
  rewrite length_app.
  replace (Z.of_nat (length received + length last) <? n) with false
    by (symmetry; apply Z.ltb_ge; lia).
  rewrite !Z.eqb_refl. cbn [negb].
  replace (firstn (Z.to_nat n) (received ++ last)) with (received ++ last)
    by (rewrite <- Hcomplete, Nat2Z.id; now rewrite firstn_all).
  destruct (reassembly_insert_vlan_ptype (received ++ last) out) as [sdu | ].
  - intros Hchk.
    cbn [rle_ctx_get_use_crc with_buff rle_ctx_incr_counter_bytes_in with_current_counter
         map_ctx ctx_use_crc ctx_next_seq_nb is_ctx_seqnum_init].
    rewrite Hcrc, Hchk. cbn [Z.eqb negb].
    eexists. split; [ reflexivity | apply released ].
  - eexists. split; [ reflexivity | ].
    rewrite released, ctx_of_released, !ctx_of_map_ctx. split; reflexivity.
Qed.

Lemma reassembly_cont_ppdus_accepts (index_ctx : Z) (ppdus : list (list Z)) :
  frag_id_in_range index_ctx = true ->
  Forall (fun ppdu => rle_cont_end_ppdu_hdr_get_frag_id ops ppdu = index_ctx) ppdus ->
  forall (r : rle_receiver) (received : list Z) (n pt cpt : Z) (crc : bool),
    let i := Z.to_nat index_ctx in
    let frags := concat (map (cont_end_ppdu_extract_alpdu_frag ops) ppdus) in
    in_progress r i n received pt cpt crc ->
    Z.of_nat (length received) + Z.of_nat (length frags) <= n ->
    exists r',
      reassembly_cont_ppdus ops r ppdus = Some r' /\
      in_progress r' i n (received ++ frags) pt cpt crc /\
      ctx_next_seq_nb (rle_ctx_man r' i) = ctx_next_seq_nb (rle_ctx_man r i) /\
      is_ctx_seqnum_init r' = is_ctx_seqnum_init r.
Proof.
  intros Hrange Hids. induction Hids as [ | ppdu rest Hid _ IH];
    intros r received n pt cpt crc; cbv zeta; intros Hin Hfits.
  - exists r. cbn [map concat]. rewrite app_nil_r.
    split; [ reflexivity | split; [ exact Hin | split; reflexivity ] ].
  - cbn [map concat] in Hfits |- *. rewrite length_app in Hfits.
    destruct (reassembly_cont_ppdu_accepts r ppdu received n pt cpt crc) as
      (r1 & Hrun & Hin1 & Hseq1 & Hinit1);
      rewrite ?Hid; try assumption; [ lia | ].
    rewrite Hid in Hrun, Hin1, Hseq1.
    destruct (IH r1 (received ++ cont_end_ppdu_extract_alpdu_frag ops ppdu) n pt cpt crc)
      as (r2 & Hrun2 & Hin2 & Hseq2 & Hinit2);
      [ exact Hin1 | rewrite length_app; lia | ].
    exists r2. cbn [reassembly_cont_ppdus]. rewrite Hrun.
    rewrite app_assoc.
    split; [ exact Hrun2 | split; [ exact Hin2 | split; congruence ] ].
Qed.

(** X16: the fragments of an SDU that arrive in order on one fragment
    id, in a START PPDU, any number of CONT PPDUs and an END PPDU whose
    trailer checks, are delivered as one SDU: the fragments in their
    order, with the protocol type read from the START PPDU. *)
Theorem reassembly_of_fragments_in_order (r : rle_receiver) (start_ppdu : list Z)
    (cont_ppdus : list (list Z)) (end_ppdu : list Z) (out : rle_sdu)
    (alpdu_frag last trailer : list Z) (total n hdr_len : Z) (crc : bool) (e : extraction) :
  let index_ctx := rle_start_ppdu_hdr_get_frag_id ops start_ppdu in
  let i := Z.to_nat index_ctx in
  let sdu_bytes :=
    sdu_frag e ++ concat (map (cont_end_ppdu_extract_alpdu_frag ops) cont_ppdus) ++ last in
  frag_id_in_range index_ctx = true ->
  Forall (fun ppdu => rle_cont_end_ppdu_hdr_get_frag_id ops ppdu = index_ctx) cont_ppdus ->
  rle_cont_end_ppdu_hdr_get_frag_id ops end_ppdu = index_ctx ->
  is_context_free r i = true ->
  start_ppdu_extract_alpdu_frag ops start_ppdu = (alpdu_frag, total, crc) ->
  start_ppdu_extract_sdu_frag ops r start_ppdu alpdu_frag = Some (e, hdr_len) ->
  0 <= hdr_len -> total = hdr_len + n + (if crc then 4 else 1) -> total < 2 ^ 64 ->
  cont_end_ppdu_extract_alpdu_frag ops end_ppdu = last ++ trailer ->
  Z.of_nat (length trailer) = (if crc then 4 else 1) ->
  Z.of_nat (length sdu_bytes) = n ->
  comp_ptype e <> RLE_PROTO_TYPE_VLAN_COMP_WO_PTYPE_FIELD ->
  (length sdu_bytes <= length (buffer out))%nat ->
  chk_ret (check_alpdu_trailer ops trailer (complete_sdu out sdu_bytes n (ptype e)) crc
             (ctx_next_seq_nb (rle_ctx_man r i)) (is_ctx_seqnum_init r i)) = 0 ->
  exists r1 r2 r3 sdu,
    reassembly_start_ppdu ops r start_ppdu = Some (C_OK, r1, index_ctx) /\
    reassembly_cont_ppdus ops r1 cont_ppdus = Some r2 /\
    reassembly_end_ppdu ops r2 end_ppdu out = Some (C_REASSEMBLY_OK, r3, index_ctx, sdu) /\
    delivered_bytes sdu = sdu_bytes /\
    protocol_type sdu = ptype e /\
    is_context_free r3 i = true.
Proof.
  cbv zeta.
  intros Hrange Hconts Hend Hfree Hfrag Hhdr Hh Htotal Hmax Hlast Htrailer Hn Hcode Hcap Hchk.
  rewrite !length_app in Hn.
  destruct (reassembly_start_ppdu_accepts r start_ppdu alpdu_frag total n hdr_len crc e)
    as (r1 & Hrun1 & Hin1 & Hseq1 & Hinit1); try assumption; [ lia | ].
  destruct (reassembly_cont_ppdus_accepts _ cont_ppdus Hrange Hconts r1 (sdu_frag e) n
              (ptype e) (comp_ptype e) crc)
    as (r2 & Hrun2 & Hin2 & Hseq2 & Hinit2); [ exact Hin1 | lia | ].
  destruct (reassembly_end_ppdu_delivers r2 end_ppdu
              (sdu_frag e ++ concat (map (cont_end_ppdu_extract_alpdu_frag ops) cont_ppdus))
              last trailer n (ptype e) (comp_ptype e) crc out)
    as (r3 & sdu & Hrun3 & Hbytes & Hpt & Hfree3 & _);
    rewrite ?Hend; try assumption.
  - rewrite !length_app. lia.
  - rewrite <- app_assoc. exact Hcap.
  - rewrite <- app_assoc, Hseq2, Hseq1, Hinit2, Hinit1. exact Hchk.
  - rewrite Hend in Hrun3, Hfree3. rewrite <- app_assoc in Hbytes.
    exists r1, r2, r3, sdu. repeat split; assumption.
Qed.

(** C4 fails on the code.  An END PPDU on a context in progress whose
    fragment exceeds the declared total, or leaves bytes missing, drops
    the SDU and frees the context but leaves the lost counter as it
    was, where the claim has it incremented; and an END PPDU on a free
    context counts the SDU and the bytes of the burst as dropped twice.
    The same excess in a CONT PPDU counts one lost packet and the drop
    once. *)
Theorem reassembly_end_ppdu_miscounts_errors (r : rle_receiver) (ppdu : list Z)
    (out : rle_sdu) :
  let index_ctx := rle_cont_end_ppdu_hdr_get_frag_id ops ppdu in
  let i := Z.to_nat index_ctx in
  let c := rle_ctx_man r i in
  let frag_len := Z.of_nat (length (cont_end_ppdu_extract_alpdu_frag ops ppdu)) in
  let trailer_len :=
    if ctx_use_crc c then sizeof_rle_alpdu_crc_trailer_t
    else sizeof_rle_alpdu_seqno_trailer_t in
  let received := Z.of_nat (length (reassembled (buff c))) in
  let burst := current_counter c + Z.of_nat (length ppdu) in
  frag_id_in_range index_ctx = true ->
  (is_context_free r i = false ->
   sdu_info_size (buff c) = sdu_len (buff c) ->
   trailer_len <= frag_len ->
   sdu_len (buff c) < received + (frag_len - trailer_len) \/
   received + (frag_len - trailer_len) < sdu_len (buff c) ->
   exists r',
     reassembly_end_ppdu ops r ppdu out = Some (C_ERROR, r', index_ctx, out) /\
     is_context_free r' i = true /\
     counter_dropped (rle_ctx_man r' i) = counter_dropped c + 1 /\
     counter_bytes_dropped (rle_ctx_man r' i) = counter_bytes_dropped c + burst /\
     counter_lost (rle_ctx_man r' i) = counter_lost c) /\
  (is_context_free r i = true ->
   exists r',
     reassembly_end_ppdu ops r ppdu out = Some (C_ERROR, r', index_ctx, out) /\
     is_context_free r' i = true /\
     counter_dropped (rle_ctx_man r' i) = counter_dropped c + 2 /\
     counter_bytes_dropped (rle_ctx_man r' i) = counter_bytes_dropped c + 2 * burst /\
     counter_lost (rle_ctx_man r' i) = counter_lost c + 1) /\
  (is_context_free r i = false ->
   sdu_len (buff c) < received + frag_len ->
   exists r',
     reassembly_cont_ppdu ops r ppdu = Some (C_ERROR, r', index_ctx) /\
     is_context_free r' i = true /\
     counter_dropped (rle_ctx_man r' i) = counter_dropped c + 1 /\
     counter_bytes_dropped (rle_ctx_man r' i) = counter_bytes_dropped c + burst /\
     counter_lost (rle_ctx_man r' i) = counter_lost c + 1).
Proof.
  cbv zeta. intros Hrange.
  set (i := Z.to_nat (rle_cont_end_ppdu_hdr_get_frag_id ops ppdu)).
  set (c := rle_ctx_man r i).
  set (frag := cont_end_ppdu_extract_alpdu_frag ops ppdu).
  set (tl := if ctx_use_crc c then sizeof_rle_alpdu_crc_trailer_t
             else sizeof_rle_alpdu_seqno_trailer_t).
  split; [ | split ].
  - intros Hbusy Hassert Htrailer Hlen.
    unfold reassembly_end_ppdu, reassembly_end_ppdu_body.
    rewrite Hrange. cbn [negb]. fold i.
    cbn [is_context_free map_ctx ctx_free]. unfold is_context_free in Hbusy. rewrite Hbusy.
    rewrite !ctx_of_map_ctx. fold c.
    cbn [rle_ctx_get_use_crc rle_ctx_incr_counter_bytes_in with_current_counter ctx_use_crc
         buff].
    fold tl. fold frag.
    replace (Z.of_nat (length frag) <? tl) with false by (symmetry; apply Z.ltb_ge; lia).
    unfold rasm_buf_get_sdu_len, rasm_buf_get_reassembled_sdu_len.
    rewrite Hassert, Z.eqb_refl. cbn [negb].
    destruct (Z.ltb_spec (sdu_len (buff c))
                (Z.of_nat (length (reassembled (buff c))) + (Z.of_nat (length frag) - tl)))
      as [Hover | Hfits].
    + eexists. split; [ reflexivity | ]. split; [ apply released | ].
      rewrite ctx_of_released, !ctx_of_map_ctx. fold c. cbn. repeat split; lia.
    + cbn [rasm_buf_append with_buff buff reassembled sdu_len].
      rewrite length_app, length_firstn.
      replace (Z.of_nat (length (reassembled (buff c))
                         + Nat.min (Z.to_nat (Z.of_nat (length frag) - tl)) (length frag))
               <? sdu_len (buff c)) with true by (symmetry; apply Z.ltb_lt; lia).
      eexists. split; [ reflexivity | ]. split; [ apply released | ].
      rewrite ctx_of_released, !ctx_of_map_ctx. fold c. cbn. repeat split; lia.
  - intros Hfree.
    unfold reassembly_end_ppdu, reassembly_end_ppdu_body.
    rewrite Hrange. cbn [negb]. fold i.
    cbn [is_context_free map_ctx ctx_free]. unfold is_context_free in Hfree. rewrite Hfree.
    eexists. split; [ reflexivity | ]. split; [ apply released | ].
    rewrite ctx_of_released, ctx_of_map_ctx, ctx_of_released, !ctx_of_map_ctx. fold c.
    cbn [count_drop rle_ctx_incr_counter_dropped rle_ctx_incr_counter_lost
         rle_ctx_incr_counter_bytes_dropped rle_ctx_incr_counter_bytes_in
         with_current_counter current_counter counter_dropped counter_lost
         counter_bytes_dropped].
    repeat split; lia.
  - intros Hbusy Hover.
    unfold reassembly_cont_ppdu.
    rewrite Hrange. cbn [negb]. fold i.
    cbn [is_context_free map_ctx ctx_free]. unfold is_context_free in Hbusy. rewrite Hbusy.
    rewrite ctx_of_map_ctx. fold c.
    cbn [rle_ctx_incr_counter_bytes_in with_current_counter buff].
    unfold rasm_buf_get_sdu_len, rasm_buf_get_reassembled_sdu_len. fold frag.
    replace (sdu_len (buff c)
             <? Z.of_nat (length (reassembled (buff c))) + Z.of_nat (length frag))
      with true by (symmetry; apply Z.ltb_lt; lia).
    eexists. split; [ reflexivity | ]. split; [ apply released | ].
    rewrite ctx_of_released, !ctx_of_map_ctx. fold c. cbn. repeat split; lia.
Qed.

(** *** Further properties of reassembly.c *)

Lemma upd_other {A : Type} (f : nat -> A) (i j : nat) (v : A) :
  j <> i -> upd f i v j = f j.
Proof.
  intros Hne. unfold upd.
  now replace (j =? i)%nat with false by (symmetry; now apply Nat.eqb_neq).
Qed.

Ltac elsewhere :=
  unfold untouched, is_context_free;
  cbn [map_ctx rle_receiver_free_context set_nonfree_frag_ctx set_seqnum_init
       rle_ctx_man ctx_free is_ctx_seqnum_init conf];
  rewrite ?upd_other by assumption; repeat split.

(** X19: a START PPDU on a fragment id in 0..7 is refused with
    C_ERROR when its context is not free, when its ALPDU header cannot
    be read, when the declared ALPDU total is smaller than the SDU
    fragment, when the total less the ALPDU header (a [size_t]
    subtraction) is smaller than the trailer, or when what remains is
    smaller than the SDU fragment.  The PPDU and its bytes are then
    counted as received, one SDU as dropped and one as lost, the bytes
    of this PPDU alone as dropped, and the context is freed, the one of
    an SDU in progress included. *)
Theorem reassembly_start_ppdu_error (r : rle_receiver) (ppdu : list Z) :
  let index_ctx := rle_start_ppdu_hdr_get_frag_id ops ppdu in
  let i := Z.to_nat index_ctx in
  let c := rle_ctx_man r i in
  let alpdu_frag := fst (fst (start_ppdu_extract_alpdu_frag ops ppdu)) in
  let total := snd (fst (start_ppdu_extract_alpdu_frag ops ppdu)) in
  let trailer_len :=
    if snd (start_ppdu_extract_alpdu_frag ops ppdu) then sizeof_rle_alpdu_crc_trailer_t
    else sizeof_rle_alpdu_seqno_trailer_t in
  frag_id_in_range index_ctx = true ->
  is_context_free r i = false \/
  start_ppdu_extract_sdu_frag ops r ppdu alpdu_frag = None \/
  (exists e hdr_len,
     start_ppdu_extract_sdu_frag ops r ppdu alpdu_frag = Some (e, hdr_len) /\
     (total < Z.of_nat (length (sdu_frag e)) \/
      size_t_sub total hdr_len < trailer_len \/
      size_t_sub (size_t_sub total hdr_len) trailer_len < Z.of_nat (length (sdu_frag e)))) ->
  exists r',
    reassembly_start_ppdu ops r ppdu = Some (C_ERROR, r', index_ctx) /\
    is_context_free r' i = true /\
    counter_in (rle_ctx_man r' i) = counter_in c + 1 /\
    counter_bytes_in (rle_ctx_man r' i) = counter_bytes_in c + Z.of_nat (length ppdu) /\
    counter_dropped (rle_ctx_man r' i) = counter_dropped c + 1 /\
    counter_lost (rle_ctx_man r' i) = counter_lost c + 1 /\
    counter_bytes_dropped (rle_ctx_man r' i)
    = counter_bytes_dropped c + Z.of_nat (length ppdu) /\
    counter_ok (rle_ctx_man r' i) = counter_ok c.
Proof.
  cbv zeta. intros Hrange Hevent. unfold reassembly_start_ppdu.
  rewrite Hrange. cbn [negb].
  assert (Hconf : forall f g alpdu_frag,
             start_ppdu_extract_sdu_frag ops
               (set_nonfree_frag_ctx (map_ctx r f g) f) ppdu alpdu_frag
             = start_ppdu_extract_sdu_frag ops r ppdu alpdu_frag) by reflexivity.
  destruct (start_ppdu_extract_alpdu_frag ops ppdu) as [[alpdu_frag total] crc].
  cbn [fst snd] in Hevent.
  unfold is_context_free in *. cbn [map_ctx ctx_free].
  set (index_ctx := rle_start_ppdu_hdr_get_frag_id ops ppdu) in *.
  set (i := Z.to_nat index_ctx) in *.
  set (c := rle_ctx_man r i).
  set (counted := rle_ctx_incr_counter_bytes_in
                    (rle_ctx_incr_counter_in
                       (with_current_counter c (Z.of_nat (length ppdu))))
                    (Z.of_nat (length ppdu))).
  (* What the label [out] does on an error, from each state it is reached in. *)
  assert (Hout : forall r2,
             rle_ctx_man r2 i = counted \/ rle_ctx_man r2 i = rle_ctx_set_use_crc counted crc ->
             exists r',
               Some (C_ERROR,
                     rle_receiver_free_context (map_ctx r2 i (fun c => count_drop c 1)) i,
                     index_ctx)
               = Some (C_ERROR, r', index_ctx) /\
               ctx_free r' i = true /\
               counter_in (rle_ctx_man r' i) = counter_in c + 1 /\
               counter_bytes_in (rle_ctx_man r' i)
               = counter_bytes_in c + Z.of_nat (length ppdu) /\
               counter_dropped (rle_ctx_man r' i) = counter_dropped c + 1 /\
               counter_lost (rle_ctx_man r' i) = counter_lost c + 1 /\
               counter_bytes_dropped (rle_ctx_man r' i)
               = counter_bytes_dropped c + Z.of_nat (length ppdu) /\
               counter_ok (rle_ctx_man r' i) = counter_ok c).
  { intros r2 Hctx. eexists. split; [ reflexivity | ].
    split; [ apply released | ].
    rewrite ctx_of_released, ctx_of_map_ctx.
    destruct Hctx as [-> | ->]; repeat split. }
  destruct (ctx_free r i) eqn:Hfree; cbn [negb].
  - destruct Hevent as [Hbusy | Hevent]; [ discriminate | ].
    rewrite Hconf.
    destruct Hevent as [-> | (e & hdr_len & -> & Hshort)].
    + apply Hout. left. cbn [set_nonfree_frag_ctx rle_ctx_man]. apply ctx_of_map_ctx.
    + destruct (Z.ltb_spec total (Z.of_nat (length (sdu_frag e)))) as [ | H1].
      { apply Hout. left. cbn [set_nonfree_frag_ctx rle_ctx_man]. apply ctx_of_map_ctx. }
      destruct (Z.ltb_spec (size_t_sub total hdr_len)
                  (if crc then sizeof_rle_alpdu_crc_trailer_t
                   else sizeof_rle_alpdu_seqno_trailer_t)) as [ | H2].
      { apply Hout. left. cbn [set_nonfree_frag_ctx rle_ctx_man]. apply ctx_of_map_ctx. }
      destruct (Z.ltb_spec (size_t_sub (size_t_sub total hdr_len)
                              (if crc then sizeof_rle_alpdu_crc_trailer_t
                               else sizeof_rle_alpdu_seqno_trailer_t))
                  (Z.of_nat (length (sdu_frag e)))) as [ | H3].
      { apply Hout. right. rewrite ctx_of_map_ctx.
        cbn [set_nonfree_frag_ctx rle_ctx_man]. now rewrite ctx_of_map_ctx. }
      exfalso. destruct Hshort as [ | [ | ]]; lia.
  - apply Hout. left. apply ctx_of_map_ctx.
Qed.

Lemma reassembly_end_ppdu_body_elsewhere (r1 mid : rle_receiver) (i : nat) (ppdu : list Z)
    (out sdu : rle_sdu) (ret : status) (lost_packets : Z) (j : nat) :
  reassembly_end_ppdu_body ops r1 i ppdu out = Some (ret, lost_packets, mid, sdu) ->
  j <> i -> untouched r1 mid j /\ conf mid = conf r1.
Proof.
  unfold reassembly_end_ppdu_body. intros H Hne.
  repeat split_on H; try discriminate; injection H as <- <- <- <-; elsewhere.
Qed.

(** X20: a START, CONT or END PPDU changes nothing for the other
    fragment ids, whatever its outcome: their contexts and statistics,
    whether they are free and their sequence number flags are as
    before, and so is the configuration. *)
Theorem reassembly_touches_one_context (r : rle_receiver) (ppdu : list Z) (out : rle_sdu)
    (j : nat) :
  (forall ret r' index_ctx,
     reassembly_start_ppdu ops r ppdu = Some (ret, r', index_ctx) ->
     j <> Z.to_nat index_ctx -> untouched r r' j /\ conf r' = conf r) /\
  (forall ret r' index_ctx,
     reassembly_cont_ppdu ops r ppdu = Some (ret, r', index_ctx) ->
     j <> Z.to_nat index_ctx -> untouched r r' j /\ conf r' = conf r) /\
  (forall ret r' index_ctx sdu,
     reassembly_end_ppdu ops r ppdu out = Some (ret, r', index_ctx, sdu) ->
     j <> Z.to_nat index_ctx -> untouched r r' j /\ conf r' = conf r).
Proof.
  split; [ | split ].
  - unfold reassembly_start_ppdu. intros ret r' index_ctx H.
    destruct (negb (frag_id_in_range _)); [ discriminate | ].
    destruct (start_ppdu_extract_alpdu_frag ops ppdu) as [[alpdu_frag total] crc].
    destruct (negb (is_context_free _ _));
      [ | destruct (start_ppdu_extract_sdu_frag _ _ _ _) as [[e hdr_len] | ];
          [ destruct (_ <? _); [ | destruct (_ <? _); [ | destruct (_ <? _) ] ] | ] ];
      cbv iota beta in H; injection H as <- <- <-; intros Hne; elsewhere.
  - unfold reassembly_cont_ppdu. intros ret r' index_ctx H.
    destruct (negb (frag_id_in_range _)); [ discriminate | ].
    repeat split_on H; cbv iota beta in H; injection H as <- <- <-; intros Hne;
      elsewhere.
  - unfold reassembly_end_ppdu. intros ret r' index_ctx sdu H.
    destruct (negb (frag_id_in_range _)); [ discriminate | ].
    destruct (reassembly_end_ppdu_body _ _ _ _ _) as [[[[ret0 lp] mid] sdu0] | ] eqn:Hbody;
      [ | discriminate ].
    injection H as <- <- <- <-. intros Hne.
    destruct (reassembly_end_ppdu_body_elsewhere _ _ _ _ _ _ _ _ j Hbody Hne)
      as ((Hctx & Hfree & Hinit) & Hconf).
    unfold untouched, is_context_free in *.
    cbn [map_ctx rle_ctx_man ctx_free is_ctx_seqnum_init conf] in Hctx, Hfree, Hinit, Hconf.
    rewrite upd_other in Hctx by assumption.
    destruct ret0;
      cbn [map_ctx rle_receiver_free_context rle_ctx_man ctx_free is_ctx_seqnum_init conf];
      rewrite ?upd_other by assumption; repeat split; assumption.
Qed.

(** X21: a START PPDU that is accepted found its context free and
    leaves it in progress, with the size recorded for the SDU equal to
    the declared total and the first fragment within it; a CONT PPDU
    that is accepted found the context in progress and leaves it so,
    with its fragment appended to the bytes received, the declared total
    as it was and still not exceeded, and nothing counted as dropped,
    lost or delivered. *)
Theorem reassembly_keeps_declared_length (r : rle_receiver) (ppdu : list Z) :
  (forall r' index_ctx,
     reassembly_start_ppdu ops r ppdu = Some (C_OK, r', index_ctx) ->
     let i := Z.to_nat index_ctx in
     is_context_free r i = true /\ is_context_free r' i = false /\
     within_declared_length (rle_ctx_man r' i) /\
     current_counter (rle_ctx_man r' i) = Z.of_nat (length ppdu)) /\
  (forall r' index_ctx,
     reassembly_cont_ppdu ops r ppdu = Some (C_OK, r', index_ctx) ->
     let i := Z.to_nat index_ctx in
     let c := rle_ctx_man r i in
     let c' := rle_ctx_man r' i in
     is_context_free r i = false /\ is_context_free r' i = false /\
     buff c' = rasm_buf_append (buff c) (cont_end_ppdu_extract_alpdu_frag ops ppdu) /\
     Z.of_nat (length (reassembled (buff c'))) <= sdu_len (buff c') /\
     (within_declared_length c -> within_declared_length c') /\
     current_counter c' = current_counter c + Z.of_nat (length ppdu) /\
     counter_dropped c' = counter_dropped c /\ counter_lost c' = counter_lost c /\
     counter_ok c' = counter_ok c).
Proof.
  split.
  - unfold reassembly_start_ppdu. intros r' index_ctx H.
    destruct (negb (frag_id_in_range _)); [ discriminate | ].
    destruct (start_ppdu_extract_alpdu_frag ops ppdu) as [[alpdu_frag total] crc].
    unfold is_context_free in *. cbn [map_ctx ctx_free] in H.
    destruct (ctx_free r _) eqn:Hfree; cbn [negb] in H;
      [ | cbv iota beta in H; discriminate ].
    destruct (start_ppdu_extract_sdu_frag _ _ _ _) as [[e hdr_len] | ];
      [ | cbv iota beta in H; discriminate ].
    destruct (_ <? _); [ cbv iota beta in H; discriminate | ].
    destruct (_ <? _); [ cbv iota beta in H; discriminate | ].
    destruct (Z.ltb_spec (size_t_sub (size_t_sub total hdr_len)
                            (if crc then sizeof_rle_alpdu_crc_trailer_t
                             else sizeof_rle_alpdu_seqno_trailer_t))
                (Z.of_nat (length (sdu_frag e)))) as [Hlt | Hge];
      [ cbv iota beta in H; discriminate | ].
    cbv iota beta in H. injection H as <- <-. cbv zeta.
    split; [ exact Hfree | ].
    unfold within_declared_length.
    cbn [map_ctx set_nonfree_frag_ctx ctx_free rle_ctx_man]. rewrite !upd_same.
    cbn [with_buff rle_ctx_set_use_crc rle_ctx_incr_counter_bytes_in rle_ctx_incr_counter_in
         with_current_counter buff sdu_len reassembled sdu_info_size current_counter].
    split; [ reflexivity | ]. split; [ split; [ reflexivity | exact Hge ] | reflexivity ].
  - unfold reassembly_cont_ppdu. intros r' index_ctx H.
    destruct (negb (frag_id_in_range _)); [ discriminate | ].
    unfold is_context_free in *. cbn [map_ctx ctx_free] in H.
    destruct (ctx_free r _) eqn:Hfree; [ cbv iota beta in H; discriminate | ].
    rewrite ctx_of_map_ctx in H.
    cbn [rle_ctx_incr_counter_bytes_in with_current_counter buff] in H.
    unfold rasm_buf_get_sdu_len, rasm_buf_get_reassembled_sdu_len in H.
    match type of H with
    | context [if ?a <? ?b then _ else _] =>
        destruct (Z.ltb_spec a b) as [Hlt | Hge]; [ cbv iota beta in H; discriminate | ]
    end.
    cbv iota beta in H. injection H as <- <-. cbv zeta.
    unfold within_declared_length.
    cbn [map_ctx ctx_free rle_ctx_man]. rewrite !upd_same.
    cbn [with_buff rle_ctx_incr_counter_bytes_in with_current_counter buff rasm_buf_append
         sdu_len reassembled sdu_info_size current_counter counter_dropped counter_lost
         counter_ok].
    rewrite length_app, Nat2Z.inj_add.
    split; [ exact Hfree | ]. split; [ exact Hfree | ]. split; [ reflexivity | ].
    split; [ exact Hge | ].
    split; [ intros [Hsize _]; split; [ exact Hsize | exact Hge ] | ].
    split; [ reflexivity | ]. split; [ reflexivity | ]. split; reflexivity.
Qed.

Lemma reassembly_end_ppdu_body_returns (r1 : rle_receiver) (i : nat) (ppdu : list Z)
    (out : rle_sdu) :
  let c := rle_ctx_man r1 i in
  sdu_info_size (buff c) = sdu_len (buff c) ->
  (comp_protocol_type (buff c) = RLE_PROTO_TYPE_VLAN_COMP_WO_PTYPE_FIELD ->
   sdu_info_protocol_type (buff c) = RLE_PROTO_TYPE_VLAN_UNCOMP) ->
  exists ret lost_packets mid sdu,
    reassembly_end_ppdu_body ops r1 i ppdu out = Some (ret, lost_packets, mid, sdu) /\
    (ret = C_REASSEMBLY_OK \/ ret = C_ERROR).
Proof.
  cbv zeta. intros Hsize Hvlan. unfold reassembly_end_ppdu_body.
  destruct (is_context_free r1 i); [ do 4 eexists; split; [ reflexivity | now right ] | ].
  destruct (_ <? _); [ do 4 eexists; split; [ reflexivity | now right ] | ].
  unfold rasm_buf_get_sdu_len. rewrite Hsize, Z.eqb_refl. cbn [negb].
  destruct (_ <? _); [ do 4 eexists; split; [ reflexivity | now right ] | ].
  rewrite ctx_of_map_ctx.
  cbn [with_buff buff rasm_buf_append sdu_len reassembled sdu_info_size
       sdu_info_protocol_type comp_protocol_type].
  destruct (_ <? _); [ do 4 eexists; split; [ reflexivity | now right ] | ].
  destruct (Z.eqb_spec (comp_protocol_type (buff (rle_ctx_man r1 i)))
              RLE_PROTO_TYPE_VLAN_COMP_WO_PTYPE_FIELD) as [Hcode | Hcode]; cbn [negb].
  - rewrite (Hvlan Hcode), Z.eqb_refl. cbn [negb].
    destruct (reassembly_insert_vlan_ptype _ _);
      [ | do 4 eexists; split; [ reflexivity | now right ] ].
    destruct (negb (_ =? 0)); do 4 eexists; (split; [ reflexivity | ]);
      [ now right | now left ].
  - destruct (negb (_ =? 0)); do 4 eexists; (split; [ reflexivity | ]);
      [ now right | now left ].
Qed.

(** X22: for a fragment id in 0..7 whose context records the declared
    total as the size of its SDU (and the VLAN protocol type when its
    compressed type is the VLAN special case), [reassembly_end_ppdu]
    fails no assertion: it returns C_REASSEMBLY_OK or C_ERROR, and in
    both cases the context is free afterwards and the bytes of the PPDU
    are counted as received. *)
Theorem reassembly_end_ppdu_releases (r : rle_receiver) (ppdu : list Z) (out : rle_sdu) :
  let index_ctx := rle_cont_end_ppdu_hdr_get_frag_id ops ppdu in
  let i := Z.to_nat index_ctx in
  let c := rle_ctx_man r i in
  frag_id_in_range index_ctx = true ->
  sdu_info_size (buff c) = sdu_len (buff c) ->
  (comp_protocol_type (buff c) = RLE_PROTO_TYPE_VLAN_COMP_WO_PTYPE_FIELD ->
   sdu_info_protocol_type (buff c) = RLE_PROTO_TYPE_VLAN_UNCOMP) ->
  exists ret r' sdu,
    reassembly_end_ppdu ops r ppdu out = Some (ret, r', index_ctx, sdu) /\
    (ret = C_REASSEMBLY_OK \/ ret = C_ERROR) /\
    is_context_free r' i = true.
Proof.
  cbv zeta. intros Hrange Hsize Hvlan. unfold reassembly_end_ppdu.
  rewrite Hrange. cbn [negb].
  set (i := Z.to_nat (rle_cont_end_ppdu_hdr_get_frag_id ops ppdu)) in *.
  set (r1 := map_ctx r i _).
  destruct (reassembly_end_ppdu_body_returns r1 i ppdu out)
    as (ret & lp & mid & sdu & Hbody & Hret).
  - unfold r1. rewrite ctx_of_map_ctx. exact Hsize.
  - unfold r1. rewrite ctx_of_map_ctx. exact Hvlan.
  - rewrite Hbody. do 3 eexists. split; [ reflexivity | ].
    split; [ exact Hret | apply released ].
Qed.

(** X23: when [reassembly_end_ppdu] delivers an SDU, the context was in
    progress and is free afterwards, the bytes received are exactly the
    declared total, the trailer check returned 0 on the SDU that is
    delivered, one more SDU and the bytes of this SDU are counted as
    delivered, and nothing is counted as dropped. *)
Theorem reassembly_end_ppdu_success (r r' : rle_receiver) (ppdu : list Z) (out sdu : rle_sdu)
    (index_ctx : Z) :
  reassembly_end_ppdu ops r ppdu out = Some (C_REASSEMBLY_OK, r', index_ctx, sdu) ->
  let i := Z.to_nat index_ctx in
  let c := rle_ctx_man r i in
  let c' := rle_ctx_man r' i in
  is_context_free r i = false /\ is_context_free r' i = true /\
  Z.of_nat (length (reassembled (buff c'))) = sdu_len (buff c) /\
  (exists trailer,
     chk_ret (check_alpdu_trailer ops trailer sdu (ctx_use_crc c) (ctx_next_seq_nb c)
                (is_ctx_seqnum_init r i)) = 0) /\
  counter_ok c' = counter_ok c + 1 /\
  counter_bytes_ok c' = counter_bytes_ok c + size sdu /\
  counter_bytes_in c' = counter_bytes_in c + Z.of_nat (length ppdu) /\
  counter_dropped c' = counter_dropped c /\
  counter_bytes_dropped c' = counter_bytes_dropped c.
Proof.
  unfold reassembly_end_ppdu. intros H.
  destruct (negb (frag_id_in_range _)); [ discriminate | ].
  set (i := Z.to_nat (rle_cont_end_ppdu_hdr_get_frag_id ops ppdu)) in *.
  destruct (reassembly_end_ppdu_body _ _ _ _ _) as [[[[ret0 lp] mid] sdu0] | ] eqn:Hbody;
    [ | discriminate ].
  injection H as -> <- <- <-. cbv zeta. fold i.
  rewrite released, ctx_of_released.
  unfold reassembly_end_ppdu_body in Hbody.
  unfold is_context_free in *. cbn [map_ctx ctx_free] in Hbody.
  destruct (ctx_free r i) eqn:Hfree; [ discriminate | ].
  rewrite !ctx_of_map_ctx in Hbody.
  cbn [rle_ctx_get_use_crc rle_ctx_incr_counter_bytes_in with_current_counter ctx_use_crc buff
       ctx_next_seq_nb] in Hbody.
  match type of Hbody with
  | context [if ?a <? ?b then _ else _] =>
      destruct (Z.ltb_spec a b) as [Hshort | Htrailer]; [ discriminate | ]
  end.
  destruct (negb (_ =? _)); [ discriminate | ].
  unfold rasm_buf_get_sdu_len, rasm_buf_get_reassembled_sdu_len in Hbody.
  destruct (Z.ltb_spec (sdu_len (buff (rle_ctx_man r i)))
              (Z.of_nat (length (reassembled (buff (rle_ctx_man r i))))
               + (Z.of_nat (length (cont_end_ppdu_extract_alpdu_frag ops ppdu))
                  - (if ctx_use_crc (rle_ctx_man r i) then sizeof_rle_alpdu_crc_trailer_t
                     else sizeof_rle_alpdu_seqno_trailer_t))))
    as [Hover | Hfits]; [ discriminate | ].
  cbn [rasm_buf_append with_buff buff reassembled sdu_len sdu_info_size
       sdu_info_protocol_type comp_protocol_type] in Hbody.
  match type of Hbody with
  | context [if ?a <? ?b then _ else _] =>
      destruct (Z.ltb_spec a b) as [Hmissing | Hcomplete]; [ discriminate | ]
  end.
  match type of Hbody with
  | match ?rebuilt with _ => _ end = _ =>
      destruct rebuilt as [[rebuilt_sdu | ] | ]; try discriminate
  end.
  cbn [rle_ctx_get_use_crc with_buff rle_ctx_incr_counter_bytes_in with_current_counter
       map_ctx ctx_use_crc ctx_next_seq_nb is_ctx_seqnum_init rle_ctx_man] in Hbody.
  rewrite ?upd_same in Hbody.
  cbn [rle_ctx_get_use_crc with_buff rle_ctx_incr_counter_bytes_in with_current_counter
       ctx_use_crc ctx_next_seq_nb] in Hbody.
  destruct (Z.eqb_spec (chk_ret (check_alpdu_trailer ops
              (skipn (Z.to_nat (Z.of_nat (length (cont_end_ppdu_extract_alpdu_frag ops ppdu))
                 - (if ctx_use_crc (rle_ctx_man r i) then sizeof_rle_alpdu_crc_trailer_t
                    else sizeof_rle_alpdu_seqno_trailer_t)))
                 (cont_end_ppdu_extract_alpdu_frag ops ppdu))
              rebuilt_sdu (ctx_use_crc (rle_ctx_man r i)) (ctx_next_seq_nb (rle_ctx_man r i))
              (is_ctx_seqnum_init r i))) 0) as [Hchk | Hchk];
    cbn [negb] in Hbody; [ | discriminate ].
  injection Hbody as <- <- <-.
  cbn [set_seqnum_init map_ctx rle_ctx_man]. rewrite !upd_same.
  cbn [rle_ctx_incr_counter_ok rle_ctx_incr_counter_bytes_ok with_next_seq_nb with_buff
       rle_ctx_incr_counter_bytes_in with_current_counter buff reassembled sdu_len
       counter_ok counter_bytes_ok counter_bytes_in counter_dropped counter_bytes_dropped
       rasm_buf_append].
  split; [ reflexivity | ]. split; [ reflexivity | ].
  split.
  { rewrite length_app, Nat2Z.inj_add, length_firstn in *. lia. }
  split; [ eexists; exact Hchk | ].
  repeat split.
Qed.

(** X18: [reassembly_comp_ppdu] either delivers the SDU fragment of
    the ALPDU, with the protocol type its header reader found and the
    length of the fragment (two bytes more in the VLAN special case), or
    returns C_ERROR and leaves the SDU structure of the caller as it
    was. *)
Theorem reassembly_comp_ppdu_outcomes (r : rle_receiver) (ppdu : list Z) (out sdu : rle_sdu)
    (ret : status) :
  reassembly_comp_ppdu ops r ppdu out = Some (ret, sdu) ->
  (ret = C_REASSEMBLY_OK /\
   exists e,
     comp_ppdu_extract_sdu_frag ops r ppdu (comp_ppdu_extract_alpdu_frag ops ppdu) = Some e /\
     protocol_type sdu = ptype e /\
     size sdu = Z.of_nat (length (sdu_frag e))
                + (if comp_ptype e =? RLE_PROTO_TYPE_VLAN_COMP_WO_PTYPE_FIELD then 2 else 0))
  \/ (ret = C_ERROR /\ sdu = out).
Proof.
  unfold reassembly_comp_ppdu.
  destruct (comp_ppdu_extract_sdu_frag _ _ _ _) as [e | ];
    [ | intros [= <- <-]; now right ].
  destruct (comp_ptype e =? RLE_PROTO_TYPE_VLAN_COMP_WO_PTYPE_FIELD) eqn:Hcode; cbn [negb].
  - destruct (Z.eqb_spec (ptype e) RLE_PROTO_TYPE_VLAN_UNCOMP) as [Hptype | ]; cbn [negb];
      [ | discriminate ].
    destruct (reassembly_insert_vlan_ptype (sdu_frag e) out) as [rebuilt | ] eqn:Hinsert;
      intros [= <- <-]; [ left | now right ].
    split; [ reflexivity | ]. exists e. rewrite Hcode. split; [ reflexivity | ].
    rewrite insert_vlan_unfold in Hinsert.
    destruct (_ <? _)%nat; [ discriminate | ].
    destruct (negb _); [ discriminate | ].
    destruct (_ =? 4); [ | destruct (_ =? 6); [ | discriminate ] ];
      injection Hinsert as <-; cbn [protocol_type size]; (split; [ now rewrite Hptype | lia ]).
  - intros [= <- <-]. left. split; [ reflexivity | ]. exists e. rewrite Hcode.
    cbn [complete_sdu protocol_type size]. split; [ reflexivity | ]. split; [ reflexivity | lia ].
Qed.

End WithOps.

(** The SDU of the examples, in three fragments. *)
Lemma reassembly_of_fragments_in_order_example :
  exists r1 r2 r3 sdu,
    reassembly_start_ppdu simple_ops fresh_receiver start_ppdu = Some (C_OK, r1, 0) /\
    reassembly_cont_ppdus simple_ops r1 [cont_ppdu_one_byte] = Some r2 /\
    reassembly_end_ppdu simple_ops r2 end_ppdu_last_two empty_sdu
    = Some (C_REASSEMBLY_OK, r3, 0, sdu) /\
    delivered_bytes sdu = [1; 2; 3; 4; 5; 6] /\
    protocol_type sdu = 0x0800 /\
    is_context_free r3 0 = true.
Proof.
  apply (reassembly_of_fragments_in_order simple_ops fresh_receiver start_ppdu
           [cont_ppdu_one_byte] end_ppdu_last_two empty_sdu
           [0x00; 0x08; 1; 2; 3] [5; 6] [0x00] 9 6 2 false
           {| ptype := 0x0800; comp_ptype := 0xff; sdu_frag := [1; 2; 3];
              alpdu_hdr_len := 2 |});
    try reflexivity; try discriminate.
  - repeat constructor.
  - vm_compute. repeat constructor.
Defined.

Lemma reassembly_end_ppdu_miscounts_errors_witness :
  reassembly_start_ppdu simple_ops fresh_receiver start_ppdu
  = Some (C_OK, receiver_after_start, 0) /\
  (exists r',
     reassembly_end_ppdu simple_ops receiver_after_start end_ppdu_too_long empty_sdu
     = Some (C_ERROR, r', 0, empty_sdu) /\
     is_context_free r' 0 = true /\
     counter_dropped (rle_ctx_man r' 0) = 1 /\
     counter_lost (rle_ctx_man r' 0) = 0) /\
  (exists r',
     reassembly_end_ppdu simple_ops fresh_receiver end_ppdu_complete empty_sdu
     = Some (C_ERROR, r', 0, empty_sdu) /\
     counter_dropped (rle_ctx_man r' 0) = 2 /\
     counter_bytes_dropped (rle_ctx_man r' 0) = 12) /\
  (exists r',
     reassembly_cont_ppdu simple_ops receiver_after_start cont_ppdu_too_long
     = Some (C_ERROR, r', 0) /\
     counter_dropped (rle_ctx_man r' 0) = 1 /\
     counter_lost (rle_ctx_man r' 0) = 1).
Proof.
  split; [ reflexivity | ]. split; [ | split ].
  - destruct (proj1 (reassembly_end_ppdu_miscounts_errors simple_ops receiver_after_start
                       end_ppdu_too_long empty_sdu eq_refl))
      as (r' & Hrun & Hfree & Hdropped & _ & Hlost);
      [ reflexivity | reflexivity | discriminate | left; reflexivity | ].
    exists r'. split; [ exact Hrun | ]. split; [ exact Hfree | ].
    split; [ exact Hdropped | exact Hlost ].
  - destruct (proj1 (proj2 (reassembly_end_ppdu_miscounts_errors simple_ops fresh_receiver
                              end_ppdu_complete empty_sdu eq_refl)))
      as (r' & Hrun & _ & Hdropped & Hbytes & _); [ reflexivity | ].
    exists r'. split; [ exact Hrun | ]. split; [ exact Hdropped | exact Hbytes ].
  - destruct (proj2 (proj2 (reassembly_end_ppdu_miscounts_errors simple_ops
                              receiver_after_start cont_ppdu_too_long empty_sdu eq_refl)))
      as (r' & Hrun & _ & Hdropped & _ & Hlost); [ reflexivity | reflexivity | ].
    exists r'. split; [ exact Hrun | ]. split; [ exact Hdropped | exact Hlost ].
Defined.

Lemma reassembly_insert_vlan_ptype_stays_in_frame_witness :
  exists sdu,
    reassembly_insert_vlan_ptype vlan_ipv4_frame empty_sdu = Some sdu /\
    length (buffer sdu) = 64%nat /\
    skipn 22 (buffer sdu) = repeat 0 42.
Proof.
  eexists. split; [ reflexivity | ].
  destruct (reassembly_insert_vlan_ptype_stays_in_frame vlan_ipv4_frame empty_sdu _
              ltac:(vm_compute; repeat constructor) eq_refl) as (_ & Hlength & Hafter).
  split; [ exact Hlength | exact Hafter ].
Defined.

Lemma reassembly_insert_vlan_ptype_round_trip_witness :
  firstn 16 vlan_ipv4_full_frame ++ skipn 18 vlan_ipv4_full_frame = vlan_ipv4_frame /\
  exists sdu,
    reassembly_insert_vlan_ptype vlan_ipv4_frame empty_sdu = Some sdu /\
    delivered_bytes sdu = vlan_ipv4_full_frame.
Proof.
  split; [ reflexivity | ].
  destruct (reassembly_insert_vlan_ptype_round_trip vlan_ipv4_full_frame empty_sdu)
    as (sdu & Hrun & Hbytes & _).
  - vm_compute. repeat constructor.
  - vm_compute. repeat constructor.
  - reflexivity.
  - left. split; reflexivity.
  - exists sdu. split; [ exact Hrun | exact Hbytes ].
Defined.

Lemma reassembly_comp_ppdu_delivers_witness :
  exists sdu,
    reassembly_comp_ppdu simple_ops fresh_receiver comp_ppdu empty_sdu
    = Some (C_REASSEMBLY_OK, sdu) /\
    delivered_bytes sdu = [1; 2; 3] /\
    protocol_type sdu = 0x0800.
Proof.
  apply (reassembly_comp_ppdu_delivers simple_ops fresh_receiver comp_ppdu empty_sdu
           {| ptype := 0x0800; comp_ptype := 0xff; sdu_frag := [1; 2; 3];
              alpdu_hdr_len := 2 |}).
  - reflexivity.
  - discriminate.
  - vm_compute. repeat constructor.
Defined.

Lemma reassembly_comp_ppdu_outcomes_witness :
  reassembly_comp_ppdu simple_ops fresh_receiver comp_ppdu_truncated empty_sdu
  = Some (C_ERROR, empty_sdu) /\
  (C_ERROR = C_ERROR /\ empty_sdu = empty_sdu).
Proof.
  split; [ reflexivity | ].
  destruct (reassembly_comp_ppdu_outcomes simple_ops fresh_receiver comp_ppdu_truncated
              empty_sdu empty_sdu C_ERROR eq_refl) as [(Hret & _) | Herror].
  - discriminate Hret.
  - exact Herror.
Defined.

Lemma reassembly_start_ppdu_error_witness :
  exists r',
    reassembly_start_ppdu simple_ops receiver_after_start start_ppdu = Some (C_ERROR, r', 0) /\
    is_context_free r' 0 = true /\
    counter_dropped (rle_ctx_man r' 0) = 1 /\
    counter_lost (rle_ctx_man r' 0) = 1 /\
    counter_bytes_dropped (rle_ctx_man r' 0) = 9.
Proof.
  destruct (reassembly_start_ppdu_error simple_ops receiver_after_start start_ppdu eq_refl
              (or_introl eq_refl))
    as (r' & Hrun & Hfree & _ & _ & Hdropped & Hlost & Hbytes & _).
  exists r'. split; [ exact Hrun | ]. split; [ exact Hfree | ].
  split; [ exact Hdropped | ]. split; [ exact Hlost | exact Hbytes ].
Defined.

Lemma reassembly_touches_one_context_witness :
  1%nat <> Z.to_nat 0 /\
  untouched fresh_receiver receiver_after_start 1.
Proof.
  split; [ discriminate | ].
  exact (proj1 (proj1 (reassembly_touches_one_context simple_ops fresh_receiver start_ppdu
                         empty_sdu 1)
                  C_OK receiver_after_start 0 eq_refl ltac:(discriminate))).
Defined.

Lemma reassembly_keeps_declared_length_witness :
  reassembly_start_ppdu simple_ops fresh_receiver start_ppdu
  = Some (C_OK, receiver_after_start, 0) /\
  within_declared_length (rle_ctx_man receiver_after_start 0) /\
  is_context_free receiver_after_start 0 = false.
Proof.
  split; [ reflexivity | ].
  pose proof (proj1 (reassembly_keeps_declared_length simple_ops fresh_receiver start_ppdu)
                receiver_after_start 0 eq_refl) as H.
  cbv zeta in H. destruct H as (_ & Hbusy & Hwithin & _).
  split; [ exact Hwithin | exact Hbusy ].
Defined.

Lemma reassembly_end_ppdu_releases_witness :
  exists ret r' sdu,
    reassembly_end_ppdu simple_ops receiver_after_start end_ppdu_too_short empty_sdu
    = Some (ret, r', 0, sdu) /\
    is_context_free r' 0 = true.
Proof.
  destruct (reassembly_end_ppdu_releases simple_ops receiver_after_start end_ppdu_too_short
              empty_sdu) as (ret & r' & sdu & Hrun & _ & Hfree).
  - reflexivity.
  - reflexivity.
  - discriminate.
  - exists ret, r', sdu. split; [ exact Hrun | exact Hfree ].
Defined.

Lemma reassembly_end_ppdu_success_witness :
  exists r' sdu,
    reassembly_end_ppdu simple_ops receiver_after_start end_ppdu_complete empty_sdu
    = Some (C_REASSEMBLY_OK, r', 0, sdu) /\
    delivered_bytes sdu = [1; 2; 3; 4; 5; 6] /\
    counter_ok (rle_ctx_man r' 0) = 1 /\
    counter_bytes_ok (rle_ctx_man r' 0) = 6 /\
    is_context_free r' 0 = true.
Proof.
  do 2 eexists. split; [ reflexivity | ]. split; [ reflexivity | ].
  pose proof (reassembly_end_ppdu_success simple_ops receiver_after_start _ end_ppdu_complete
                empty_sdu _ 0 eq_refl) as H.
  cbv zeta in H.
  destruct H as (_ & Hfree & _ & _ & Hok & Hbytes & _).
  split; [ exact Hok | ]. split; [ exact Hbytes | exact Hfree ].
Defined.

Lemma reassembly_end_ppdu_vlan_witness :
  exists r' sdu,
    reassembly_end_ppdu simple_ops vlan_receiver end_ppdu_vlan empty_sdu
    = Some (C_REASSEMBLY_OK, r', 0, sdu) /\
    delivered_bytes sdu = vlan_ipv4_full_frame /\
    is_context_free r' 0 = true.
Proof.
  pose proof (reassembly_end_ppdu_vlan simple_ops vlan_receiver end_ppdu_vlan
                (repeat 0xaa 12) [0x81; 0x00; 0x00; 0x64; 0x45; 0x00; 0x00; 0x14] [0x00]
                20 false empty_sdu eq_refl
                (conj eq_refl (conj eq_refl eq_refl)) eq_refl eq_refl eq_refl) as H.
  cbv zeta in H.
  destruct (reassembly_insert_vlan_ptype
              (repeat 0xaa 12 ++ [0x81; 0x00; 0x00; 0x64; 0x45; 0x00; 0x00; 0x14]) empty_sdu)
    as [sdu | ] eqn:Hinsert; [ | discriminate Hinsert ].
  destruct (H ltac:(injection Hinsert as <-; reflexivity)) as (r' & Hrun & Hfree).
  exists r', sdu. split; [ exact Hrun | ]. split; [ | exact Hfree ].
  injection Hinsert as <-. reflexivity.
Defined.

End ReassemblyProofs.

(** ** test_rle_encap.c *)

Module TestRleEncapProofs.
Import TestRleEncap.

Lemma bytes_eqb_eq (a b : list Z) : bytes_eqb a b = true <-> a = b.
Proof.
  revert b. induction a as [ | x a IH]; intros [ | y b]; simpl; split; intros H;
    try reflexivity; try discriminate.
  - apply andb_true_iff in H. destruct H as [Hx Hab].
    apply Z.eqb_eq in Hx. apply IH in Hab. congruence.
  - injection H as -> ->. rewrite Z.eqb_refl. simpl. now apply IH.
Qed.

(** A transmitter passes [test_encap] on an input exactly when its
    encapsulation succeeds and the ALPDU it dumps is the header of
    [theorical_alpdu_header] followed by the SDU. *)
Lemma test_encap_passes (payload_initializer : list Z)
    (encapsulate_and_dump : rle_context_configuration -> list Z -> Z -> Z -> option (list Z))
    (protocol_type : Z) (conf : rle_context_configuration) (length : nat) (frag_id : Z) :
  (length <= List.length payload_initializer)%nat ->
  test_encap payload_initializer encapsulate_and_dump protocol_type conf length frag_id = true
  <->
  encapsulate_and_dump conf (firstn length payload_initializer) protocol_type frag_id
  = Some (theorical_alpdu_header protocol_type conf length frag_id
          ++ firstn length payload_initializer).
Proof.
  intros Hlen. unfold test_encap, check_encap, compare_packets.
  set (sdu := firstn length payload_initializer).
  set (h := theorical_alpdu_header protocol_type conf length frag_id).
  assert (Hsdu : List.length sdu = length) by (unfold sdu; rewrite length_firstn; lia).
  destruct (encapsulate_and_dump conf sdu protocol_type frag_id) as [alpdu | ].
  - rewrite Hsdu. split.
    + intros H.
      destruct (Nat.eqb_spec (List.length h + length) (List.length alpdu)) as [E1 | ];
        [ | discriminate ].
      destruct (Nat.eqb_spec (length + List.length h) (List.length alpdu)) as [E2 | ];
        [ | discriminate ].
      destruct (Nat.eqb_spec (List.length alpdu) (List.length (h ++ sdu))) as [E3 | ];
        [ | discriminate ].
      cbn [negb] in H. apply bytes_eqb_eq in H. now subst alpdu.
    + intros H. injection H as ->.
      rewrite length_app, Hsdu, (Nat.add_comm length), !Nat.eqb_refl. cbn [negb].
      now apply bytes_eqb_eq.
  - split; discriminate.
Qed.

(** The two bytes of an uncompressed protocol type, low byte first. *)
Lemma little_endian_bytes (protocol_type : Z) :
  0 <= protocol_type < 65536 ->
  Z.land protocol_type 0x00ff = protocol_type mod 256 /\
  Z.shiftr (Z.land protocol_type 0xff00) 8 = protocol_type / 256.
Proof.
  intros Hrange. split.
  - change 0x00ff with (Z.ones 8). rewrite Z.land_ones by lia. reflexivity.
  - rewrite Z.shiftr_land. change (Z.shiftr 0xff00 8) with (Z.ones 8).
    rewrite Z.land_ones, Z.shiftr_div_pow2 by lia.
    change (2 ^ 8) with 256. apply Z.mod_small.
    split; [ apply Z.div_pos; lia | apply Z.div_lt_upper_bound; lia ].
Qed.

Lemma is_suppressible_without_implicit_type (protocol_type : Z) :
  is_suppressible protocol_type 0x00 = (protocol_type =? 0x0082).
Proof.
  unfold is_suppressible.
  repeat match goal with
         | |- context [if ?b then _ else _] => destruct b
         end; reflexivity.
Qed.

Lemma is_suppressible_l2s (default_ptype : Z) : is_suppressible 0x0082 default_ptype = true.
Proof. reflexivity. Qed.


(** The configurations of [test_encap_all]. *)
Lemma test_encap_all_configurations (default_ptype : Z) :
  tested_configuration conf_uncomp /\ tested_configuration conf_comp /\
  tested_configuration (conf_omitted default_ptype) /\
  tested_configuration conf_omitted_ip /\ tested_configuration conf_not_omitted.
Proof. repeat split; intros H; try reflexivity; discriminate H. Qed.

(** On these configurations the test of [is_suppressible] alone is the
    test "L2S, or omission allowed and the pair in the table". *)
Lemma is_suppressible_on_tested_configuration (protocol_type : Z)
    (conf : rle_context_configuration) :
  tested_configuration conf ->
  is_suppressible protocol_type (implicit_protocol_type conf)
  = (protocol_type =? 0x0082)
    || (use_ptype_omission conf
        && is_suppressible protocol_type (implicit_protocol_type conf)).
Proof.
  intros Htested. destruct (use_ptype_omission conf) eqn:Homit.
  - rewrite andb_true_l.
    destruct (Z.eqb_spec protocol_type 0x0082) as [-> | ]; reflexivity.
  - rewrite (Htested Homit), is_suppressible_without_implicit_type.
    now rewrite andb_false_l, orb_false_r.
Qed.

Lemma theorical_alpdu_header_cases (protocol_type : Z)
    (conf : rle_context_configuration) (length : nat) (frag_id : Z) :
  0 <= protocol_type < 65536 ->
  tested_configuration conf ->
  theorical_alpdu_header protocol_type conf length frag_id
  = if (protocol_type =? 0x0082)
       || (use_ptype_omission conf
           && is_suppressible protocol_type (implicit_protocol_type conf))
    then []
    else if use_compressed_ptype conf then
      match compressed_ptype protocol_type with
      | Some code => [code]
      | None => [0xff; protocol_type mod 256; protocol_type / 256]
      end
    else [protocol_type mod 256; protocol_type / 256].
Proof.
  intros Hrange Htested.
  destruct (little_endian_bytes protocol_type Hrange) as [Hlo Hhi].
  unfold theorical_alpdu_header. rewrite Hlo, Hhi.
  rewrite <- (is_suppressible_on_tested_configuration protocol_type conf Htested).
  destruct (is_suppressible protocol_type (implicit_protocol_type conf)); reflexivity.
Qed.

(** On the configurations of [test_encap_all], the header of the
    encapsulation is the one [test_encap] requires. *)
Lemma alpdu_header_is_required (protocol_type : Z) (conf : rle_context_configuration)
    (length : nat) (frag_id : Z) :
  0 <= protocol_type < 65536 ->
  tested_configuration conf ->
  theorical_alpdu_header protocol_type conf length frag_id = alpdu_header conf protocol_type.
Proof.
  intros Hrange Htested. unfold alpdu_header.
  now apply theorical_alpdu_header_cases.
Qed.

Lemma rle_encapsulate_passes_test_encap (payload_initializer : list Z) (protocol_type : Z)
    (conf : rle_context_configuration) (length : nat) (frag_id : Z) :
  0 <= protocol_type < 65536 ->
  tested_configuration conf ->
  (length <= List.length payload_initializer)%nat ->
  Z.of_nat length <= RLE_MAX_PDU_SIZE ->
  test_encap payload_initializer rle_encapsulate_and_dump protocol_type conf length frag_id
  = true.
Proof.
  intros Hrange Htested Hlen Hmax. apply test_encap_passes; [ exact Hlen | ].
  unfold rle_encapsulate_and_dump. rewrite length_firstn.
  replace (RLE_MAX_PDU_SIZE <? Z.of_nat (Nat.min length (List.length payload_initializer)))
    with false by (symmetry; apply Z.ltb_ge; lia).
  now rewrite alpdu_header_is_required.
Qed.

(** [test_encap_all] is the conjunction of its 280 calls of
    [test_encap]. *)
Lemma fold_left_all {A : Type} (g : bool -> A -> bool) (f : A -> bool) (l : list A)
    (init : bool) :
  (forall output x, g output x = output && f x) ->
  fold_left g l init = init && forallb f l.
Proof.
  intros Hg. revert init. induction l as [ | x l IH]; intros init; cbn [fold_left forallb].
  - now rewrite andb_true_r.
  - now rewrite IH, Hg, andb_assoc.
Qed.

Lemma test_encap_all_calls (payload_initializer : list Z)
    (encapsulate_and_dump : rle_context_configuration -> list Z -> Z -> Z -> option (list Z)) :
  test_encap_all payload_initializer encapsulate_and_dump
  = forallb
      (fun protocol_type =>
         forallb
           (fun frag_id =>
              forallb
                (fun conf =>
                   test_encap payload_initializer encapsulate_and_dump protocol_type conf
                     100 frag_id)
                (confs (default_ptype_of protocol_type)))
           [0; 1; 2; 3; 4; 5; 6])
      protocol_types.
Proof.
  unfold test_encap_all.
  rewrite (fold_left_all _
             (fun protocol_type =>
                forallb
                  (fun frag_id =>
                     forallb
                       (fun conf =>
                          test_encap payload_initializer encapsulate_and_dump protocol_type
                            conf 100 frag_id)
                       (confs (default_ptype_of protocol_type)))
                  [0; 1; 2; 3; 4; 5; 6])); [ reflexivity | ].
  intros output protocol_type.
  apply fold_left_all. intros output' frag_id.
  apply fold_left_all. intros output'' conf.
  destruct (test_encap _ _ _ _ _ _); [ now rewrite andb_true_r | now rewrite andb_false_r ].
Qed.

(** The encapsulation that always omits the L2S type passes
    [test_encap_all], whatever the test data of 100 bytes or more. *)
Lemma rle_encapsulate_passes_test_encap_all (payload_initializer : list Z) :
  (100 <= List.length payload_initializer)%nat ->
  test_encap_all payload_initializer rle_encapsulate_and_dump = true.
Proof.
  intros Hlen. rewrite test_encap_all_calls.
  apply forallb_forall. intros protocol_type Hpt.
  apply forallb_forall. intros frag_id _.
  apply forallb_forall. intros conf Hconf.
  apply rle_encapsulate_passes_test_encap; try assumption.
  - unfold protocol_types in Hpt. cbn [In] in Hpt.
    repeat (destruct Hpt as [<- | Hpt]; [ split; [ discriminate | reflexivity ] | ]).
    contradiction.
  - unfold confs in Hconf. cbn [In] in Hconf.
    repeat (destruct Hconf as [<- | Hconf];
            [ intros H; try reflexivity; discriminate H | ]).
    contradiction.
  - unfold RLE_MAX_PDU_SIZE. cbn. discriminate.
Qed.

(** The oracle of [test_encap] tests [is_suppressible] alone: on the
    configuration of [test_encap_too_big], which has an implicit
    protocol type and no omission and on which [test_encap] is never
    run, it would require an empty header for IPv4, where the header of
    the specification has the two bytes of the uncompressed type. *)
Lemma test_encap_oracle_ignores_omission_flag :
  ~ tested_configuration conf_too_big /\
  theorical_alpdu_header 0x0800 conf_too_big 100 0 = [] /\
  specified_alpdu_header conf_too_big 0x0800 = [0x00; 0x08] /\
  alpdu_header conf_too_big 0x0800 = [0x00; 0x08] /\
  test_encap (repeat 0 100) rle_encapsulate_and_dump 0x0800 conf_too_big 100 0 = false.
Proof.
  split; [ intros H; discriminate (H eq_refl) | ].
  repeat split; vm_compute; reflexivity.
Qed.



(** Away from the L2S type, the header required by the test is the one
    the specification describes. *)
Lemma theorical_alpdu_header_as_specified (protocol_type : Z)
    (conf : rle_context_configuration) (length : nat) (frag_id : Z) :
  0 <= protocol_type < 65536 ->
  tested_configuration conf ->
  protocol_type <> 0x0082 ->
  theorical_alpdu_header protocol_type conf length frag_id
  = specified_alpdu_header conf protocol_type.
Proof.
  intros Hrange Htested Hl2s.
  rewrite (theorical_alpdu_header_cases protocol_type conf length frag_id Hrange Htested).
  unfold specified_alpdu_header.
  replace (protocol_type =? 0x0082) with false by (symmetry; now apply Z.eqb_neq).
  now rewrite orb_false_l.
Qed.

(** A transmitter that passes [test_encap] for the L2S type without
    omission nor compression dumps the bare SDU as its ALPDU. *)
Lemma test_encap_l2s_alpdu_is_sdu (payload_initializer : list Z)
    (encapsulate_and_dump : rle_context_configuration -> list Z -> Z -> Z -> option (list Z))
    (length : nat) (frag_id : Z) :
  (length <= List.length payload_initializer)%nat ->
  test_encap payload_initializer encapsulate_and_dump 0x0082 conf_uncomp length frag_id = true ->
  encapsulate_and_dump conf_uncomp (firstn length payload_initializer) 0x0082 frag_id
  = Some (firstn length payload_initializer).
Proof.
  intros Hlen Hpass. now apply test_encap_passes in Hpass.
Qed.

(** *** Further properties of test_rle_encap.c *)

(** X26: [compare_packets] accepts two packets exactly when they are
    the same bytes, and [check_encap] accepts an ALPDU exactly when it
    is the given header followed by the SDU. *)
Theorem check_encap_accepts_header_then_sdu (sdu alpdu alpdu_header pkt_1 pkt_2 : list Z) :
  (compare_packets pkt_1 pkt_2 = true <-> pkt_1 = pkt_2) /\
  (check_encap sdu alpdu alpdu_header = true <-> alpdu = alpdu_header ++ sdu).
Proof.
  assert (Hcompare : forall a b, compare_packets a b = true <-> a = b).
  { intros a b. unfold compare_packets.
    destruct (Nat.eqb_spec (length a) (length b)) as [Hlen | Hlen]; cbn [negb].
    - apply bytes_eqb_eq.
    - split; [ discriminate | intros ->; now elim Hlen ]. }
  split; [ apply Hcompare | ].
  unfold check_encap.
  destruct (Nat.eqb_spec (length sdu + length alpdu_header) (length alpdu)) as [Hlen | Hlen];
    cbn [negb].
  - apply Hcompare.
  - split; [ discriminate | ].
    intros ->. elim Hlen. rewrite length_app. lia.
Qed.

Lemma two_bytes_determine (p q : Z) :
  0 <= p < 65536 -> 0 <= q < 65536 ->
  Z.land p 0x00ff = Z.land q 0x00ff ->
  Z.shiftr (Z.land p 0xff00) 8 = Z.shiftr (Z.land q 0xff00) 8 ->
  p = q.
Proof.
  intros Hp Hq Hlow Hhigh.
  destruct (little_endian_bytes p Hp) as [Lp Bp].
  destruct (little_endian_bytes q Hq) as [Lq Bq].
  rewrite Lp, Lq in Hlow. rewrite Bp, Bq in Hhigh.
  rewrite (Z.div_mod p 256), (Z.div_mod q 256) by lia. now rewrite Hlow, Hhigh.
Qed.

Lemma compressed_ptype_values (p c : Z) :
  compressed_ptype p = Some c ->
  (p = 0x0800 /\ c = 0x0d) \/ (p = 0x86dd /\ c = 0x11) \/ (p = 0x8100 /\ c = 0x0f) \/
  (p = 0x88a8 /\ c = 0x19) \/ (p = 0x9100 /\ c = 0x1a) \/ (p = 0x0806 /\ c = 0x0e).
Proof.
  unfold compressed_ptype.
  repeat match goal with
         | |- context [?a =? ?b] => destruct (Z.eqb_spec a b)
         end; intros [= <-]; tauto.
Qed.

(** X27: under one configuration, the header that [test_encap]
    requires determines the protocol type of every SDU whose type is not
    omitted: two 16-bit protocol types that are not suppressible and get
    the same header are equal. *)
Theorem theorical_alpdu_header_determines_ptype (p q : Z) (conf : rle_context_configuration)
    (length length' : nat) (frag_id frag_id' : Z) :
  0 <= p < 65536 -> 0 <= q < 65536 ->
  is_suppressible p (implicit_protocol_type conf) = false ->
  is_suppressible q (implicit_protocol_type conf) = false ->
  theorical_alpdu_header p conf length frag_id = theorical_alpdu_header q conf length' frag_id' ->
  p = q.
Proof.
  intros Hp Hq Hsp Hsq. unfold theorical_alpdu_header. rewrite Hsp, Hsq. cbn [negb].
  destruct (use_compressed_ptype conf).
  - destruct (compressed_ptype p) as [cp | ] eqn:Hcp;
      destruct (compressed_ptype q) as [cq | ] eqn:Hcq.
    + intros [= <-].
      destruct (compressed_ptype_values _ _ Hcp) as [[-> Hc] | [[-> Hc] | [[-> Hc] | [[-> Hc]
        | [[-> Hc] | [-> Hc]]]]]];
        destruct (compressed_ptype_values _ _ Hcq) as [[-> Hc'] | [[-> Hc'] | [[-> Hc']
        | [[-> Hc'] | [[-> Hc'] | [-> Hc']]]]]];
        congruence.
    + discriminate.
    + discriminate.
    + intros [= Hlow Hhigh]. now apply two_bytes_determine.
  - intros [= Hlow Hhigh]. now apply two_bytes_determine.
Qed.

Lemma theorical_alpdu_header_determines_ptype_witness :
  is_suppressible 0x0800 (implicit_protocol_type conf_comp) = false /\
  is_suppressible 0x86dd (implicit_protocol_type conf_comp) = false /\
  theorical_alpdu_header 0x0800 conf_comp 100 0 <> theorical_alpdu_header 0x86dd conf_comp 100 0.
Proof.
  split; [ reflexivity | ]. split; [ reflexivity | ].
  intros Hsame.
  pose proof (theorical_alpdu_header_determines_ptype 0x0800 0x86dd conf_comp 100 100 0 0
                ltac:(lia) ltac:(lia) eq_refl eq_refl Hsame) as H.
  discriminate H.
Defined.

(** X28: the two tables of the test agree: a protocol type with a
    compressed code is suppressible when that code is the implicit
    protocol type, and only L2S and the protocol types with a compressed
    code are ever suppressible. *)
Theorem is_suppressible_agrees_with_compressed_ptype (protocol_type default_ptype : Z) :
  (forall code, compressed_ptype protocol_type = Some code ->
                is_suppressible protocol_type code = true) /\
  (is_suppressible protocol_type default_ptype = true ->
   protocol_type = 0x0082 \/ compressed_ptype protocol_type <> None).
Proof.
  split.
  - intros code Hcode.
    destruct (compressed_ptype_values _ _ Hcode) as [[-> ->] | [[-> ->] | [[-> ->] | [[-> ->]
      | [[-> ->] | [-> ->]]]]]]; reflexivity.
  - unfold is_suppressible, compressed_ptype.
    repeat match goal with
           | |- context [protocol_type =? ?b] => destruct (Z.eqb_spec protocol_type b)
           end; intros H; try discriminate H; try (now left); right; discriminate.
Qed.

End TestRleEncapProofs.

(** ** The header overhead query *)

Module TestRleMiscProofs.
Import TestRleMisc.

(** The query of the specification passes the two tests of
    test_rle_misc.c. *)
Lemma rle_get_header_size_passes_tests :
  test_request_rle_header_overhead_all rle_get_header_size = true /\
  test_request_rle_header_overhead_traffic rle_get_header_size = true.
Proof. split; reflexivity. Qed.

(** C8: for every valid configuration, whatever its omission and
    compression settings, the header size is 6 for a Logon FPDU, 3 for a
    Control FPDU and 5 for a Traffic-Control FPDU; a Traffic FPDU gets
    the non-deterministic error and no size. *)
Theorem rle_get_header_size_fixed_overheads (conf : rle_config) (before : Z) :
  rle_config_is_valid conf = true ->
  rle_get_header_size (Some conf) RLE_LOGON_FPDU before = (RLE_HEADER_SIZE_OK, 6) /\
  rle_get_header_size (Some conf) RLE_CTRL_FPDU before = (RLE_HEADER_SIZE_OK, 3) /\
  rle_get_header_size (Some conf) RLE_TRAFFIC_CTRL_FPDU before = (RLE_HEADER_SIZE_OK, 5) /\
  rle_get_header_size (Some conf) RLE_TRAFFIC_FPDU before
  = (RLE_HEADER_SIZE_ERR_NON_DETERMINISTIC, before).
Proof.
  intros _. unfold rle_get_header_size. repeat split.
Qed.

Lemma rle_get_header_size_fixed_overheads_witness :
  rle_config_is_valid (plain_conf true false 0x0d) = true /\
  rle_get_header_size (Some (plain_conf true false 0x0d)) RLE_TRAFFIC_CTRL_FPDU 0
  = (RLE_HEADER_SIZE_OK, 5).
Proof.
  split; [ reflexivity | ].
  exact (proj1 (proj2 (proj2 (rle_get_header_size_fixed_overheads
                                (plain_conf true false 0x0d) 0 eq_refl)))).
Defined.

(** *** What the tests of test_rle_misc.c require *)

Section UnderTest.

Variable get_header_size :
  option rle_config -> rle_fpdu_types -> Z -> rle_header_size_status * Z.

Lemma test_request_rle_header_overhead_passes (fpdu_type : rle_fpdu_types)
    (expected_size : Z) (conf : rle_config) :
  test_request_rle_header_overhead get_header_size fpdu_type expected_size conf = true
  <-> get_header_size (Some conf) fpdu_type 0 = (RLE_HEADER_SIZE_OK, expected_size).
Proof.
  unfold test_request_rle_header_overhead.
  destruct (get_header_size (Some conf) fpdu_type 0) as [st sz].
  destruct st; cbn [header_size_status_eqb]; split; intros H; try discriminate;
    try (apply Z.eqb_eq in H; now subst);
    injection H as ->; apply Z.eqb_refl.
Qed.

(** X29: a query passes [test_request_rle_header_overhead_all] exactly
    when, called with a size of 0, it answers RLE_HEADER_SIZE_OK with 6
    for the Logon request, 3 for the Control request and 5 for each of
    the three Traffic-Control requests (omission, compression, neither),
    every request counting; it passes
    [test_request_rle_header_overhead_traffic] exactly when its status
    for a Traffic FPDU is RLE_HEADER_SIZE_ERR_NON_DETERMINISTIC. *)
Theorem test_request_rle_header_overhead_requirements :
  (test_request_rle_header_overhead_all get_header_size = true <->
   get_header_size (Some (plain_conf false false 0x00)) RLE_LOGON_FPDU 0
   = (RLE_HEADER_SIZE_OK, 6) /\
   get_header_size (Some (plain_conf false false 0x00)) RLE_CTRL_FPDU 0
   = (RLE_HEADER_SIZE_OK, 3) /\
   get_header_size (Some (plain_conf true false 0x34)) RLE_TRAFFIC_CTRL_FPDU 0
   = (RLE_HEADER_SIZE_OK, 5) /\
   get_header_size (Some (plain_conf false true 0x34)) RLE_TRAFFIC_CTRL_FPDU 0
   = (RLE_HEADER_SIZE_OK, 5) /\
   get_header_size (Some (plain_conf false false 0x34)) RLE_TRAFFIC_CTRL_FPDU 0
   = (RLE_HEADER_SIZE_OK, 5)) /\
  (test_request_rle_header_overhead_traffic get_header_size = true <->
   fst (get_header_size (Some (plain_conf false false 0x00)) RLE_TRAFFIC_FPDU 0)
   = RLE_HEADER_SIZE_ERR_NON_DETERMINISTIC).
Proof.
  split.
  - unfold test_request_rle_header_overhead_all, test_requests.
    cbn [fold_left fpdu_type expected_size conf andb].
    rewrite !andb_true_iff, !test_request_rle_header_overhead_passes. tauto.
  - unfold test_request_rle_header_overhead_traffic.
    destruct (get_header_size _ _ _) as [st sz]. cbn [fst].
    destruct st; cbn [header_size_status_eqb]; split; intros H; try discriminate;
      reflexivity.
Qed.

End UnderTest.

End TestRleMiscProofs.
